(** * Rapier physics plugin for Vatom Spaces: synchronisation core

  A shallow embedding of the plugin's per-object component
  ([PhysicsComponent]) and of the plugin object that owns the list of
  components and the list of active collisions ([RapierPhysicsPlugin]).

  The repository holds two drafts of the component:
  - the multi-collider draft (field [colliders], asynchronous
    [createPhysics], fallback cube for unknown shapes), embedded in
    [Module PhysicsComponent];
  - the single-collider draft of [src/PhysicsComponent.js] (field
    [collider], synchronous [createPhysics]), embedded in
    [Module SingleCollider].

  Conventions of the embedding:
  - JavaScript numbers that are only copied, compared with zero or fed to
    [Math.max] are rationals ([Q]); counters, handles and timestamps are
    integers ([Z], [N]);
  - a JavaScript value that may be [undefined] is an [option];
  - the physics engine, the console, the message bus and the object store
    are external: the engine is a finite map from handles to bodies and
    colliders, the others are logs of the calls made on them;
  - [Date.now()] is an argument of the functions that read the clock;
  - an [await] splits a function in the part that runs before it and the
    part that runs when the awaited value arrives. *)

From Stdlib Require Import QArith Qround.
From stdpp Require Import gmap strings list fin_maps pretty.

Local Open Scope Z_scope.

(** ** JavaScript truthiness and [||] *)

Module Js.

(** [x || d] on a number that may be undefined: zero is falsy. *)
Definition num_or (x : option Q) (d : Q) : Q :=
  match x with
  | Some q => if Qeq_bool q 0 then d else q
  | None => d
  end.

(** Truthiness of a number that may be undefined. *)
Definition num_truthy (x : option Q) : bool :=
  match x with
  | Some q => negb (Qeq_bool q 0)
  | None => false
  end.

(** Truthiness of a string that may be undefined: the empty string is
    falsy. *)
Definition str_truthy (x : option string) : bool :=
  match x with
  | Some EmptyString => false
  | Some _ => true
  | None => false
  end.

(** [x || d] on a string that may be undefined. *)
Definition str_or (x : option string) (d : string) : string :=
  match x with
  | Some EmptyString => d
  | Some s => s
  | None => d
  end.

(** Truthiness of a timestamp that may be undefined. *)
Definition time_truthy (x : option Z) : bool :=
  match x with
  | Some t => negb (t =? 0)
  | None => false
  end.

Definition Math_max (a b : Q) : Q := if Qle_bool a b then b else a.

End Js.

(** ** The engine, as far as the plugin calls it *)

Module Rapier.

Record Vector := { x : Q; y : Q; z : Q }.
Record Quaternion := { qx : Q; qy : Q; qz : Q; qw : Q }.

Definition zero : Vector := {| x := 0; y := 0; z := 0 |}.
Definition identity : Quaternion := {| qx := 0; qy := 0; qz := 0; qw := 1 |}.

Inductive RigidBodyType := Fixed | Dynamic | KinematicPositionBased.

(** [RigidBodyDesc]: built by [fixed()], [dynamic()], ... and changed by
    its setters before the body is created. *)
Record RigidBodyDesc := {
  status : RigidBodyType;
  d_translation : Vector;
  d_rotation : Quaternion;
  d_additionalMass : Q;
  d_rotationsLocked : bool
}.

Definition desc_of (t : RigidBodyType) : RigidBodyDesc :=
  {| status := t; d_translation := zero; d_rotation := identity;
     d_additionalMass := 0; d_rotationsLocked := false |}.

Definition fixed : RigidBodyDesc := desc_of Fixed.
Definition dynamic : RigidBodyDesc := desc_of Dynamic.
Definition kinematicPositionBased : RigidBodyDesc := desc_of KinematicPositionBased.

Definition setAdditionalMass (m : Q) (d : RigidBodyDesc) : RigidBodyDesc :=
  {| status := status d; d_translation := d_translation d;
     d_rotation := d_rotation d; d_additionalMass := m;
     d_rotationsLocked := d_rotationsLocked d |}.

Definition desc_setTranslation (v : Vector) (d : RigidBodyDesc) : RigidBodyDesc :=
  {| status := status d; d_translation := v;
     d_rotation := d_rotation d; d_additionalMass := d_additionalMass d;
     d_rotationsLocked := d_rotationsLocked d |}.

Definition desc_setRotation (q : Quaternion) (d : RigidBodyDesc) : RigidBodyDesc :=
  {| status := status d; d_translation := d_translation d;
     d_rotation := q; d_additionalMass := d_additionalMass d;
     d_rotationsLocked := d_rotationsLocked d |}.

Definition lockRotations (d : RigidBodyDesc) : RigidBodyDesc :=
  {| status := status d; d_translation := d_translation d;
     d_rotation := d_rotation d; d_additionalMass := d_additionalMass d;
     d_rotationsLocked := true |}.

(** A body in the world. *)
Record RigidBody := {
  bodyType : RigidBodyType;
  translation : Vector;
  rotation : Quaternion;
  angvel : Vector;
  linvel : Vector;
  additionalMass : Q;
  rotationsLocked : bool;
  sleeping : bool
}.

Definition body_of_desc (d : RigidBodyDesc) : RigidBody :=
  {| bodyType := status d; translation := d_translation d;
     rotation := d_rotation d; angvel := zero; linvel := zero;
     additionalMass := d_additionalMass d;
     rotationsLocked := d_rotationsLocked d; sleeping := false |}.

#[export] Instance RigidBody_inhabited : Inhabited RigidBody :=
  populate (body_of_desc fixed).

Definition setTranslation (v : Vector) (b : RigidBody) : RigidBody :=
  {| bodyType := bodyType b; translation := v; rotation := rotation b;
     angvel := angvel b; linvel := linvel b;
     additionalMass := additionalMass b;
     rotationsLocked := rotationsLocked b; sleeping := sleeping b |}.

Definition setRotation (q : Quaternion) (b : RigidBody) : RigidBody :=
  {| bodyType := bodyType b; translation := translation b; rotation := q;
     angvel := angvel b; linvel := linvel b;
     additionalMass := additionalMass b;
     rotationsLocked := rotationsLocked b; sleeping := sleeping b |}.

Definition setAngvel (v : Vector) (b : RigidBody) : RigidBody :=
  {| bodyType := bodyType b; translation := translation b;
     rotation := rotation b; angvel := v; linvel := linvel b;
     additionalMass := additionalMass b;
     rotationsLocked := rotationsLocked b; sleeping := sleeping b |}.

Definition setLinvel (v : Vector) (b : RigidBody) : RigidBody :=
  {| bodyType := bodyType b; translation := translation b;
     rotation := rotation b; angvel := angvel b; linvel := v;
     additionalMass := additionalMass b;
     rotationsLocked := rotationsLocked b; sleeping := sleeping b |}.

Definition wakeUp (b : RigidBody) : RigidBody :=
  {| bodyType := bodyType b; translation := translation b;
     rotation := rotation b; angvel := angvel b; linvel := linvel b;
     additionalMass := additionalMass b;
     rotationsLocked := rotationsLocked b; sleeping := false |}.

(** Collider shapes the plugin asks for. *)
Inductive Shape :=
| ball (radius : Q)
| cuboid (hx hy hz : Q)
| cylinder (halfHeight radius : Q)
| convexHull (vertices : list Q)
| trimesh (vertices : list Q) (indices : list N).

Inductive ActiveEvents := NO_EVENTS | COLLISION_EVENTS | CONTACT_FORCE_EVENTS.

Record Collider := {
  shape : Shape;
  parent : option N;
  activeEvents : ActiveEvents
}.

Definition setActiveEvents (e : ActiveEvents) (c : Collider) : Collider :=
  {| shape := shape c; parent := parent c; activeEvents := e |}.

(** The world: the live bodies and colliders by handle, and the next
    handle of each kind. *)
Record World := {
  bodies : gmap N RigidBody;
  colliders : gmap N Collider;
  nextBody : N;
  nextCollider : N
}.

Definition createRigidBody (d : RigidBodyDesc) (w : World) : N * World :=
  (nextBody w,
   {| bodies := <[nextBody w := body_of_desc d]> (bodies w);
      colliders := colliders w;
      nextBody := N.succ (nextBody w);
      nextCollider := nextCollider w |}).

Definition createCollider (s : Shape) (body : option N) (w : World) : N * World :=
  (nextCollider w,
   {| bodies := bodies w;
      colliders := <[nextCollider w :=
                      {| shape := s; parent := body; activeEvents := NO_EVENTS |}]>
                   (colliders w);
      nextBody := nextBody w;
      nextCollider := N.succ (nextCollider w) |}).

(** Removing a body removes the colliders attached to it. *)
Definition removeRigidBody (h : N) (w : World) : World :=
  {| bodies := delete h (bodies w);
     colliders := filter (λ kc, parent kc.2 ≠ Some h) (colliders w);
     nextBody := nextBody w;
     nextCollider := nextCollider w |}.

(** A method call on the body behind a handle. *)
Definition on_body (f : RigidBody → RigidBody) (h : N) (w : World) : World :=
  {| bodies := alter f h (bodies w);
     colliders := colliders w;
     nextBody := nextBody w;
     nextCollider := nextCollider w |}.

Definition on_collider (f : Collider → Collider) (h : N) (w : World) : World :=
  {| bodies := bodies w;
     colliders := alter f h (colliders w);
     nextBody := nextBody w;
     nextCollider := nextCollider w |}.

(** Reading the body behind a handle. *)
Definition body_at (h : N) (w : World) : RigidBody := bodies w !!! h.

End Rapier.

(** ** What a component sees of the plugin and of the host application *)

Module Host.

Import Rapier.

(** Lines written to the console, by the template they come from. *)
Inductive LogEntry :=
| WarnParented (objectID : string) (name : option string)
| DebugCreating (objectID : string) (name : option string)
                (mode type : string) (sync : bool)
| WarnUnknownMode (objectID : string) (name : option string) (mode : string)
| WarnUnknownShape (objectID : string) (name : option string) (type : string)
| DebugRemoving (objectID : string) (name : option string)
| WarnFellOut (objectID : string) (name : option string).

(** The record handed to [messages.send]; the arrays [pos], [quat],
    [angvel] and [linvel] have a fixed length and are records here. *)
Record Message := {
  action : string;
  inst : string;
  obj : string;
  counter : Z;
  pos : Vector;
  quat : Quaternion;
  m_angvel : Vector;
  m_linvel : Vector
}.

(** Calls of [objects.update(id, fields, true)]. *)
Inductive StoreUpdate :=
| UpdateTransform (objectID : string) (t : Vector) (q : Quaternion)
| UpdateHeight (objectID : string) (height : Q).

(** One sub-mesh returned by [objects.getVertices]. *)
Record Mesh := { vertices : list Q; indices : list N }.

Record Ctx := {
  instanceID : string;
  world : World;
  sent : list Message;
  numMessagesOut : Z;
  console : list LogEntry;
  updates : list StoreUpdate
}.

Definition set_world (w : World) (c : Ctx) : Ctx :=
  {| instanceID := instanceID c; world := w; sent := sent c;
     numMessagesOut := numMessagesOut c; console := console c;
     updates := updates c |}.

Definition log (e : LogEntry) (c : Ctx) : Ctx :=
  {| instanceID := instanceID c; world := world c; sent := sent c;
     numMessagesOut := numMessagesOut c; console := console c ++ [e];
     updates := updates c |}.

Definition objects_update (u : StoreUpdate) (c : Ctx) : Ctx :=
  {| instanceID := instanceID c; world := world c; sent := sent c;
     numMessagesOut := numMessagesOut c; console := console c;
     updates := updates c ++ [u] |}.

Definition messages_send (m : Message) (c : Ctx) : Ctx :=
  {| instanceID := instanceID c; world := world c; sent := sent c ++ [m];
     numMessagesOut := numMessagesOut c; console := console c;
     updates := updates c |}.

Definition count_message_out (c : Ctx) : Ctx :=
  {| instanceID := instanceID c; world := world c; sent := sent c;
     numMessagesOut := numMessagesOut c + 1; console := console c;
     updates := updates c |}.

(** The object's stored fields ([this.fields]). *)
Record Fields := {
  name : option string;
  f_parent : option string;
  f_type : option string;
  f_x : Q;
  f_height : option Q;
  f_y : Q;
  quatX : option Q;
  quatY : option Q;
  quatZ : option Q;
  quatW : option Q;
  scale : option Q;
  scale_x : option Q;
  scale_y : option Q;
  scale_z : option Q
}.

Definition set_height (h : Q) (f : Fields) : Fields :=
  {| name := name f; f_parent := f_parent f; f_type := f_type f;
     f_x := f_x f; f_height := Some h; f_y := f_y f;
     quatX := quatX f; quatY := quatY f; quatZ := quatZ f; quatW := quatW f;
     scale := scale f; scale_x := scale_x f; scale_y := scale_y f;
     scale_z := scale_z f |}.

(** The component's settings from the Editor ([this.getField]);
    [s_mass] is the outcome of [parseFloat], [None] when it is not a
    number; the checkboxes are kept by their truthiness. *)
Record Settings := {
  s_enabled : bool;
  s_synchronized : bool;
  s_mode : option string;
  s_type : option string;
  s_mass : option Q;
  s_disable_rotation : bool;
  s_click_bounce : bool
}.

(** The body descriptor of both drafts, after the mode has been
    checked: initial position, rotation when one is stored, rotation
    lock. *)
Definition place (f : Fields) (lock : bool) (d : RigidBodyDesc) : RigidBodyDesc :=
  let d := desc_setTranslation
             {| x := f_x f; y := Js.num_or (f_height f) 0; z := f_y f |} d in
  let d := if Js.num_truthy (quatX f) || Js.num_truthy (quatY f)
              || Js.num_truthy (quatZ f) || Js.num_truthy (quatW f)
           then desc_setRotation
                  {| qx := Js.num_or (quatX f) 0; qy := Js.num_or (quatY f) 0;
                     qz := Js.num_or (quatZ f) 0; qw := Js.num_or (quatW f) 0 |} d
           else d in
  if lock then lockRotations d else d.

(** [Math.max(0.01, parseFloat(getField('mass')) || 1)] *)
Definition mass_of (s : Settings) : Q :=
  Js.Math_max (1 # 100) (Js.num_or (s_mass s) 1).

End Host.

(** ** The component, multi-collider draft *)

Module PhysicsComponent.

Import Rapier Host.

(** The instance fields. [synchronized] and [lastUpdateSent] are not
    declared by the class: [synchronized] is undefined (falsy) until
    [createPhysics] assigns a boolean, [lastUpdateSent] is undefined until
    the first send. *)
Record t := {
  objectID : string;
  fields : Fields;
  settings : Settings;
  body : option N;
  colliders : list N;
  mode : string;
  type : string;
  synchronized : bool;
  mass : Q;
  disableRotation : bool;
  bounceOnClick : bool;
  syncCounter : Z;
  sendUpdateNextFrame : bool;
  lastUpdateSent : option Z
}.

(** A fresh instance, with the class's field initialisers. *)
Definition new (id : string) (f : Fields) (s : Settings) : t :=
  {| objectID := id; fields := f; settings := s;
     body := None; colliders := [];
     mode := "Static"; type := "Sphere"; synchronized := false;
     mass := 1; disableRotation := false; bounceOnClick := false;
     syncCounter := 0; sendUpdateNextFrame := false;
     lastUpdateSent := None |}.

(** [this.body = b; this.colliders = cs] *)
Definition set_physics (b : option N) (cs : list N) (o : t) : t :=
  {| objectID := objectID o; fields := fields o; settings := settings o;
     body := b; colliders := cs;
     mode := mode o; type := type o; synchronized := synchronized o;
     mass := mass o; disableRotation := disableRotation o;
     bounceOnClick := bounceOnClick o; syncCounter := syncCounter o;
     sendUpdateNextFrame := sendUpdateNextFrame o;
     lastUpdateSent := lastUpdateSent o |}.

(** The block "Get properties from the Editor", which ends with
    [this.syncCounter = 0]. *)
Definition read_settings (o : t) : t :=
  let s := settings o in
  {| objectID := objectID o; fields := fields o; settings := s;
     body := body o; colliders := colliders o;
     mode := Js.str_or (s_mode s) "Static";
     type := Js.str_or (s_type s) "Automatic";
     synchronized := s_synchronized s;
     mass := mass_of s;
     disableRotation := s_disable_rotation s;
     bounceOnClick := s_click_bounce s;
     syncCounter := 0;
     sendUpdateNextFrame := sendUpdateNextFrame o;
     lastUpdateSent := lastUpdateSent o |}.

Definition set_type (ty : string) (o : t) : t :=
  {| objectID := objectID o; fields := fields o; settings := settings o;
     body := body o; colliders := colliders o;
     mode := mode o; type := ty; synchronized := synchronized o;
     mass := mass o; disableRotation := disableRotation o;
     bounceOnClick := bounceOnClick o; syncCounter := syncCounter o;
     sendUpdateNextFrame := sendUpdateNextFrame o;
     lastUpdateSent := lastUpdateSent o |}.

Definition set_fields (f : Fields) (o : t) : t :=
  {| objectID := objectID o; fields := f; settings := settings o;
     body := body o; colliders := colliders o;
     mode := mode o; type := type o; synchronized := synchronized o;
     mass := mass o; disableRotation := disableRotation o;
     bounceOnClick := bounceOnClick o; syncCounter := syncCounter o;
     sendUpdateNextFrame := sendUpdateNextFrame o;
     lastUpdateSent := lastUpdateSent o |}.

(** A change of the settings in the Editor, made by the host. *)
Definition set_settings (s : Settings) (o : t) : t :=
  {| objectID := objectID o; fields := fields o; settings := s;
     body := body o; colliders := colliders o;
     mode := mode o; type := type o; synchronized := synchronized o;
     mass := mass o; disableRotation := disableRotation o;
     bounceOnClick := bounceOnClick o; syncCounter := syncCounter o;
     sendUpdateNextFrame := sendUpdateNextFrame o;
     lastUpdateSent := lastUpdateSent o |}.

Definition set_syncCounter (n : Z) (o : t) : t :=
  {| objectID := objectID o; fields := fields o; settings := settings o;
     body := body o; colliders := colliders o;
     mode := mode o; type := type o; synchronized := synchronized o;
     mass := mass o; disableRotation := disableRotation o;
     bounceOnClick := bounceOnClick o; syncCounter := n;
     sendUpdateNextFrame := sendUpdateNextFrame o;
     lastUpdateSent := lastUpdateSent o |}.

Definition set_sendUpdateNextFrame (b : bool) (o : t) : t :=
  {| objectID := objectID o; fields := fields o; settings := settings o;
     body := body o; colliders := colliders o;
     mode := mode o; type := type o; synchronized := synchronized o;
     mass := mass o; disableRotation := disableRotation o;
     bounceOnClick := bounceOnClick o; syncCounter := syncCounter o;
     sendUpdateNextFrame := b;
     lastUpdateSent := lastUpdateSent o |}.

Definition set_lastUpdateSent (now : Z) (o : t) : t :=
  {| objectID := objectID o; fields := fields o; settings := settings o;
     body := body o; colliders := colliders o;
     mode := mode o; type := type o; synchronized := synchronized o;
     mass := mass o; disableRotation := disableRotation o;
     bounceOnClick := bounceOnClick o; syncCounter := syncCounter o;
     sendUpdateNextFrame := sendUpdateNextFrame o;
     lastUpdateSent := Some now |}.

(** The state without a body: no collider is listed either. *)
Definition consistent (o : t) : Prop := body o = None → colliders o = [].

(** *** removePhysics *)

Definition removePhysics (o : t) (c : Ctx) : t * Ctx :=
  match body o with
  | None => (o, c)
  | Some b =>
      let c := log (DebugRemoving (objectID o) (name (fields o))) c in
      let c := set_world (removeRigidBody b (world c)) c in
      (set_physics None [] o, c)
  end.

(** *** createPhysics *)

(** The chain that replaces the type ['Automatic']. *)
Definition resolve_type (ty : string) (kind : option string) (mode : string) : string :=
  if bool_decide (ty = "Automatic") && bool_decide (kind = Some "cylinder") then "Cylinder"
  else if bool_decide (ty = "Automatic") && bool_decide (kind = Some "cube") then "Cube"
  else if bool_decide (ty = "Automatic") && bool_decide (kind = Some "sphere") then "Sphere"
  else if bool_decide (ty = "Automatic") && bool_decide (mode = "Static") then "Trimesh"
  else if bool_decide (ty = "Automatic") then "Convex Hull"
  else ty.

(** The descriptor chosen by the mode; [None] is the branch "Unknown
    mode!". *)
Definition desc_of_mode (o : t) : option RigidBodyDesc :=
  if bool_decide (mode o = "Static") then Some fixed
  else if bool_decide (mode o = "Dynamic") then Some (setAdditionalMass (mass o) dynamic)
  else None.

Definition sphere_shape (f : Fields) : Shape :=
  let sizeUniform := Js.num_or (scale f) 1 in
  let sizeX := ((1 # 2) * Js.num_or (scale_x f) 1 * sizeUniform)%Q in
  let sizeY := ((1 # 2) * Js.num_or (scale_y f) 1 * sizeUniform)%Q in
  let sizeZ := ((1 # 2) * Js.num_or (scale_z f) 1 * sizeUniform)%Q in
  ball (Js.Math_max sizeX (Js.Math_max sizeY sizeZ)).

Definition cube_shape (f : Fields) : Shape :=
  let sizeUniform := Js.num_or (scale f) 1 in
  let sizeX := (1 * Js.num_or (scale_x f) 1 * sizeUniform)%Q in
  let sizeY := (1 * Js.num_or (scale_y f) 1 * sizeUniform)%Q in
  let sizeZ := (1 * Js.num_or (scale_z f) 1 * sizeUniform)%Q in
  cuboid (sizeX / 2) (sizeY / 2) (sizeZ / 2).

Definition cylinder_shape (f : Fields) : Shape :=
  let sizeUniform := Js.num_or (scale f) 1 in
  let sizeX := ((1 # 2) * Js.num_or (scale_x f) 1 * sizeUniform)%Q in
  let sizeY := (1 * Js.num_or (scale_y f) 1 * sizeUniform)%Q in
  let sizeZ := ((1 # 2) * Js.num_or (scale_z f) 1 * sizeUniform)%Q in
  cylinder (sizeY / 2) (Js.Math_max sizeX sizeZ).

(** The loop that scales the flat vertex array three entries at a time; a
    last incomplete triple has its present entries scaled. *)
Fixpoint scale_vertices (sx sy sz : Q) (v : list Q) : list Q :=
  match v with
  | a :: b :: c :: rest =>
      (a * sx)%Q :: (b * sy)%Q :: (c * sz)%Q :: scale_vertices sx sy sz rest
  | [a; b] => [(a * sx)%Q; (b * sy)%Q]
  | [a] => [(a * sx)%Q]
  | [] => []
  end.

Inductive MeshKind := Hull | Tri.

Definition mesh_shape (k : MeshKind) (f : Fields) (m : Mesh) : Shape :=
  let scaleUniform := Js.num_or (scale f) 1 in
  let scaleX := (Js.num_or (scale_x f) 1 * scaleUniform)%Q in
  let scaleY := (Js.num_or (scale_y f) 1 * scaleUniform)%Q in
  let scaleZ := (Js.num_or (scale_z f) 1 * scaleUniform)%Q in
  let vs := scale_vertices scaleX scaleY scaleZ (vertices m) in
  match k with
  | Hull => convexHull vs
  | Tri => trimesh vs (indices m)
  end.

(** [for (obj of objects) { ... createCollider(desc2, body); push }].
    The engine cannot build a hull or a mesh from every vertex array:
    [ColliderDesc.convexHull] gives [null] when it fails, and
    [createCollider] throws on what it cannot build. Which shapes the
    engine builds is its own business and the component does not ask, so
    [buildable] is a parameter. [None] is the throw: it ends the loop, and
    the colliders created before it stay in the world. *)
Fixpoint create_colliders (buildable : Shape → bool) (shapes : list Shape)
    (body : N) (w : World) : option (list N) * World :=
  match shapes with
  | [] => (Some [], w)
  | s :: rest =>
      if buildable s
      then
        let '(h, w) := createCollider s (Some body) w in
        let '(hs, w) := create_colliders buildable rest body w in
        (cons h <$> hs, w)
      else (None, w)
  end.

(** [for (collider of colliders) collider.setActiveEvents(COLLISION_EVENTS)] *)
Definition enable_events (cs : list N) (w : World) : World :=
  foldl (λ w h, on_collider (setActiveEvents COLLISION_EVENTS) h w) w cs.

(** The end of [createPhysics], from "Enable collision events" on. *)
Definition finish (body : N) (cs : list N) (o : t) (c : Ctx) : t * Ctx :=
  let c := set_world (enable_events cs (world c)) c in
  (set_physics (Some body) cs o, c).

(** What a call of the asynchronous [createPhysics] has done when control
    returns to the caller: it has run to its end, or it waits for
    [getVertices] with its local [body] and the branch it is in. *)
Record Pending := { p_body : N; p_kind : MeshKind }.

Inductive Outcome :=
| Returned (o : t) (c : Ctx)
| Awaiting (k : Pending) (o : t) (c : Ctx).

Definition createPhysics (o : t) (c : Ctx) : Outcome :=
  let '(o, c) := removePhysics o c in
  if negb (s_enabled (settings o)) then Returned o c
  else if Js.str_truthy (f_parent (fields o))
  then Returned o (log (WarnParented (objectID o) (name (fields o))) c)
  else
    let o := read_settings o in
    let o := set_type (resolve_type (type o) (f_type (fields o)) (mode o)) o in
    let c := log (DebugCreating (objectID o) (name (fields o)) (mode o)
                                (type o) (synchronized o)) c in
    match desc_of_mode o with
    | None =>
        Returned o (log (WarnUnknownMode (objectID o) (name (fields o)) (mode o)) c)
    | Some desc =>
        let desc := place (fields o) (disableRotation o) desc in
        let '(body, w) := createRigidBody desc (world c) in
        let c := set_world w c in
        let one (s : Shape) (c : Ctx) :=
          let '(h, w) := createCollider s (Some body) (world c) in
          let '(o, c) := finish body [h] o (set_world w c) in
          Returned o c in
        if bool_decide (type o = "Sphere") then one (sphere_shape (fields o)) c
        else if bool_decide (type o = "Cube") then one (cube_shape (fields o)) c
        else if bool_decide (type o = "Cylinder") then one (cylinder_shape (fields o)) c
        else if bool_decide (type o = "Convex Hull")
        then Awaiting {| p_body := body; p_kind := Hull |} o c
        else if bool_decide (type o = "Trimesh")
        then Awaiting {| p_body := body; p_kind := Tri |} o c
        else
          one (cuboid 1 1 1)
              (log (WarnUnknownShape (objectID o) (name (fields o)) (type o)) c)
    end.

(** The values that [createPhysics] assigns to [this.mode] and
    [this.type] when it passes its guards. *)
Definition built_mode (o : t) : string := Js.str_or (s_mode (settings o)) "Static".

Definition built_type (o : t) : string :=
  resolve_type (Js.str_or (s_type (settings o)) "Automatic")
               (f_type (fields o)) (built_mode o).

Definition obj_of (r : Outcome) : t :=
  match r with Returned o _ => o | Awaiting _ o _ => o end.

Definition ctx_of (r : Outcome) : Ctx :=
  match r with Returned _ c => c | Awaiting _ _ c => c end.

(** How the promise of a call that waited is settled: the call ran to
    its end, or [createCollider] threw and the promise is rejected. No
    caller awaits or catches it, so either way the component and the world
    are left as the call had them. *)
Inductive Settled :=
| Fulfilled (o : t) (c : Ctx)
| Rejected (o : t) (c : Ctx).

Definition state_of (s : Settled) : t * Ctx :=
  match s with Fulfilled o c => (o, c) | Rejected o c => (o, c) end.

(** The rest of [createPhysics] once [getVertices] has delivered
    [objects]; it runs on the component and the world as they are then.
    When the engine cannot build one of the sub-meshes the call ends at
    that [createCollider]: [this.body] and [this.colliders] are not
    assigned, no collision events are switched on, and the body created
    before the wait is not removed. *)
Definition createPhysics_resume (buildable : Shape → bool) (k : Pending)
    (objects : list Mesh) (o : t) (c : Ctx) : Settled :=
  let shapes := map (mesh_shape (p_kind k) (fields o)) objects in
  match create_colliders buildable shapes (p_body k) (world c) with
  | (Some cs, w) =>
      let '(o, c) := finish (p_body k) cs o (set_world w c) in Fulfilled o c
  | (None, w) => Rejected o (set_world w c)
  end.

(** *** didCollideWithUser *)

Definition didCollideWithUser (o : t) : t := set_sendUpdateNextFrame true o.

(** *** sendUpdate *)

(** The record built for [messages.send], read from the body after the
    counter has been incremented. *)
Definition update_message (o : t) (c : Ctx) (b : N) : Message :=
  let rb := body_at b (world c) in
  {| action := "update";
     inst := instanceID c;
     obj := objectID o;
     counter := syncCounter o;
     pos := translation rb;
     quat := rotation rb;
     m_angvel := angvel rb;
     m_linvel := linvel rb |}.

(** The test "Stop if sending too quickly". *)
Definition too_quick (now : Z) (o : t) : bool :=
  Js.time_truthy (lastUpdateSent o)
  && match lastUpdateSent o with
     | Some last => now - last <? 100
     | None => false
     end.

Definition sendUpdate (now : Z) (o : t) (c : Ctx) : t * Ctx :=
  match body o with
  | None => (o, c)
  | Some b =>
      if negb (synchronized o) then (o, c)
      else if negb (bool_decide (mode o = "Dynamic")) then (o, c)
      else if too_quick now o then (o, c)
      else
        let o := set_lastUpdateSent now o in
        let o := set_sendUpdateNextFrame false o in
        let o := set_syncCounter (syncCounter o + 1) o in
        let c := messages_send (update_message o c b) c in
        (o, count_message_out c)
  end.

(** *** loop *)

Definition loop (now : Z) (o : t) (c : Ctx) : Outcome :=
  match body o with
  | None => Returned o c
  | Some b =>
      if sleeping (body_at b (world c)) then Returned o c
      else if negb (bool_decide (mode o = "Dynamic")) then Returned o c
      else
        let translation := translation (body_at b (world c)) in
        let quat := rotation (body_at b (world c)) in
        let c := objects_update (UpdateTransform (objectID o) translation quat) c in
        if Qle_bool (y translation) (-50)
        then
          let c := log (WarnFellOut (objectID o) (name (fields o))) c in
          let o := set_fields (set_height 10 (fields o)) o in
          let c := objects_update (UpdateHeight (objectID o) 10) c in
          createPhysics o c
        else if sendUpdateNextFrame o
        then let '(o, c) := sendUpdate now o c in Returned o c
        else Returned o c
  end.

(** *** onRemoteUpdateReceived *)

Definition onRemoteUpdateReceived (data : Message) (o : t) (c : Ctx) : t * Ctx :=
  match body o with
  | None => (o, c)
  | Some b =>
      if negb (synchronized o) then (o, c)
      else if counter data <? syncCounter o then (o, c)
      else if negb (bool_decide (mode o = "Dynamic")) then (o, c)
      else
        let o := set_syncCounter (counter data) o in
        let w := world c in
        let w := on_body (setTranslation (pos data)) b w in
        let w := on_body (setRotation (quat data)) b w in
        let w := on_body (setAngvel (m_angvel data)) b w in
        let w := on_body (setLinvel (m_linvel data)) b w in
        let w := on_body wakeUp b w in
        (o, set_world w c)
  end.

End PhysicsComponent.

(** ** The plugin *)

Module RapierPhysicsPlugin.

Import Rapier Host.

(** What the plugin calls on a component, in either draft. *)
Class Component (C : Type) := {
  objectID : C → string;
  onRemoteUpdateReceived : Message → C → Ctx → C * Ctx
}.

#[export] Instance multi_collider : Component PhysicsComponent.t := {|
  objectID := PhysicsComponent.objectID;
  onRemoteUpdateReceived := PhysicsComponent.onRemoteUpdateReceived
|}.

(** [class ActiveCollision]; the objects are references to component
    instances. *)
Record ActiveCollision := {
  colliderHandle1 : N;
  colliderHandle2 : N;
  object1 : option positive;
  object2 : option positive
}.

(** The argument of the hook [onCollisionEvent]. *)
Record CollisionNotification := {
  objectID1 : option string;
  objectID2 : option string;
  colliderID1 : N;
  colliderID2 : N;
  n_started : bool
}.

(** The plugin instance. Component instances are JavaScript objects: they
    live in [heap] and [physicsObjects] lists references to them, in the
    order of registration. [ctx] holds the fields the components reach
    through [this.plugin]. The earlier draft of the plugin has no
    [activeCollisions] and triggers no hook. *)
Record t (C : Type) := {
  ctx : Ctx;
  heap : gmap positive C;
  physicsObjects : list positive;
  activeCollisions : list ActiveCollision;
  numMessagesIn : Z;
  userCollider : N;
  notifications : list CollisionNotification
}.

Arguments ctx {C} _.
Arguments heap {C} _.
Arguments physicsObjects {C} _.
Arguments activeCollisions {C} _.
Arguments numMessagesIn {C} _.
Arguments userCollider {C} _.
Arguments notifications {C} _.

Section Dispatch.

Context {C : Type} `{Component C}.

Definition count_message_in (p : t C) : t C :=
  {| ctx := ctx p; heap := heap p; physicsObjects := physicsObjects p;
     activeCollisions := activeCollisions p;
     numMessagesIn := numMessagesIn p + 1;
     userCollider := userCollider p; notifications := notifications p |}.

(** The outcome of a method call on the instance behind [r]. *)
Definition store (r : positive) (oc : C * Ctx) (p : t C) : t C :=
  {| ctx := oc.2; heap := <[r := oc.1]> (heap p);
     physicsObjects := physicsObjects p;
     activeCollisions := activeCollisions p;
     numMessagesIn := numMessagesIn p;
     userCollider := userCollider p; notifications := notifications p |}.

(** [this.physicsObjects.find(pred)] *)
Definition find_object (pred : C → bool) (p : t C) : option (positive * C) :=
  match List.find (λ r, match heap p !! r with
                        | Some o => pred o
                        | None => false
                        end) (physicsObjects p) with
  | Some r => match heap p !! r with
              | Some o => Some (r, o)
              | None => None
              end
  | None => None
  end.

(** *** onMessage *)

Definition onMessage (data : Message) (p : t C) : t C :=
  let p := count_message_in p in
  if bool_decide (inst data = instanceID (ctx p)) then p
  else if bool_decide (action data = "update")
  then
    match find_object (λ o, bool_decide (objectID o = obj data)) p with
    | None => p
    | Some (r, o) => store r (onRemoteUpdateReceived data o (ctx p)) p
    end
  else p.

End Dispatch.

(** *** The callback of [drainCollisionEvents] in [loop] *)

Definition same_pair (id1 id2 : N) (c : ActiveCollision) : bool :=
  ((colliderHandle1 c =? id1)%N && (colliderHandle2 c =? id2)%N)
  || ((colliderHandle1 c =? id2)%N && (colliderHandle2 c =? id1)%N).

(** The handle pair of a record is the pair of an event, in either
    order. *)
Definition handles_match (idA idB : N) (c : ActiveCollision) : Prop :=
  (colliderHandle1 c = idA ∧ colliderHandle2 c = idB)
  ∨ (colliderHandle1 c = idB ∧ colliderHandle2 c = idA).

#[export] Instance handles_match_dec idA idB c : Decision (handles_match idA idB c).
Proof. unfold handles_match. apply _. Defined.

Definition set_activeCollisions (l : list ActiveCollision)
    (p : t PhysicsComponent.t) : t PhysicsComponent.t :=
  {| ctx := ctx p; heap := heap p; physicsObjects := physicsObjects p;
     activeCollisions := l; numMessagesIn := numMessagesIn p;
     userCollider := userCollider p; notifications := notifications p |}.

Definition set_heap (h : gmap positive PhysicsComponent.t)
    (p : t PhysicsComponent.t) : t PhysicsComponent.t :=
  {| ctx := ctx p; heap := h; physicsObjects := physicsObjects p;
     activeCollisions := activeCollisions p; numMessagesIn := numMessagesIn p;
     userCollider := userCollider p; notifications := notifications p |}.

Definition hooks_trigger (n : CollisionNotification)
    (p : t PhysicsComponent.t) : t PhysicsComponent.t :=
  {| ctx := ctx p; heap := heap p; physicsObjects := physicsObjects p;
     activeCollisions := activeCollisions p; numMessagesIn := numMessagesIn p;
     userCollider := userCollider p; notifications := notifications p ++ [n] |}.

(** [this.physicsObjects.find(o => o.colliders?.find(c => c.handle === id))] *)
Definition object_of_collider (id : N) (p : t PhysicsComponent.t)
    : option (positive * PhysicsComponent.t) :=
  find_object (λ o, bool_decide (id ∈ PhysicsComponent.colliders o)) p.

Definition onCollisionEvent (id1 id2 : N) (started : bool)
    (p : t PhysicsComponent.t) : t PhysicsComponent.t :=
  let o1 := object_of_collider id1 p in
  let object1currentUser := (id1 =? userCollider p)%N in
  let o2 := object_of_collider id2 p in
  let object2currentUser := (id2 =? userCollider p)%N in
  let p :=
    if started
    then set_activeCollisions
           (activeCollisions p ++
            [{| colliderHandle1 := id1; colliderHandle2 := id2;
                object1 := fst <$> o1; object2 := fst <$> o2 |}]) p
    else set_activeCollisions
           (List.filter (λ c, negb (same_pair id1 id2 c)) (activeCollisions p)) p in
  let p :=
    if object1currentUser || object2currentUser
    then
      match (if object1currentUser then o2 else o1) with
      | Some (r, _) =>
          if started
          then set_heap (alter PhysicsComponent.didCollideWithUser r (heap p)) p
          else p
      | None => p
      end
    else p in
  hooks_trigger
    {| objectID1 := if object1currentUser then Some "currentuser"
                    else (PhysicsComponent.objectID ∘ snd) <$> o1;
       objectID2 := if object2currentUser then Some "currentuser"
                    else (PhysicsComponent.objectID ∘ snd) <$> o2;
       colliderID1 := id1; colliderID2 := id2; n_started := started |} p.

(** [eventQueue.drainCollisionEvents(callback)]: the callback runs on each
    event of the step, in the order of the queue. *)
Definition drainCollisionEvents (events : list (N * N * bool))
    (p : t PhysicsComponent.t) : t PhysicsComponent.t :=
  foldl (λ p e, onCollisionEvent e.1.1 e.1.2 e.2 p) p events.

End RapierPhysicsPlugin.

(** ** The component, single-collider draft ([src/PhysicsComponent.js]) *)

Module SingleCollider.

Import Rapier Host.

Record t := {
  objectID : string;
  fields : Fields;
  settings : Settings;
  body : option N;
  collider : option N;
  mode : string;
  type : string;
  synchronized : bool;
  mass : Q;
  disableRotation : bool;
  bounceOnClick : bool;
  syncCounter : Z;
  sendUpdateNextFrame : bool;
  lastUpdateSent : option Z
}.

Definition new (id : string) (f : Fields) (s : Settings) : t :=
  {| objectID := id; fields := f; settings := s;
     body := None; collider := None;
     mode := "Static"; type := "Sphere"; synchronized := false;
     mass := 1; disableRotation := false; bounceOnClick := false;
     syncCounter := 0; sendUpdateNextFrame := false;
     lastUpdateSent := None |}.

Definition set_body (b : option N) (o : t) : t :=
  {| objectID := objectID o; fields := fields o; settings := settings o;
     body := b; collider := collider o;
     mode := mode o; type := type o; synchronized := synchronized o;
     mass := mass o; disableRotation := disableRotation o;
     bounceOnClick := bounceOnClick o; syncCounter := syncCounter o;
     sendUpdateNextFrame := sendUpdateNextFrame o;
     lastUpdateSent := lastUpdateSent o |}.

Definition set_collider (h : option N) (o : t) : t :=
  {| objectID := objectID o; fields := fields o; settings := settings o;
     body := body o; collider := h;
     mode := mode o; type := type o; synchronized := synchronized o;
     mass := mass o; disableRotation := disableRotation o;
     bounceOnClick := bounceOnClick o; syncCounter := syncCounter o;
     sendUpdateNextFrame := sendUpdateNextFrame o;
     lastUpdateSent := lastUpdateSent o |}.

Definition read_settings (o : t) : t :=
  let s := settings o in
  {| objectID := objectID o; fields := fields o; settings := s;
     body := body o; collider := collider o;
     mode := Js.str_or (s_mode s) "Static";
     type := Js.str_or (s_type s) "Sphere";
     synchronized := s_synchronized s;
     mass := mass_of s;
     disableRotation := s_disable_rotation s;
     bounceOnClick := s_click_bounce s;
     syncCounter := 0;
     sendUpdateNextFrame := sendUpdateNextFrame o;
     lastUpdateSent := lastUpdateSent o |}.

Definition set_fields (f : Fields) (o : t) : t :=
  {| objectID := objectID o; fields := f; settings := settings o;
     body := body o; collider := collider o;
     mode := mode o; type := type o; synchronized := synchronized o;
     mass := mass o; disableRotation := disableRotation o;
     bounceOnClick := bounceOnClick o; syncCounter := syncCounter o;
     sendUpdateNextFrame := sendUpdateNextFrame o;
     lastUpdateSent := lastUpdateSent o |}.

Definition set_syncCounter (n : Z) (o : t) : t :=
  {| objectID := objectID o; fields := fields o; settings := settings o;
     body := body o; collider := collider o;
     mode := mode o; type := type o; synchronized := synchronized o;
     mass := mass o; disableRotation := disableRotation o;
     bounceOnClick := bounceOnClick o; syncCounter := n;
     sendUpdateNextFrame := sendUpdateNextFrame o;
     lastUpdateSent := lastUpdateSent o |}.

Definition set_sendUpdateNextFrame (b : bool) (o : t) : t :=
  {| objectID := objectID o; fields := fields o; settings := settings o;
     body := body o; collider := collider o;
     mode := mode o; type := type o; synchronized := synchronized o;
     mass := mass o; disableRotation := disableRotation o;
     bounceOnClick := bounceOnClick o; syncCounter := syncCounter o;
     sendUpdateNextFrame := b;
     lastUpdateSent := lastUpdateSent o |}.

Definition set_lastUpdateSent (now : Z) (o : t) : t :=
  {| objectID := objectID o; fields := fields o; settings := settings o;
     body := body o; collider := collider o;
     mode := mode o; type := type o; synchronized := synchronized o;
     mass := mass o; disableRotation := disableRotation o;
     bounceOnClick := bounceOnClick o; syncCounter := syncCounter o;
     sendUpdateNextFrame := sendUpdateNextFrame o;
     lastUpdateSent := Some now |}.

Definition removePhysics (o : t) (c : Ctx) : t * Ctx :=
  match body o with
  | None => (o, c)
  | Some b =>
      let c := log (DebugRemoving (objectID o) (name (fields o))) c in
      let c := set_world (removeRigidBody b (world c)) c in
      (set_collider None (set_body None o), c)
  end.

Definition desc_of_mode (o : t) : option RigidBodyDesc :=
  if bool_decide (mode o = "Static") then Some fixed
  else if bool_decide (mode o = "Dynamic") then Some (setAdditionalMass (mass o) dynamic)
  else None.

Definition minimumSize : Q := 1 # 10.

Definition sphere_shape (f : Fields) : Shape :=
  let sizeX := Js.num_or (scale_x f) 0 in
  let sizeY := Js.num_or (scale_y f) 0 in
  let sizeZ := Js.num_or (scale_z f) 0 in
  let diameter :=
    Js.Math_max minimumSize (Js.Math_max sizeX (Js.Math_max sizeY sizeZ)) in
  ball (diameter / 2).

Definition cube_shape (f : Fields) : Shape :=
  let sizeX := Js.Math_max minimumSize (Js.num_or (scale_x f) 0) in
  let sizeY := Js.Math_max minimumSize (Js.num_or (scale_y f) 0) in
  let sizeZ := Js.Math_max minimumSize (Js.num_or (scale_z f) 0) in
  cuboid (sizeX / 2) (sizeY / 2) (sizeZ / 2).

Definition cylinder_shape (f : Fields) : Shape :=
  let sizeX := Js.Math_max minimumSize (Js.num_or (scale_x f) 0) in
  let sizeY := Js.Math_max minimumSize (Js.num_or (scale_y f) 0) in
  let sizeZ := Js.Math_max minimumSize (Js.num_or (scale_z f) 0) in
  let diameter := Js.Math_max sizeX sizeZ in
  cylinder (sizeY / 2) (diameter / 2).

(** Synchronous: the body is assigned to [this.body] as soon as it is
    created, and an unknown shape returns with the body and no collider. *)
Definition createPhysics (o : t) (c : Ctx) : t * Ctx :=
  let '(o, c) := removePhysics o c in
  if negb (s_enabled (settings o)) then (o, c)
  else if Js.str_truthy (f_parent (fields o))
  then (o, log (WarnParented (objectID o) (name (fields o))) c)
  else
    let o := read_settings o in
    let c := log (DebugCreating (objectID o) (name (fields o)) (mode o)
                                (type o) (synchronized o)) c in
    match desc_of_mode o with
    | None =>
        (o, log (WarnUnknownMode (objectID o) (name (fields o)) (mode o)) c)
    | Some desc =>
        let desc := place (fields o) (disableRotation o) desc in
        let '(body, w) := createRigidBody desc (world c) in
        let o := set_body (Some body) o in
        let c := set_world w c in
        let one (s : Shape) :=
          let '(h, w) := createCollider s (Some body) (world c) in
          (set_collider (Some h) o, set_world w c) in
        if bool_decide (type o = "Sphere") then one (sphere_shape (fields o))
        else if bool_decide (type o = "Cube") then one (cube_shape (fields o))
        else if bool_decide (type o = "Cylinder") then one (cylinder_shape (fields o))
        else (o, log (WarnUnknownShape (objectID o) (name (fields o)) (type o)) c)
    end.

Definition didCollideWithUser (o : t) : t := set_sendUpdateNextFrame true o.

Definition update_message (o : t) (c : Ctx) (b : N) : Message :=
  let rb := body_at b (world c) in
  {| action := "update";
     inst := instanceID c;
     obj := objectID o;
     counter := syncCounter o;
     pos := translation rb;
     quat := rotation rb;
     m_angvel := angvel rb;
     m_linvel := linvel rb |}.

Definition too_quick (now : Z) (o : t) : bool :=
  Js.time_truthy (lastUpdateSent o)
  && match lastUpdateSent o with
     | Some last => now - last <? 100
     | None => false
     end.

(** "Stop if not loaded" tests the body and the collider here. *)
Definition sendUpdate (now : Z) (o : t) (c : Ctx) : t * Ctx :=
  match body o, collider o with
  | Some b, Some _ =>
      if negb (synchronized o) then (o, c)
      else if negb (bool_decide (mode o = "Dynamic")) then (o, c)
      else if too_quick now o then (o, c)
      else
        let o := set_lastUpdateSent now o in
        let o := set_sendUpdateNextFrame false o in
        let o := set_syncCounter (syncCounter o + 1) o in
        let c := messages_send (update_message o c b) c in
        (o, count_message_out c)
  | _, _ => (o, c)
  end.

Definition onRemoteUpdateReceived (data : Message) (o : t) (c : Ctx) : t * Ctx :=
  match body o, collider o with
  | Some b, Some _ =>
      if negb (synchronized o) then (o, c)
      else if counter data <? syncCounter o then (o, c)
      else if negb (bool_decide (mode o = "Dynamic")) then (o, c)
      else
        let o := set_syncCounter (counter data) o in
        let w := world c in
        let w := on_body (setTranslation (pos data)) b w in
        let w := on_body (setRotation (quat data)) b w in
        let w := on_body (setAngvel (m_angvel data)) b w in
        let w := on_body (setLinvel (m_linvel data)) b w in
        let w := on_body wakeUp b w in
        (o, set_world w c)
  | _, _ => (o, c)
  end.

#[export] Instance single_collider : RapierPhysicsPlugin.Component t := {|
  RapierPhysicsPlugin.objectID := objectID;
  RapierPhysicsPlugin.onRemoteUpdateReceived := onRemoteUpdateReceived
|}.

End SingleCollider.

(** ** Concrete objects and worlds used in the examples *)

Module Samples.

Import Rapier Host.

Definition fields0 : Fields :=
  {| name := Some "crate"; f_parent := None; f_type := None;
     f_x := 1; f_height := Some 10%Q; f_y := 2;
     quatX := None; quatY := None; quatZ := None; quatW := None;
     scale := None; scale_x := None; scale_y := None; scale_z := None |}.

Definition settings_of (enabled : bool) (mode type : string) : Settings :=
  {| s_enabled := enabled; s_synchronized := true;
     s_mode := Some mode; s_type := Some type; s_mass := Some 2%Q;
     s_disable_rotation := false; s_click_bounce := false |}.

(** An empty world and a plugin context on it. *)
Definition world0 : World :=
  {| bodies := ∅; colliders := ∅; nextBody := 0; nextCollider := 0 |}.

Definition ctx0 : Ctx :=
  {| instanceID := "1700000000000:0.25"; world := world0; sent := [];
     numMessagesOut := 0; console := []; updates := [] |}.

(** A world with one dynamic body (handle 7) that carries one collider
    (handle 3). *)
Definition body7 : RigidBody :=
  {| bodyType := Dynamic;
     translation := {| x := 1; y := 10; z := 2 |};
     rotation := identity;
     angvel := zero;
     linvel := {| x := 0; y := -1; z := 0 |};
     additionalMass := 2; rotationsLocked := false; sleeping := true |}.

Definition world7 : World :=
  {| bodies := {[ 7%N := body7 ]};
     colliders := {[ 3%N := {| shape := ball (1 # 2); parent := Some 7%N;
                               activeEvents := COLLISION_EVENTS |} ]};
     nextBody := 8; nextCollider := 4 |}.

Definition ctx7 : Ctx :=
  {| instanceID := "1700000000000:0.25"; world := world7; sent := [];
     numMessagesOut := 0; console := []; updates := [] |}.

(** The same world after a step that has woken the body. *)
Definition world7_awake : World := on_body wakeUp 7%N world7.

Definition ctx7_awake : Ctx :=
  {| instanceID := "1700000000000:0.25"; world := world7_awake; sent := [];
     numMessagesOut := 0; console := []; updates := [] |}.

(** A remote update for the object ["obj-1"]. *)
Definition update_of (sender : string) (n : Z) : Message :=
  {| action := "update"; inst := sender; obj := "obj-1"; counter := n;
     pos := {| x := 4; y := 5; z := 6 |};
     quat := {| qx := 0; qy := 1; qz := 0; qw := 0 |};
     m_angvel := {| x := 1 # 2; y := 0; z := 0 |};
     m_linvel := {| x := 0; y := 3; z := 0 |} |}.

(** An active, synchronized, dynamic component on body 7 whose counter is
    [n]. *)
Definition active (n : Z) : PhysicsComponent.t :=
  {| PhysicsComponent.objectID := "obj-1";
     PhysicsComponent.fields := fields0;
     PhysicsComponent.settings := settings_of true "Dynamic" "Sphere";
     PhysicsComponent.body := Some 7%N;
     PhysicsComponent.colliders := [3%N];
     PhysicsComponent.mode := "Dynamic";
     PhysicsComponent.type := "Sphere";
     PhysicsComponent.synchronized := true;
     PhysicsComponent.mass := 2;
     PhysicsComponent.disableRotation := false;
     PhysicsComponent.bounceOnClick := false;
     PhysicsComponent.syncCounter := n;
     PhysicsComponent.sendUpdateNextFrame := false;
     PhysicsComponent.lastUpdateSent := None |}.

(** The active object after its physics was switched off in the Editor,
    and after it was given a parent; [createPhysics] has not run yet. *)
Definition switched_off (n : Z) : PhysicsComponent.t :=
  PhysicsComponent.set_settings (settings_of false "Dynamic" "Sphere") (active n).

Definition parented_fields : Fields :=
  {| name := Some "crate"; f_parent := Some "obj-0"; f_type := None;
     f_x := 1; f_height := Some 10%Q; f_y := 2;
     quatX := None; quatY := None; quatZ := None; quatW := None;
     scale := None; scale_x := None; scale_y := None; scale_z := None |}.

Definition parented (n : Z) : PhysicsComponent.t :=
  PhysicsComponent.set_fields parented_fields (active n).

(** A component that has not been built yet. *)
Definition unbuilt (enabled : bool) (mode type : string) : PhysicsComponent.t :=
  PhysicsComponent.new "obj-1" fields0 (settings_of enabled mode type).

(** The same component in the single-collider draft. *)
Definition unbuilt_single (enabled : bool) (mode type : string) : SingleCollider.t :=
  SingleCollider.new "obj-1" fields0 (settings_of enabled mode type).

(** The first build of an enabled, unparented object whose mode is
    ['Kinematic']. *)
Definition kinematic_build : PhysicsComponent.Outcome :=
  PhysicsComponent.createPhysics (unbuilt true "Kinematic" "Sphere") ctx0.

(** Two builds of one object that overlap. The object has the shape
    ['Convex Hull'], so each call of [createPhysics] creates its body and
    then waits for [getVertices]. The second call ([onObjectUpdated]) is
    made while the first one waits; then the vertices of the first call
    arrive, then those of the second. *)
Definition tetrahedron : list Mesh :=
  [{| vertices := [0; 0; 0; 1; 0; 0; 0; 1; 0; 0; 0; 1]%Q; indices := [] |}].

(** An engine that builds every hull and mesh it is asked for. *)
Definition builds_all : Shape → bool := λ _, true.

Definition overlapping_builds : PhysicsComponent.t * Ctx :=
  match PhysicsComponent.createPhysics (unbuilt true "Dynamic" "Convex Hull") ctx0 with
  | PhysicsComponent.Awaiting k1 o1 c1 =>
      match PhysicsComponent.createPhysics o1 c1 with
      | PhysicsComponent.Awaiting k2 o2 c2 =>
          let '(o3, c3) :=
            PhysicsComponent.state_of
              (PhysicsComponent.createPhysics_resume builds_all k1 tetrahedron o2 c2) in
          PhysicsComponent.state_of
            (PhysicsComponent.createPhysics_resume builds_all k2 tetrahedron o3 c3)
      | PhysicsComponent.Returned o2 c2 => (o2, c2)
      end
  | PhysicsComponent.Returned o1 c1 => (o1, c1)
  end.

(** A build that is overtaken by the switch-off of the object: the
    physics is disabled in the Editor while [createPhysics] waits for the
    vertices, [onObjectUpdated] calls [createPhysics] again, which tears
    down and returns at its first guard, and then the vertices arrive. *)
Definition disabled_during_build : PhysicsComponent.t * Ctx :=
  match PhysicsComponent.createPhysics (unbuilt true "Dynamic" "Convex Hull") ctx0 with
  | PhysicsComponent.Awaiting k1 o1 c1 =>
      let o1 := PhysicsComponent.set_settings
                  (settings_of false "Dynamic" "Convex Hull") o1 in
      match PhysicsComponent.createPhysics o1 c1 with
      | PhysicsComponent.Returned o2 c2 =>
          PhysicsComponent.state_of
            (PhysicsComponent.createPhysics_resume builds_all k1 tetrahedron o2 c2)
      | PhysicsComponent.Awaiting _ o2 c2 => (o2, c2)
      end
  | PhysicsComponent.Returned o1 c1 => (o1, c1)
  end.

(** A plugin with the active object registered under the reference 1,
    the user's collider 9, and three collisions in progress: the user with
    collider 3, collider 3 with collider 4, and collider 4 with the
    user. *)
Definition collision (h1 h2 : N) : RapierPhysicsPlugin.ActiveCollision :=
  {| RapierPhysicsPlugin.colliderHandle1 := h1;
     RapierPhysicsPlugin.colliderHandle2 := h2;
     RapierPhysicsPlugin.object1 := None;
     RapierPhysicsPlugin.object2 := None |}.

Definition plugin_of (n : Z) : RapierPhysicsPlugin.t PhysicsComponent.t :=
  {| RapierPhysicsPlugin.ctx := ctx7;
     RapierPhysicsPlugin.heap := {[ 1%positive := active n ]};
     RapierPhysicsPlugin.physicsObjects := [1%positive];
     RapierPhysicsPlugin.activeCollisions :=
       [collision 9 3; collision 3 4; collision 4 9];
     RapierPhysicsPlugin.numMessagesIn := 0;
     RapierPhysicsPlugin.userCollider := 9;
     RapierPhysicsPlugin.notifications := [] |}.

End Samples.

(** ** Clicks and the hook API of the plugin *)

Module Interaction.

Import Rapier Host RapierPhysicsPlugin.

(** The three errors the hooks throw. *)
Inductive Error :=
| Object_not_found
| Object_has_no_physics_body
| Object_is_not_dynamic.

Inductive Result (A : Type) :=
| Returns (a : A)
| Throws (e : Error).

Arguments Returns {A} _.
Arguments Throws {A} _.

(** An object [{ x, y, z }] of a request; each entry may be missing. *)
Record Xyz := { vx : option Q; vy : option Q; vz : option Q }.

(** [{ x: v.x || 0, y: v.y || 0, z: v.z || 0 }] *)
Definition xyz_or_zero (v : Xyz) : Vector :=
  {| x := Js.num_or (vx v) 0; y := Js.num_or (vy v) 0; z := Js.num_or (vz v) 0 |}.

(** The argument of the hook [applyImpulse]. *)
Record ImpulseData := { i_objectID : string; i_impulse : option Xyz }.

(** [{ x: data.impulse?.x || 0, ... }] *)
Definition impulse_of (data : ImpulseData) : Vector :=
  match i_impulse data with
  | Some v => xyz_or_zero v
  | None => zero
  end.

(** The argument of the hook [setState]. *)
Record StateData := {
  s_objectID : string;
  s_angvel : option Xyz;
  s_linvel : option Xyz
}.

(** The value the hook [getState] returns. *)
Record State := {
  st_counter : Z;
  st_translation : Vector;
  st_quaternion : Quaternion;
  st_angvel : Vector;
  st_linvel : Vector;
  isSleeping : bool
}.

Definition set_ctx (c : Ctx) (p : t PhysicsComponent.t) : t PhysicsComponent.t :=
  {| ctx := c; heap := heap p; physicsObjects := physicsObjects p;
     activeCollisions := activeCollisions p; numMessagesIn := numMessagesIn p;
     userCollider := userCollider p; notifications := notifications p |}.

(** [obj.sendUpdateNextFrame = true] on the instance behind [r]. *)
Definition flag_object (r : positive) (p : t PhysicsComponent.t) : t PhysicsComponent.t :=
  set_heap (alter (PhysicsComponent.set_sendUpdateNextFrame true) r (heap p)) p.

(** [this.physicsObjects.find(o => o.objectID == id)] *)
Definition object_of_id (id : string) (p : t PhysicsComponent.t)
    : option (positive * PhysicsComponent.t) :=
  find_object (λ o, bool_decide (PhysicsComponent.objectID o = id)) p.

Section Engine.

(** The engine's [body.applyImpulse(impulse, wakeUp)]: how a body
    answers to an impulse is the engine's business. *)
Variable applyImpulse : Vector → bool → RigidBody → RigidBody.

(** *** onClick *)

Definition onClick (now : Z) (o : PhysicsComponent.t) (c : Ctx)
    : PhysicsComponent.t * Ctx :=
  match PhysicsComponent.body o with
  | None => (o, c)
  | Some b =>
      if negb (PhysicsComponent.bounceOnClick o) then (o, c)
      else if negb (bool_decide (PhysicsComponent.mode o = "Dynamic")) then (o, c)
      else
        let c := set_world
                   (on_body (applyImpulse {| x := 0; y := 20; z := 0 |} true) b
                            (world c)) c in
        PhysicsComponent.sendUpdate now o c
  end.

(** *** onHookApplyImpulse *)

Definition onHookApplyImpulse (data : ImpulseData) (p : t PhysicsComponent.t)
    : Result (t PhysicsComponent.t) :=
  match object_of_id (i_objectID data) p with
  | None => Throws Object_not_found
  | Some (r, o) =>
      match PhysicsComponent.body o with
      | None => Throws Object_has_no_physics_body
      | Some b =>
          if negb (bool_decide (PhysicsComponent.mode o = "Dynamic"))
          then Throws Object_is_not_dynamic
          else
            let w := on_body (applyImpulse (impulse_of data) true) b
                             (world (ctx p)) in
            Returns (flag_object r (set_ctx (set_world w (ctx p)) p))
      end
  end.

End Engine.

(** *** onHookGetState *)

Definition onHookGetState (id : string) (p : t PhysicsComponent.t) : Result State :=
  match object_of_id id p with
  | None => Throws Object_not_found
  | Some (r, o) =>
      match PhysicsComponent.body o with
      | None => Throws Object_has_no_physics_body
      | Some b =>
          let rb := body_at b (world (ctx p)) in
          Returns {| st_counter := PhysicsComponent.syncCounter o;
                     st_translation := translation rb;
                     st_quaternion := rotation rb;
                     st_angvel := angvel rb;
                     st_linvel := linvel rb;
                     isSleeping := sleeping rb |}
      end
  end.

(** *** onHookSetState *)

Definition onHookSetState (data : StateData) (p : t PhysicsComponent.t)
    : Result (t PhysicsComponent.t) :=
  match object_of_id (s_objectID data) p with
  | None => Throws Object_not_found
  | Some (r, o) =>
      match PhysicsComponent.body o with
      | None => Throws Object_has_no_physics_body
      | Some b =>
          if negb (bool_decide (PhysicsComponent.mode o = "Dynamic"))
          then Throws Object_is_not_dynamic
          else
            let w := world (ctx p) in
            let w := match s_angvel data with
                     | Some v => on_body (setAngvel (xyz_or_zero v)) b w
                     | None => w
                     end in
            let w := match s_linvel data with
                     | Some v => on_body (setLinvel (xyz_or_zero v)) b w
                     | None => w
                     end in
            Returns (flag_object r (set_ctx (set_world w (ctx p)) p))
      end
  end.

End Interaction.

(** ** The life cycle of a component and the frame loop of the plugin *)

Module Driver.

Import Rapier Host RapierPhysicsPlugin.

(** *** onLoad, onUnload, onObjectUpdated of the component

    The methods run on the instance behind a reference; a reference
    without an instance does not occur and leaves the plugin as it is.
    [createPhysics] is not awaited: the caller gets back the build that
    waits for its vertices, if there is one. *)

Definition set_physicsObjects (l : list positive)
    (p : t PhysicsComponent.t) : t PhysicsComponent.t :=
  {| ctx := ctx p; heap := heap p; physicsObjects := l;
     activeCollisions := activeCollisions p; numMessagesIn := numMessagesIn p;
     userCollider := userCollider p; notifications := notifications p |}.

Definition run_build (r : positive) (out : PhysicsComponent.Outcome)
    (p : t PhysicsComponent.t)
    : t PhysicsComponent.t * option PhysicsComponent.Pending :=
  match out with
  | PhysicsComponent.Returned o c => (store r (o, c) p, None)
  | PhysicsComponent.Awaiting k o c => (store r (o, c) p, Some k)
  end.

Definition onObjectUpdated (r : positive) (p : t PhysicsComponent.t)
    : t PhysicsComponent.t * option PhysicsComponent.Pending :=
  match heap p !! r with
  | Some o => run_build r (PhysicsComponent.createPhysics o (ctx p)) p
  | None => (p, None)
  end.

Definition onLoad (r : positive) (p : t PhysicsComponent.t)
    : t PhysicsComponent.t * option PhysicsComponent.Pending :=
  onObjectUpdated r (set_physicsObjects (physicsObjects p ++ [r]) p).

Definition onUnload (r : positive) (p : t PhysicsComponent.t) : t PhysicsComponent.t :=
  let p := set_physicsObjects
             (List.filter (λ q, negb (bool_decide (q = r))) (physicsObjects p)) p in
  match heap p !! r with
  | Some o => store r (PhysicsComponent.removePhysics o (ctx p)) p
  | None => p
  end.

(** The build behind [r] gets its vertices; [buildable] says which
    shapes the engine builds. *)
Definition deliver_vertices (buildable : Shape → bool) (r : positive)
    (k : PhysicsComponent.Pending) (objects : list Mesh)
    (p : t PhysicsComponent.t) : t PhysicsComponent.t :=
  match heap p !! r with
  | Some o =>
      store r (PhysicsComponent.state_of
                 (PhysicsComponent.createPhysics_resume buildable k objects o (ctx p))) p
  | None => p
  end.

(** *** isTouchingCurrentUser *)

Definition isTouchingCurrentUser (r : positive) (p : t PhysicsComponent.t) : bool :=
  existsb (λ c,
             ((colliderHandle1 c =? userCollider p)%N
              && bool_decide (object2 c = Some r))
             || ((colliderHandle2 c =? userCollider p)%N
                 && bool_decide (object1 c = Some r)))
          (activeCollisions p).

(** *** The plugin with the fields of its frame loop *)

Inductive Warning := Error_while_updating_user_collider.

Record t := {
  plugin : RapierPhysicsPlugin.t PhysicsComponent.t;
  userBody : N;
  isUpdatingUserCollider : bool;
  oldUserPos : option Vector;
  lastFrameTime : option Z;
  frameDuration : Z;
  warnings : list Warning
}.

Definition set_plugin (p : RapierPhysicsPlugin.t PhysicsComponent.t) (d : t) : t :=
  {| plugin := p; userBody := userBody d;
     isUpdatingUserCollider := isUpdatingUserCollider d;
     oldUserPos := oldUserPos d; lastFrameTime := lastFrameTime d;
     frameDuration := frameDuration d; warnings := warnings d |}.

Definition set_isUpdatingUserCollider (b : bool) (d : t) : t :=
  {| plugin := plugin d; userBody := userBody d;
     isUpdatingUserCollider := b;
     oldUserPos := oldUserPos d; lastFrameTime := lastFrameTime d;
     frameDuration := frameDuration d; warnings := warnings d |}.

Definition set_oldUserPos (v : Vector) (d : t) : t :=
  {| plugin := plugin d; userBody := userBody d;
     isUpdatingUserCollider := isUpdatingUserCollider d;
     oldUserPos := Some v; lastFrameTime := lastFrameTime d;
     frameDuration := frameDuration d; warnings := warnings d |}.

Definition set_lastFrameTime (now : Z) (d : t) : t :=
  {| plugin := plugin d; userBody := userBody d;
     isUpdatingUserCollider := isUpdatingUserCollider d;
     oldUserPos := oldUserPos d; lastFrameTime := Some now;
     frameDuration := frameDuration d; warnings := warnings d |}.

Definition set_frameDuration (n : Z) (d : t) : t :=
  {| plugin := plugin d; userBody := userBody d;
     isUpdatingUserCollider := isUpdatingUserCollider d;
     oldUserPos := oldUserPos d; lastFrameTime := lastFrameTime d;
     frameDuration := n; warnings := warnings d |}.

Definition warn (w : Warning) (d : t) : t :=
  {| plugin := plugin d; userBody := userBody d;
     isUpdatingUserCollider := isUpdatingUserCollider d;
     oldUserPos := oldUserPos d; lastFrameTime := lastFrameTime d;
     frameDuration := frameDuration d; warnings := warnings d ++ [w] |}.

(** *** updateUserCollider

    The asynchronous method in three parts: up to [await
    this.user.getPosition()], and from there on when the position arrives
    or when the read fails. The block [finally] runs in both. *)

(** The result tells whether a read of the position was started. *)
Definition updateUserCollider (d : t) : t * bool :=
  if isUpdatingUserCollider d then (d, false)
  else (set_isUpdatingUserCollider true d, true).

Definition same_position (old : option Vector) (pos : Vector) : bool :=
  match old with
  | Some o => Qeq_bool (x o) (x pos) && Qeq_bool (y o) (y pos)
              && Qeq_bool (z o) (z pos)
  | None => false
  end.

(** The loop "Notify any objects that are touching the current user". *)
Definition notify_touching (p : RapierPhysicsPlugin.t PhysicsComponent.t)
    : RapierPhysicsPlugin.t PhysicsComponent.t :=
  foldl (λ p r, if isTouchingCurrentUser r p
                then set_heap (alter PhysicsComponent.didCollideWithUser r (heap p)) p
                else p)
        p (physicsObjects p).

Definition updateUserCollider_resolved (pos : Vector) (d : t) : t :=
  let pos := {| x := x pos; y := (y pos + 18 / 10 / 2)%Q; z := z pos |} in
  if same_position (oldUserPos d) pos
  then set_isUpdatingUserCollider false d
  else
    let d := set_oldUserPos pos d in
    let p := plugin d in
    let w := on_body (setTranslation pos) (userBody d) (world (ctx p)) in
    let p := Interaction.set_ctx (set_world w (ctx p)) p in
    let d := set_plugin (notify_touching p) d in
    set_isUpdatingUserCollider false d.

Definition updateUserCollider_rejected (d : t) : t :=
  set_isUpdatingUserCollider false (warn Error_while_updating_user_collider d).

(** *** loop *)

(** [this.physicsObjects.find(entity => entity.body)] *)
Definition hasActiveEntities (p : RapierPhysicsPlugin.t PhysicsComponent.t) : bool :=
  bool_decide (is_Some (find_object (λ o, bool_decide (is_Some (PhysicsComponent.body o))) p)).

(** [for (let object of this.physicsObjects) object.loop()]; [clock]
    is what [Date.now()] returns in the loop of each object. The builds
    that the loops start and leave waiting are collected. *)
Definition object_loops (clock : positive → Z)
    (p : RapierPhysicsPlugin.t PhysicsComponent.t)
    : RapierPhysicsPlugin.t PhysicsComponent.t
      * list (positive * PhysicsComponent.Pending) :=
  foldl (λ acc r,
           match heap acc.1 !! r with
           | Some o =>
               match run_build r (PhysicsComponent.loop (clock r) o (ctx acc.1)) acc.1 with
               | (p, Some k) => (p, acc.2 ++ [(r, k)])
               | (p, None) => (p, acc.2)
               end
           | None => acc
           end)
        (p, []) (physicsObjects p).

Section Engine.

(** [world.step(eventQueue)]: the world after the step and the collision
    events of that step, in the order of the queue. *)
Variable step : World → World * list (N * N * bool).

(** [now] and [finish] are the two readings of [Date.now()] of the frame
    itself. The result holds the waiting builds and whether a read of the
    user's position was started. *)
Definition loop (now : Z) (clock : positive → Z) (finish : Z) (d : t)
    : t * list (positive * PhysicsComponent.Pending) * bool :=
  if negb (hasActiveEntities (plugin d)) then (d, [], false)
  else
    let d := set_lastFrameTime now d in
    let p := plugin d in
    let '(w, events) := step (world (ctx p)) in
    let p := Interaction.set_ctx (set_world w (ctx p)) p in
    let '(p, builds) := object_loops clock p in
    let '(d, reading) := updateUserCollider (set_plugin p d) in
    let d := set_plugin (drainCollisionEvents events (plugin d)) d in
    (set_frameDuration (finish - now) d, builds, reading).

End Engine.

End Driver.

(** ** The debug overlay *)

Module DebugText.

Import Rapier Host RapierPhysicsPlugin.

Record Text := { name : string; text : string }.

(** [Math.round] *)
Definition Math_round (q : Q) : Z := Qfloor (q + (1 # 2))%Q.

Definition simulationFPS : Q := 60.

(** [physicsObjects.reduce((prev, current) => prev + (test ? 1 : 0), 0)] *)
Definition count_objects (test : PhysicsComponent.t → bool)
    (p : t PhysicsComponent.t) : nat :=
  foldl (λ prev r, match heap p !! r with
                   | Some o => (prev + (if test o then 1 else 0))%nat
                   | None => prev
                   end)
        0%nat (physicsObjects p).

(** [current.body?.isSleeping() === false] *)
Definition is_awake (w : World) (o : PhysicsComponent.t) : bool :=
  match PhysicsComponent.body o with
  | Some b => negb (sleeping (body_at b w))
  | None => false
  end.

Definition has_body (o : PhysicsComponent.t) : bool :=
  match PhysicsComponent.body o with
  | Some _ => true
  | None => false
  end.

Definition reset_analytics (p : t PhysicsComponent.t) : t PhysicsComponent.t :=
  {| ctx := {| instanceID := instanceID (ctx p); world := world (ctx p);
               sent := sent (ctx p); numMessagesOut := 0;
               console := console (ctx p); updates := updates (ctx p) |};
     heap := heap p; physicsObjects := physicsObjects p;
     activeCollisions := activeCollisions p; numMessagesIn := 0;
     userCollider := userCollider p; notifications := notifications p |}.

Section Versions.

(** The version of the package and [RAPIER.version()]. *)
Variables (version rapierVersion : string).

Definition getDebugText (d : Driver.t) : option Text * Driver.t :=
  let p := Driver.plugin d in
  let awakeEntities := count_objects (is_awake (world (ctx p))) p in
  let totalEntities := count_objects has_body p in
  if (totalEntities =? 0)%nat then (None, d)
  else
    let maxTime := (1000 / simulationFPS)%Q in
    let percent :=
      Math_round (inject_Z (Driver.frameDuration d) / maxTime * 100)%Q in
    let result :=
      {| name := "Physics v" +:+ version +:+ " (Rapier v" +:+ rapierVersion
                  +:+ " - time=" +:+ pretty (Driver.frameDuration d)
                  +:+ "ms usage=" +:+ pretty percent +:+ "%)";
         text := "awake=" +:+ pretty awakeEntities
                 +:+ " total=" +:+ pretty (length (physicsObjects p))
                 +:+ " collisions=" +:+ pretty (length (activeCollisions p))
                 +:+ " messages=" +:+ pretty (numMessagesOut (ctx p)) +:+ "/s▲ "
                 +:+ pretty (numMessagesIn p) +:+ "/s▼" |} in
    (Some result, Driver.set_plugin (reset_analytics p) d).

End Versions.

End DebugText.

(** ** The contact-force callback of the earlier plugin draft *)

Module ContactForce.

Import Rapier Host RapierPhysicsPlugin.

(** The callback either returns or dies of the [TypeError] that reading
    [o.collider.handle] raises on an object whose collider is [null]. *)
Inductive Outcome (A : Type) :=
| Returned (a : A)
| TypeError.

Arguments Returned {A} _.
Arguments TypeError {A}.

(** [this.physicsObjects.find(o => o.collider.handle == handle)]: the
    objects are tested in the order of the list. *)
Fixpoint find_by_collider (handle : N) (heap : gmap positive SingleCollider.t)
    (l : list positive) : Outcome (option positive) :=
  match l with
  | [] => Returned None
  | r :: rest =>
      match heap !! r with
      | Some o =>
          match SingleCollider.collider o with
          | None => TypeError
          | Some h => if (h =? handle)%N then Returned (Some r)
                      else find_by_collider handle heap rest
          end
      | None => find_by_collider handle heap rest
      end
  end.

Definition flag_object (r : positive) (p : t SingleCollider.t) : t SingleCollider.t :=
  {| ctx := ctx p;
     heap := alter SingleCollider.didCollideWithUser r (heap p);
     physicsObjects := physicsObjects p;
     activeCollisions := activeCollisions p; numMessagesIn := numMessagesIn p;
     userCollider := userCollider p; notifications := notifications p |}.

(** The callback of [drainContactForceEvents], on the two collider
    handles of the event. *)
Definition onContactForceEvent (handle1 handle2 : N) (p : t SingleCollider.t)
    : Outcome (t SingleCollider.t) :=
  let user := userCollider p in
  let handle :=
    if (handle1 =? user)%N && negb (handle2 =? user)%N then Some handle2
    else if negb (handle1 =? user)%N && (handle2 =? user)%N then Some handle1
    else None in
  match handle with
  | None => Returned p
  | Some h =>
      match find_by_collider h (heap p) (physicsObjects p) with
      | TypeError => TypeError
      | Returned None => Returned p
      | Returned (Some r) => Returned (flag_object r p)
      end
  end.

(** The callback is not guarded: the first event that throws ends the
    drain, and the events behind it are not looked at. *)
Fixpoint drainContactForceEvents (events : list (N * N)) (p : t SingleCollider.t)
    : Outcome (t SingleCollider.t) :=
  match events with
  | [] => Returned p
  | (h1, h2) :: rest =>
      match onContactForceEvent h1 h2 p with
      | Returned p => drainContactForceEvents rest p
      | TypeError => TypeError
      end
  end.

(** [onLoad] of the single-collider component: it is registered, then
    built. *)
Definition onLoad (r : positive) (p : t SingleCollider.t) : t SingleCollider.t :=
  let l := physicsObjects p ++ [r] in
  match heap p !! r with
  | Some o =>
      let oc := SingleCollider.createPhysics o (ctx p) in
      {| ctx := oc.2; heap := <[r := oc.1]> (heap p); physicsObjects := l;
         activeCollisions := activeCollisions p; numMessagesIn := numMessagesIn p;
         userCollider := userCollider p; notifications := notifications p |}
  | None =>
      {| ctx := ctx p; heap := heap p; physicsObjects := l;
         activeCollisions := activeCollisions p; numMessagesIn := numMessagesIn p;
         userCollider := userCollider p; notifications := notifications p |}
  end.

End ContactForce.

(** ** Concrete requests, engines and plugins used in further examples *)

Module Scenes.

Import Rapier Host.

(** An engine that answers an impulse as a body of mass 1 does. *)
Definition unit_mass_impulse (v : Vector) (wake : bool) (rb : RigidBody) : RigidBody :=
  let rb := setLinvel {| x := (x (linvel rb) + x v)%Q;
                         y := (y (linvel rb) + y v)%Q;
                         z := (z (linvel rb) + z v)%Q |} rb in
  if wake then wakeUp rb else rb.

Definition push : Interaction.ImpulseData :=
  {| Interaction.i_objectID := "obj-1";
     Interaction.i_impulse :=
       Some {| Interaction.vx := Some 1%Q; Interaction.vy := None;
               Interaction.vz := None |} |}.

Definition spin_av : Interaction.Xyz :=
  {| Interaction.vx := None; Interaction.vy := Some 3%Q; Interaction.vz := None |}.

Definition spin_lv : Interaction.Xyz :=
  {| Interaction.vx := Some 2%Q; Interaction.vy := None;
     Interaction.vz := Some (1 # 2)%Q |}.

Definition spin : Interaction.StateData :=
  {| Interaction.s_objectID := "obj-1";
     Interaction.s_angvel := Some spin_av;
     Interaction.s_linvel := Some spin_lv |}.

(** The plugin of [Samples.plugin_of] with the fields of its frame loop;
    the user's body has the handle 8. *)
Definition driver_of (n : Z) : Driver.t :=
  {| Driver.plugin := Samples.plugin_of n;
     Driver.userBody := 8;
     Driver.isUpdatingUserCollider := false;
     Driver.oldUserPos := None;
     Driver.lastFrameTime := None;
     Driver.frameDuration := 0;
     Driver.warnings := [] |}.

(** A plugin of the earlier draft: the user's collider is 9; the
    component 1, whose physics is switched off, is loaded first, then the
    component 2, an enabled dynamic sphere, which gets the collider 0. *)
Definition legacy_empty : RapierPhysicsPlugin.t SingleCollider.t :=
  {| RapierPhysicsPlugin.ctx := Samples.ctx0;
     RapierPhysicsPlugin.heap :=
       {[ 1%positive := SingleCollider.new "obj-1" Samples.fields0
                          (Samples.settings_of false "Dynamic" "Sphere");
          2%positive := SingleCollider.new "obj-2" Samples.fields0
                          (Samples.settings_of true "Dynamic" "Sphere") ]};
     RapierPhysicsPlugin.physicsObjects := [];
     RapierPhysicsPlugin.activeCollisions := [];
     RapierPhysicsPlugin.numMessagesIn := 0;
     RapierPhysicsPlugin.userCollider := 9;
     RapierPhysicsPlugin.notifications := [] |}.

Definition legacy_loaded : RapierPhysicsPlugin.t SingleCollider.t :=
  ContactForce.onLoad 2 (ContactForce.onLoad 1 legacy_empty).



(** A plugin in which the component 1, a convex hull, has been loaded
    and waits for its vertices: its body 0 is in the world and is not yet
    stored in the component. *)
Definition waiting_plugin : RapierPhysicsPlugin.t PhysicsComponent.t :=
  (Driver.onLoad 1
     {| RapierPhysicsPlugin.ctx := Samples.ctx0;
        RapierPhysicsPlugin.heap :=
          {[ 1%positive := Samples.unbuilt true "Dynamic" "Convex Hull" ]};
        RapierPhysicsPlugin.physicsObjects := [];
        RapierPhysicsPlugin.activeCollisions := [];
        RapierPhysicsPlugin.numMessagesIn := 0;
        RapierPhysicsPlugin.userCollider := 9;
        RapierPhysicsPlugin.notifications := [] |}).1.

(** An engine that builds every triangle mesh and the hull of four
    points or more, and a delivery in which the second sub-mesh is a
    single point. *)
Definition builds_solids (s : Shape) : bool :=
  match s with
  | convexHull vs => bool_decide (12 ≤ length vs)%nat
  | _ => true
  end.

Definition single_point : list Mesh :=
  Samples.tetrahedron ++ [{| vertices := [0; 0; 0]%Q; indices := [] |}].

End Scenes.

(** * Properties *)

(** ** Inbound merge by counter *)

Module Merge.

Import Rapier Host PhysicsComponent.

(** The five calls on the body, seen through the lookup of its handle. *)
Lemma merged_body (data : Message) (b : N) (w : World) :
  bodies (on_body wakeUp b
           (on_body (setLinvel (m_linvel data)) b
             (on_body (setAngvel (m_angvel data)) b
               (on_body (setRotation (quat data)) b
                 (on_body (setTranslation (pos data)) b w))))) !! b
  = (λ rb, wakeUp (setLinvel (m_linvel data) (setAngvel (m_angvel data)
             (setRotation (quat data) (setTranslation (pos data) rb)))))
    <$> bodies w !! b.
Proof.
  cbn [on_body bodies]. rewrite !lookup_alter_eq.
  destruct (bodies w !! b); reflexivity.
Qed.

(** The guards of [onRemoteUpdateReceived], each on its own. *)
Lemma ignored_without_body data o c :
  body o = None → onRemoteUpdateReceived data o c = (o, c).
Proof. intros Hb. unfold onRemoteUpdateReceived. rewrite Hb. reflexivity. Qed.

Lemma ignored_unsynchronized data o c :
  synchronized o = false → onRemoteUpdateReceived data o c = (o, c).
Proof.
  intros Hs. unfold onRemoteUpdateReceived. rewrite Hs.
  destruct (body o); reflexivity.
Qed.

Lemma ignored_older data o c :
  counter data < syncCounter o → onRemoteUpdateReceived data o c = (o, c).
Proof.
  intros Hlt. unfold onRemoteUpdateReceived.
  apply Z.ltb_lt in Hlt. rewrite Hlt.
  destruct (body o), (synchronized o); reflexivity.
Qed.

Lemma ignored_not_dynamic data o c :
  mode o ≠ "Dynamic" → onRemoteUpdateReceived data o c = (o, c).
Proof.
  intros Hm. unfold onRemoteUpdateReceived.
  rewrite (bool_decide_eq_false_2 _ Hm).
  destruct (body o), (synchronized o), (counter data <? syncCounter o); reflexivity.
Qed.

(** C1. An active, synchronized, Dynamic object that receives a remote
    update whose counter is at least its own (equal counters included)
    adopts the counter of the message, has the translation, rotation,
    angular velocity and linear velocity of its body overwritten with the
    payload of the message, and its body is awake afterwards. *)
Theorem remote_update_accepted (data : Message) (o : t) (c : Ctx)
    (b : N) (rb : RigidBody) :
  body o = Some b →
  bodies (world c) !! b = Some rb →
  synchronized o = true →
  mode o = "Dynamic" →
  syncCounter o ≤ counter data →
  ∃ rb',
    syncCounter (onRemoteUpdateReceived data o c).1 = counter data
    ∧ bodies (world (onRemoteUpdateReceived data o c).2) !! b = Some rb'
    ∧ translation rb' = pos data
    ∧ rotation rb' = quat data
    ∧ angvel rb' = m_angvel data
    ∧ linvel rb' = m_linvel data
    ∧ sleeping rb' = false.
Proof.
  intros Hb Hrb Hs Hm Hle.
  unfold onRemoteUpdateReceived. rewrite Hb, Hs.
  apply Z.ltb_ge in Hle. rewrite Hle.
  rewrite (bool_decide_eq_true_2 _ Hm). cbn [negb fst snd world set_world].
  eexists. split; [reflexivity |]. split.
  - rewrite merged_body, Hrb. reflexivity.
  - repeat split.
Qed.

Lemma remote_update_accepted_witness :
  let o := Samples.active 5 in
  let data := Samples.update_of "1700000000001:0.5" 5 in
  (body o = Some 7%N
   ∧ bodies (world Samples.ctx7) !! 7%N = Some Samples.body7
   ∧ synchronized o = true ∧ mode o = "Dynamic"
   ∧ syncCounter o ≤ counter data)
  ∧ ∃ rb',
      syncCounter (onRemoteUpdateReceived data o Samples.ctx7).1 = 5
      ∧ bodies (world (onRemoteUpdateReceived data o Samples.ctx7).2) !! 7%N
        = Some rb'
      ∧ translation rb' = pos data
      ∧ rotation rb' = quat data
      ∧ angvel rb' = m_angvel data
      ∧ linvel rb' = m_linvel data
      ∧ sleeping rb' = false.
Proof.
  intros o data.
  assert (H1 : body o = Some 7%N) by reflexivity.
  assert (H2 : bodies (world Samples.ctx7) !! 7%N = Some Samples.body7)
    by (vm_compute; reflexivity).
  assert (H3 : synchronized o = true) by reflexivity.
  assert (H4 : mode o = "Dynamic") by reflexivity.
  assert (H5 : syncCounter o ≤ counter data) by (simpl; lia).
  split; [auto |].
  exact (remote_update_accepted data o Samples.ctx7 7%N Samples.body7 H1 H2 H3 H4 H5).
Defined.

(** C2. A remote update whose counter is below the object's counter
    leaves the object and the world exactly as they were: counter,
    translation, rotation and velocities keep their values. The same holds
    when the object has no body, is not synchronized, or is not Dynamic. *)
Theorem remote_update_rejected (data : Message) (o : t) (c : Ctx) :
  counter data < syncCounter o
  ∨ body o = None ∨ synchronized o = false ∨ mode o ≠ "Dynamic" →
  onRemoteUpdateReceived data o c = (o, c).
Proof.
  intros [H | [H | [H | H]]];
    eauto using ignored_older, ignored_without_body,
                ignored_unsynchronized, ignored_not_dynamic.
Qed.

Lemma remote_update_rejected_witness :
  let o := Samples.active 5 in
  let data := Samples.update_of "1700000000001:0.5" 3 in
  (counter data < syncCounter o
   ∨ body o = None ∨ synchronized o = false ∨ mode o ≠ "Dynamic")
  ∧ onRemoteUpdateReceived data o Samples.ctx7 = (o, Samples.ctx7).
Proof.
  intros o data.
  assert (H : counter data < syncCounter o
              ∨ body o = None ∨ synchronized o = false ∨ mode o ≠ "Dynamic")
    by (left; simpl; lia).
  split; [exact H |].
  exact (remote_update_rejected data o Samples.ctx7 H).
Defined.

End Merge.

(** ** Building and tearing down *)

Module Build.

Import Rapier Host PhysicsComponent.

Lemma removePhysics_settings o c : settings (removePhysics o c).1 = settings o.
Proof. unfold removePhysics. destruct (body o); reflexivity. Qed.

Lemma removePhysics_fields o c : fields (removePhysics o c).1 = fields o.
Proof. unfold removePhysics. destruct (body o); reflexivity. Qed.

Lemma removePhysics_syncCounter o c :
  syncCounter (removePhysics o c).1 = syncCounter o.
Proof. unfold removePhysics. destruct (body o); reflexivity. Qed.

(** The guards at the head of [createPhysics] return before the settings
    are read: the counter keeps its value. *)
Lemma createPhysics_disabled o c :
  s_enabled (settings o) = false →
  createPhysics o c = Returned (removePhysics o c).1 (removePhysics o c).2.
Proof.
  intros He. unfold createPhysics.
  pose proof (removePhysics_settings o c) as Hs.
  destruct (removePhysics o c) as [o1 c1]. cbn [fst snd] in *.
  rewrite Hs, He. reflexivity.
Qed.

Lemma createPhysics_parented o c :
  s_enabled (settings o) = true →
  Js.str_truthy (f_parent (fields o)) = true →
  createPhysics o c
  = Returned (removePhysics o c).1
      (log (WarnParented (objectID (removePhysics o c).1)
                         (name (fields (removePhysics o c).1)))
           (removePhysics o c).2).
Proof.
  intros He Hp. unfold createPhysics.
  pose proof (removePhysics_settings o c) as Hs.
  pose proof (removePhysics_fields o c) as Hf.
  destruct (removePhysics o c) as [o1 c1]. cbn [fst snd] in *.
  rewrite Hs, He, Hf, Hp. reflexivity.
Qed.

Lemma createPhysics_guarded o c :
  s_enabled (settings o) = false ∨ Js.str_truthy (f_parent (fields o)) = true →
  syncCounter (obj_of (createPhysics o c)) = syncCounter o.
Proof.
  intros Hg.
  destruct (s_enabled (settings o)) eqn:He.
  - destruct Hg as [Hg | Hg]; [discriminate Hg |].
    rewrite (createPhysics_parented o c He Hg). apply removePhysics_syncCounter.
  - rewrite (createPhysics_disabled o c He). apply removePhysics_syncCounter.
Qed.

(** C3, as stated, fails: a call of [createPhysics] on an object whose
    physics is switched off, or which has a parent, returns at the guard
    and the counter is still 5. *)
Lemma createPhysics_counter_survives_guard :
  syncCounter (obj_of (createPhysics (Samples.switched_off 5) Samples.ctx7)) = 5
  ∧ syncCounter (obj_of (createPhysics (Samples.parented 5) Samples.ctx7)) = 5
  ∧ ¬ (∀ o c, syncCounter (obj_of (createPhysics o c)) = 0).
Proof.
  split; [vm_compute; reflexivity |].
  split; [vm_compute; reflexivity |].
  intros H. specialize (H (Samples.parented 5) Samples.ctx7).
  vm_compute in H. discriminate H.
Qed.

(** C3, amended. For every enabled object without a parent and every
    value of its counter before the call, [createPhysics] leaves the
    counter at 0, whether it returns or waits for the vertices. *)
Theorem createPhysics_resets_syncCounter (o : t) (c : Ctx) :
  s_enabled (settings o) = true →
  Js.str_truthy (f_parent (fields o)) = false →
  syncCounter (obj_of (createPhysics o c)) = 0.
Proof.
  intros He Hp. unfold createPhysics.
  pose proof (removePhysics_settings o c) as Hs.
  pose proof (removePhysics_fields o c) as Hf.
  destruct (removePhysics o c) as [o1 c1]. cbn [fst snd] in *.
  rewrite Hs, He, Hf, Hp. cbn [negb].
  destruct (desc_of_mode _); [| reflexivity].
  destruct (createRigidBody _ _) as [b w].
  repeat (case_bool_decide; [destruct (createCollider _ _ _); reflexivity |]);
    repeat (case_bool_decide; [reflexivity |]).
  destruct (createCollider _ _ _); reflexivity.
Qed.

Lemma createPhysics_resets_syncCounter_witness :
  let o := Samples.active 5 in
  (s_enabled (settings o) = true
   ∧ Js.str_truthy (f_parent (fields o)) = false)
  ∧ syncCounter (obj_of (createPhysics o Samples.ctx7)) = 0.
Proof.
  intros o.
  assert (H1 : s_enabled (settings o) = true) by reflexivity.
  assert (H2 : Js.str_truthy (f_parent (fields o)) = false) by reflexivity.
  split; [auto |].
  exact (createPhysics_resets_syncCounter o Samples.ctx7 H1 H2).
Defined.

(** *** The mode and the shape *)

(** Names the type that the goal computes from the settings of [o]. *)
Ltac name_config o :=
  cbv zeta;
  change (resolve_type (type (read_settings o)) (f_type (fields (read_settings o)))
                       (mode (read_settings o)))
    with (built_type o).

Lemma desc_of_mode_built o :
  desc_of_mode (set_type (built_type o) (read_settings o))
  = if bool_decide (built_mode o = "Static") then Some fixed
    else if bool_decide (built_mode o = "Dynamic")
         then Some (setAdditionalMass (mass_of (settings o)) dynamic)
         else None.
Proof. reflexivity. Qed.

(** A mode other than ['Static'] and ['Dynamic'] takes the branch
    "Unknown mode!": a warning, no body, nothing created in the world. *)
Lemma createPhysics_unknown_mode (o : t) (c : Ctx) :
  body o = None →
  s_enabled (settings o) = true →
  Js.str_truthy (f_parent (fields o)) = false →
  built_mode o ≠ "Static" → built_mode o ≠ "Dynamic" →
  ∃ o' c',
    createPhysics o c = Returned o' c'
    ∧ body o' = None
    ∧ world c' = world c
    ∧ last (console c')
      = Some (WarnUnknownMode (objectID o) (name (fields o)) (built_mode o)).
Proof.
  intros Hb He Hp Hs Hd. unfold createPhysics, removePhysics.
  rewrite Hb, He, Hp. cbn [negb]. name_config o.
  rewrite desc_of_mode_built.
  rewrite (bool_decide_eq_false_2 _ Hs), (bool_decide_eq_false_2 _ Hd).
  eexists _, _. split; [reflexivity |].
  split; [exact Hb |]. split; [reflexivity |].
  cbn [console log]. apply last_snoc.
Qed.

(** C7, where the code departs from it. ['Kinematic'] is one of the
    three values the component registers for its setting [mode], yet
    [createPhysics] treats it as an unknown mode: the enabled, unparented
    object is left without a body, no body is created in the world, and
    the last console line is the warning "Unknown mode". *)
Theorem kinematic_is_unknown_mode :
  (∃ o' c', Samples.kinematic_build = Returned o' c')
  ∧ body (obj_of Samples.kinematic_build) = None
  ∧ bodies (world (ctx_of Samples.kinematic_build)) = ∅
  ∧ last (console (ctx_of Samples.kinematic_build))
    = Some (WarnUnknownMode "obj-1" (Some "crate") "Kinematic").
Proof.
  split; [eexists _, _; vm_compute; reflexivity |].
  split; [vm_compute; reflexivity |].
  split; [| vm_compute; reflexivity].
  reflexivity.
Qed.

(** C8, as stated, fails on three counts. The fallback collider of the
    multi-collider draft is [cuboid(1, 1, 1)], and the arguments of
    [cuboid] are half-extents: the branch ['Cube'] halves the sizes, so
    that a cube with sides 1 gets [cuboid(1/2, 1/2, 1/2)], and the
    fallback is a box with sides 2. With a mode that is neither ['Static']
    nor ['Dynamic'] the build returns before it looks at the shape, and
    there is no body and no collider. In the single-collider draft an
    unknown shape gets no collider at all: the body is created and the
    world holds no collider. *)
Lemma unknown_shape_is_no_unit_cube :
  (∃ o' c',
     createPhysics (Samples.unbuilt true "Dynamic" "Capsule") Samples.ctx0
     = Returned o' c'
     ∧ shape <$> Rapier.colliders (world c') !! 0%N = Some (cuboid 1 1 1))
  ∧ (∃ o' c' hx hy hz,
       createPhysics (Samples.unbuilt true "Dynamic" "Cube") Samples.ctx0
       = Returned o' c'
       ∧ shape <$> Rapier.colliders (world c') !! 0%N = Some (cuboid hx hy hz)
       ∧ (hx == 1 # 2)%Q ∧ (hy == 1 # 2)%Q ∧ (hz == 1 # 2)%Q)
  ∧ ¬ (1 == 1 # 2)%Q
  ∧ (body (obj_of (createPhysics (Samples.unbuilt true "Kinematic" "Capsule")
                                 Samples.ctx0)) = None
     ∧ PhysicsComponent.colliders
         (obj_of (createPhysics (Samples.unbuilt true "Kinematic" "Capsule")
                                Samples.ctx0)) = []
     ∧ Rapier.colliders
         (world (ctx_of (createPhysics (Samples.unbuilt true "Kinematic" "Capsule")
                                       Samples.ctx0))) = ∅)
  ∧ (SingleCollider.body
       (SingleCollider.createPhysics
          (Samples.unbuilt_single true "Dynamic" "Capsule") Samples.ctx0).1
     = Some 0%N
     ∧ SingleCollider.collider
         (SingleCollider.createPhysics
            (Samples.unbuilt_single true "Dynamic" "Capsule") Samples.ctx0).1
       = None
     ∧ Rapier.colliders
         (world (SingleCollider.createPhysics
                   (Samples.unbuilt_single true "Dynamic" "Capsule")
                   Samples.ctx0).2) = ∅)
  ∧ ¬ (∀ o c,
         built_type o ∉ ["Sphere"; "Cube"; "Cylinder"; "Convex Hull"; "Trimesh"] →
         is_Some (body (obj_of (createPhysics o c)))
         ∧ PhysicsComponent.colliders (obj_of (createPhysics o c)) ≠ []).
Proof.
  split; [eexists _, _; split; vm_compute; reflexivity |].
  split.
  { eexists _, _, _, _, _. split; [vm_compute; reflexivity |].
    split; [vm_compute; reflexivity |]. repeat split; reflexivity. }
  split; [intros H; discriminate H |].
  split; [repeat split; vm_compute; reflexivity |].
  split; [repeat split; vm_compute; reflexivity |].
  intros H.
  destruct (H (Samples.unbuilt true "Kinematic" "Capsule") Samples.ctx0) as [[b Hb] _].
  - change (built_type (Samples.unbuilt true "Kinematic" "Capsule")) with "Capsule".
    intros Hin. repeat (apply elem_of_cons in Hin as [Hin | Hin]; [discriminate Hin |]).
    inversion Hin.
  - vm_compute in Hb. discriminate Hb.
Qed.

(** C8, amended. In the multi-collider draft, when the shape type left
    after the replacement of ['Automatic'] is none of ['Sphere'], ['Cube'],
    ['Cylinder'], ['Convex Hull'] and ['Trimesh'], the build of an enabled,
    unparented object in mode ['Static'] or ['Dynamic'] runs to its end: it
    warns "Unknown shape type", and the object ends with a body that is in
    the world and with exactly one collider, a [cuboid(1, 1, 1)] - a box
    with half-extents 1 - attached to that body with collision events
    switched on. In the single-collider draft, which knows ['Sphere'],
    ['Cube'] and ['Cylinder'] only, such a build warns as well and ends
    with a body that is in the world, but it creates and assigns no
    collider: the colliders of the world are those that [removePhysics]
    has left, and the object has none, provided it had none while it had
    no body. *)
Theorem unknown_shape_falls_back (o : t) (c : Ctx)
    (o1 : SingleCollider.t) (c1 : Ctx) :
  (s_enabled (settings o) = true →
   Js.str_truthy (f_parent (fields o)) = false →
   built_mode o = "Static" ∨ built_mode o = "Dynamic" →
   built_type o ∉ ["Sphere"; "Cube"; "Cylinder"; "Convex Hull"; "Trimesh"] →
   ∃ o' c' b h,
     createPhysics o c = Returned o' c'
     ∧ last (console c')
       = Some (WarnUnknownShape (objectID o) (name (fields o)) (built_type o))
     ∧ body o' = Some b
     ∧ is_Some (bodies (world c') !! b)
     ∧ PhysicsComponent.colliders o' = [h]
     ∧ Rapier.colliders (world c') !! h
       = Some {| shape := cuboid 1 1 1; parent := Some b;
                 activeEvents := COLLISION_EVENTS |})
  ∧ (s_enabled (SingleCollider.settings o1) = true →
     Js.str_truthy (f_parent (SingleCollider.fields o1)) = false →
     Js.str_or (s_mode (SingleCollider.settings o1)) "Static" = "Static"
     ∨ Js.str_or (s_mode (SingleCollider.settings o1)) "Static" = "Dynamic" →
     Js.str_or (s_type (SingleCollider.settings o1)) "Sphere"
       ∉ ["Sphere"; "Cube"; "Cylinder"] →
     ∃ o' c' b,
       SingleCollider.createPhysics o1 c1 = (o', c')
       ∧ last (console c')
         = Some (WarnUnknownShape (SingleCollider.objectID o1)
                   (name (SingleCollider.fields o1))
                   (Js.str_or (s_type (SingleCollider.settings o1)) "Sphere"))
       ∧ SingleCollider.body o' = Some b
       ∧ is_Some (bodies (world c') !! b)
       ∧ SingleCollider.collider o'
         = SingleCollider.collider (SingleCollider.removePhysics o1 c1).1
       ∧ ((SingleCollider.body o1 = None → SingleCollider.collider o1 = None) →
          SingleCollider.collider o' = None)
       ∧ Rapier.colliders (world c')
         = Rapier.colliders (world (SingleCollider.removePhysics o1 c1).2)).
Proof.
  split.
  - intros He Hp Hm Hty. unfold createPhysics.
    pose proof (removePhysics_settings o c) as Hs.
    pose proof (removePhysics_fields o c) as Hf.
    assert (Hid : objectID (removePhysics o c).1 = objectID o)
      by (unfold removePhysics; destruct (body o); reflexivity).
    destruct (removePhysics o c) as [o2 c2]. cbn [fst snd] in *.
    rewrite Hs, He, Hf, Hp. cbn [negb].
    assert (Hbm : built_mode o2 = built_mode o) by (unfold built_mode; congruence).
    assert (Hbt : built_type o2 = built_type o)
      by (unfold built_type; rewrite Hbm; congruence).
    name_config o2.
    rewrite desc_of_mode_built, Hbm.
    assert (Hdesc : ∃ d,
              (if bool_decide (built_mode o = "Static") then Some fixed
               else if bool_decide (built_mode o = "Dynamic")
                    then Some (setAdditionalMass (mass_of (settings o2)) dynamic)
                    else None) = Some d).
    { destruct Hm as [Hm | Hm]; rewrite Hm; eexists; reflexivity. }
    destruct Hdesc as [d ->].
    cbn [type set_type createRigidBody]. rewrite Hbt.
    assert (Hne : ∀ k, k ∈ ["Sphere"; "Cube"; "Cylinder"; "Convex Hull"; "Trimesh"] →
                       bool_decide (built_type o = k) = false).
    { intros k Hk. apply bool_decide_eq_false_2. intros Heq. apply Hty.
      rewrite Heq. exact Hk. }
    rewrite !Hne by (repeat first [apply list_elem_of_here | apply list_elem_of_further]).
    eexists _, _, _, _. split; [reflexivity |].
    cbn. rewrite Hid, Hf.
    split; [apply last_snoc |]. split; [reflexivity |].
    split; [rewrite lookup_insert_eq; eauto |]. split; [reflexivity |].
    rewrite lookup_alter_eq, lookup_insert_eq. reflexivity.
  - intros He Hp Hm Hty. unfold SingleCollider.createPhysics.
    assert (Hk : SingleCollider.settings (SingleCollider.removePhysics o1 c1).1
                 = SingleCollider.settings o1
                 ∧ SingleCollider.fields (SingleCollider.removePhysics o1 c1).1
                   = SingleCollider.fields o1
                 ∧ SingleCollider.objectID (SingleCollider.removePhysics o1 c1).1
                   = SingleCollider.objectID o1
                 ∧ ((SingleCollider.body o1 = None → SingleCollider.collider o1 = None) →
                    SingleCollider.collider (SingleCollider.removePhysics o1 c1).1
                    = None)).
    { unfold SingleCollider.removePhysics.
      destruct (SingleCollider.body o1); cbn; auto. }
    destruct Hk as (Hs & Hf & Hid & Hcol).
    destruct (SingleCollider.removePhysics o1 c1) as [o2 c2]. cbn [fst snd] in *.
    rewrite Hs, He, Hf, Hp. cbn [negb]. cbv zeta.
    unfold SingleCollider.desc_of_mode.
    cbn [SingleCollider.mode SingleCollider.type SingleCollider.read_settings
         SingleCollider.fields SingleCollider.objectID SingleCollider.mass
         SingleCollider.disableRotation SingleCollider.synchronized].
    rewrite Hs, Hf, Hid.
    assert (Hdesc : ∃ d,
              (if bool_decide (Js.str_or (s_mode (SingleCollider.settings o1)) "Static"
                               = "Static")
               then Some fixed
               else if bool_decide
                         (Js.str_or (s_mode (SingleCollider.settings o1)) "Static"
                          = "Dynamic")
                    then Some (setAdditionalMass
                                 (mass_of (SingleCollider.settings o1)) dynamic)
                    else None) = Some d).
    { destruct Hm as [Hm | Hm]; rewrite Hm; eexists; reflexivity. }
    destruct Hdesc as [d ->].
    cbn [createRigidBody SingleCollider.type SingleCollider.set_body].
    assert (Hne : ∀ k, k ∈ ["Sphere"; "Cube"; "Cylinder"] →
                       bool_decide (Js.str_or (s_type (SingleCollider.settings o1))
                                      "Sphere" = k) = false).
    { intros k Hk. apply bool_decide_eq_false_2. intros Heq. apply Hty.
      rewrite Heq. exact Hk. }
    assert (Hty2 : SingleCollider.type (SingleCollider.read_settings o2)
                   = Js.str_or (s_type (SingleCollider.settings o1)) "Sphere")
      by (cbn; rewrite Hs; reflexivity).
    rewrite !Hty2.
    rewrite !Hne by (repeat first [apply list_elem_of_here | apply list_elem_of_further]).
    eexists _, _, _. split; [reflexivity |]. cbn. rewrite ?Hid, ?Hf, ?Hs.
    split; [apply last_snoc |]. split; [reflexivity |].
    split; [rewrite lookup_insert_eq; eauto |].
    split; [reflexivity |]. split; [exact Hcol | reflexivity].
Qed.

Lemma unknown_shape_falls_back_witness :
  let o := Samples.unbuilt true "Dynamic" "Capsule" in
  let o1 := Samples.unbuilt_single true "Static" "Convex Hull" in
  ((s_enabled (settings o) = true
    ∧ Js.str_truthy (f_parent (fields o)) = false
    ∧ (built_mode o = "Static" ∨ built_mode o = "Dynamic")
    ∧ built_type o ∉ ["Sphere"; "Cube"; "Cylinder"; "Convex Hull"; "Trimesh"])
   ∧ ∃ o' c' b h,
       createPhysics o Samples.ctx0 = Returned o' c'
       ∧ last (console c')
         = Some (WarnUnknownShape (objectID o) (name (fields o)) (built_type o))
       ∧ body o' = Some b
       ∧ is_Some (bodies (world c') !! b)
       ∧ PhysicsComponent.colliders o' = [h]
       ∧ Rapier.colliders (world c') !! h
         = Some {| shape := cuboid 1 1 1; parent := Some b;
                   activeEvents := COLLISION_EVENTS |})
  ∧ ((s_enabled (SingleCollider.settings o1) = true
      ∧ Js.str_truthy (f_parent (SingleCollider.fields o1)) = false
      ∧ (Js.str_or (s_mode (SingleCollider.settings o1)) "Static" = "Static"
         ∨ Js.str_or (s_mode (SingleCollider.settings o1)) "Static" = "Dynamic")
      ∧ Js.str_or (s_type (SingleCollider.settings o1)) "Sphere"
          ∉ ["Sphere"; "Cube"; "Cylinder"])
     ∧ ∃ o' c' b,
         SingleCollider.createPhysics o1 Samples.ctx7 = (o', c')
         ∧ last (console c')
           = Some (WarnUnknownShape (SingleCollider.objectID o1)
                     (name (SingleCollider.fields o1))
                     (Js.str_or (s_type (SingleCollider.settings o1)) "Sphere"))
         ∧ SingleCollider.body o' = Some b
         ∧ is_Some (bodies (world c') !! b)
         ∧ SingleCollider.collider o' = None
         ∧ Rapier.colliders (world c') = Rapier.colliders Samples.world7).
Proof.
  intros o o1.
  assert (H1 : s_enabled (settings o) = true) by reflexivity.
  assert (H2 : Js.str_truthy (f_parent (fields o)) = false) by reflexivity.
  assert (H3 : built_mode o = "Static" ∨ built_mode o = "Dynamic")
    by (right; reflexivity).
  assert (H4 : built_type o ∉ ["Sphere"; "Cube"; "Cylinder"; "Convex Hull"; "Trimesh"]).
  { change (built_type o) with "Capsule".
    intros Hin. repeat (apply elem_of_cons in Hin as [Hin | Hin]; [discriminate Hin |]).
    inversion Hin. }
  assert (G1 : s_enabled (SingleCollider.settings o1) = true) by reflexivity.
  assert (G2 : Js.str_truthy (f_parent (SingleCollider.fields o1)) = false)
    by reflexivity.
  assert (G3 : Js.str_or (s_mode (SingleCollider.settings o1)) "Static" = "Static"
               ∨ Js.str_or (s_mode (SingleCollider.settings o1)) "Static" = "Dynamic")
    by (left; reflexivity).
  assert (G4 : Js.str_or (s_type (SingleCollider.settings o1)) "Sphere"
                 ∉ ["Sphere"; "Cube"; "Cylinder"]).
  { change (Js.str_or (s_type (SingleCollider.settings o1)) "Sphere")
      with "Convex Hull".
    intros Hin. repeat (apply elem_of_cons in Hin as [Hin | Hin]; [discriminate Hin |]).
    inversion Hin. }
  split.
  - split; [auto |].
    exact (proj1 (unknown_shape_falls_back o Samples.ctx0 o1 Samples.ctx7) H1 H2 H3 H4).
  - split; [auto |].
    destruct (proj2 (unknown_shape_falls_back o Samples.ctx0 o1 Samples.ctx7)
                G1 G2 G3 G4)
      as (o' & c' & b & Hrun & Hwarn & Hb & Hin & _ & Hnone & Hcols).
    exists o', c', b.
    exact (conj Hrun (conj Hwarn (conj Hb (conj Hin
             (conj (Hnone (λ _, eq_refl)) Hcols))))).
Defined.

(** *** Tearing down, and the body an object holds *)

Lemma removePhysics_idle o c : body o = None → removePhysics o c = (o, c).
Proof. intros Hb. unfold removePhysics. rewrite Hb. reflexivity. Qed.

Lemma removePhysics_clears o c :
  consistent o →
  body (removePhysics o c).1 = None
  ∧ PhysicsComponent.colliders (removePhysics o c).1 = [].
Proof.
  intros Hc. unfold removePhysics.
  destruct (body o) eqn:Hb; cbn; [split; reflexivity |].
  split; [exact Hb | exact (Hc Hb)].
Qed.

Lemma removePhysics_idempotent o c :
  removePhysics (removePhysics o c).1 (removePhysics o c).2 = removePhysics o c.
Proof.
  unfold removePhysics at 2 3 4.
  destruct (body o) eqn:Hb; cbn [fst snd].
  - reflexivity.
  - apply removePhysics_idle. exact Hb.
Qed.

(** The body that is torn down leaves the world with its colliders. *)
Lemma removePhysics_world o c b :
  body o = Some b →
  bodies (world (removePhysics o c).2) !! b = None
  ∧ ∀ h col, Rapier.colliders (world (removePhysics o c).2) !! h = Some col →
             parent col ≠ Some b.
Proof.
  intros Hb. unfold removePhysics. rewrite Hb. cbn.
  split; [apply lookup_delete_eq |].
  intros h col Hcol. apply map_lookup_filter_Some in Hcol as [_ Hp]. exact Hp.
Qed.

(** [consistent] holds of a new instance and is kept by every method. *)
Lemma new_consistent id f s : consistent (new id f s).
Proof. intros _. reflexivity. Qed.

Lemma removePhysics_consistent o c : consistent o → consistent (removePhysics o c).1.
Proof. intros Hc _. apply removePhysics_clears. exact Hc. Qed.

Lemma createPhysics_consistent o c : consistent o → consistent (obj_of (createPhysics o c)).
Proof.
  intros Hc. unfold createPhysics.
  pose proof (removePhysics_clears o c Hc) as [Hb Hcs].
  destruct (removePhysics o c) as [o1 c1]. cbn [fst snd] in *.
  assert (H1 : consistent o1) by (intros _; exact Hcs).
  destruct (negb _); [exact H1 |].
  destruct (Js.str_truthy _); [exact H1 |].
  name_config o1.
  destruct (desc_of_mode _); [| intros _; exact Hcs].
  destruct (createRigidBody _ _) as [b w].
  repeat (case_bool_decide;
          [first [ destruct (createCollider _ _ _); intros Hn; discriminate Hn
                 | intros _; exact Hcs ] |]).
  destruct (createCollider _ _ _). intros Hn. discriminate Hn.
Qed.

(** The loop over the sub-meshes throws exactly when the engine cannot
    build one of them; otherwise it returns one handle for each. *)
Lemma create_colliders_outcome buildable shapes b w :
  match (create_colliders buildable shapes b w).1 with
  | Some cs => forallb buildable shapes = true ∧ length cs = length shapes
  | None => forallb buildable shapes = false
  end.
Proof.
  revert w. induction shapes as [| s shapes IH]; intros w; [cbn; auto |].
  cbn [create_colliders forallb]. destruct (buildable s); [| reflexivity].
  destruct (createCollider s (Some b) w) as [h w1].
  specialize (IH w1). destruct (create_colliders buildable shapes b w1) as [[hs |] w2];
    cbn [fst fmap option_fmap option_map andb length] in *; [| exact IH].
  destruct IH as [-> ->]. auto.
Qed.

(** A build that finishes establishes [consistent]; one that is rejected
    leaves the object as it was. *)
Lemma createPhysics_resume_consistent buildable k objects o c :
  (∀ o' c', createPhysics_resume buildable k objects o c = Fulfilled o' c' →
            consistent o')
  ∧ (consistent o →
     consistent (state_of (createPhysics_resume buildable k objects o c)).1).
Proof.
  unfold createPhysics_resume.
  destruct (create_colliders _ _ _ _) as [[cs |] w]; cbn [finish state_of fst].
  - split.
    + intros o' c' Heq. injection Heq as <- _. intros Hn. discriminate Hn.
    + intros _ Hn. discriminate Hn.
  - split; [intros o' c' Heq; discriminate Heq | auto].
Qed.

Lemma sendUpdate_physics now o c :
  body (sendUpdate now o c).1 = body o
  ∧ PhysicsComponent.colliders (sendUpdate now o c).1 = PhysicsComponent.colliders o.
Proof.
  unfold sendUpdate.
  destruct (body o) eqn:Hb, (synchronized o), (bool_decide (mode o = "Dynamic")),
    (too_quick now o); split; cbn; auto.
Qed.

Lemma onRemoteUpdateReceived_physics data o c :
  body (onRemoteUpdateReceived data o c).1 = body o
  ∧ PhysicsComponent.colliders (onRemoteUpdateReceived data o c).1
    = PhysicsComponent.colliders o.
Proof.
  unfold onRemoteUpdateReceived.
  destruct (body o) eqn:Hb, (synchronized o), (counter data <? syncCounter o),
    (bool_decide (mode o = "Dynamic")); split; cbn; auto.
Qed.

Lemma loop_consistent now o c : consistent o → consistent (obj_of (loop now o c)).
Proof.
  intros Hc. unfold loop.
  destruct (body o) eqn:Hb; [| exact Hc].
  destruct (sleeping _); [exact Hc |].
  destruct (negb _); [exact Hc |].
  destruct (Qle_bool _ _).
  - apply createPhysics_consistent. intros Hn. cbn in Hn. congruence.
  - destruct (sendUpdateNextFrame o); [| exact Hc].
    match goal with
    | |- context [sendUpdate now o ?cc] =>
        pose proof (sendUpdate_physics now o cc) as [H1 H2];
        destruct (sendUpdate now o cc) as [o' c']
    end.
    cbn in H1, H2 |- *. intros Hn. congruence.
Qed.


(** C9, where the code departs from it. Calling [removePhysics] first
    does not keep the bodies of one object apart when two builds overlap:
    the body of a build that waits for its vertices is not yet in
    [this.body], so the next call of [createPhysics] removes nothing and
    creates a second body. After both builds have finished the world holds
    the bodies 0 and 1, each with a collider; the object holds body 1 and
    collider 1 only, and [removePhysics] leaves body 0 and collider 0 in
    the world. *)
Theorem overlapping_builds_leave_two_bodies :
  body Samples.overlapping_builds.1 = Some 1%N
  ∧ PhysicsComponent.colliders Samples.overlapping_builds.1 = [1%N]
  ∧ is_Some (bodies (world Samples.overlapping_builds.2) !! 0%N)
  ∧ is_Some (bodies (world Samples.overlapping_builds.2) !! 1%N)
  ∧ parent <$> Rapier.colliders (world Samples.overlapping_builds.2) !! 0%N
    = Some (Some 0%N)
  ∧ parent <$> Rapier.colliders (world Samples.overlapping_builds.2) !! 1%N
    = Some (Some 1%N)
  ∧ body (removePhysics Samples.overlapping_builds.1
                        Samples.overlapping_builds.2).1 = None
  ∧ is_Some (bodies (world (removePhysics Samples.overlapping_builds.1
                                          Samples.overlapping_builds.2).2) !! 0%N)
  ∧ is_Some (Rapier.colliders
               (world (removePhysics Samples.overlapping_builds.1
                                     Samples.overlapping_builds.2).2) !! 0%N).
Proof.
  repeat split; try (vm_compute; reflexivity);
    (eexists; vm_compute; reflexivity).
Qed.

(** The same gap lets a build finish on an object that was switched off
    while it waited: the object is disabled and yet holds body 0 and a
    collider. *)
Lemma build_outlives_switch_off :
  s_enabled (settings Samples.disabled_during_build.1) = false
  ∧ body Samples.disabled_during_build.1 = Some 0%N
  ∧ PhysicsComponent.colliders Samples.disabled_during_build.1 = [0%N]
  ∧ is_Some (bodies (world Samples.disabled_during_build.2) !! 0%N).
Proof.
  repeat split; try (vm_compute; reflexivity).
  eexists; vm_compute; reflexivity.
Qed.

(** *** What the modes ['Static'] and ['Dynamic'] build *)

Lemma place_status f lock d : status (place f lock d) = status d.
Proof.
  unfold place. destruct lock, (_ || _); reflexivity.
Qed.

(** The descriptor is [fixed()] for ['Static'] and [dynamic()] with the
    additional mass for ['Dynamic']; the body made from it is in the world
    when [createPhysics] hands control back, under the handle that the
    call will store in [this.body]. *)
Lemma createPhysics_static_dynamic (o : t) (c : Ctx) :
  s_enabled (settings o) = true →
  Js.str_truthy (f_parent (fields o)) = false →
  built_mode o = "Static" ∨ built_mode o = "Dynamic" →
  ∃ rb,
    bodies (world (ctx_of (createPhysics o c)))
      !! nextBody (world (removePhysics o c).2) = Some rb
    ∧ bodyType rb = (if bool_decide (built_mode o = "Static") then Fixed else Dynamic)
    ∧ match createPhysics o c with
      | Returned o' _ => body o' = Some (nextBody (world (removePhysics o c).2))
      | Awaiting k o' _ =>
          p_body k = nextBody (world (removePhysics o c).2) ∧ body o' = None
      end.
Proof.
  intros He Hp Hm. unfold createPhysics.
  pose proof (removePhysics_settings o c) as Hs.
  pose proof (removePhysics_fields o c) as Hf.
  pose proof (removePhysics_clears o c) as Hcl.
  assert (Hnb : body (removePhysics o c).1 = None).
  { unfold removePhysics. destruct (body o) eqn:Hb; [reflexivity | exact Hb]. }
  clear Hcl.
  destruct (removePhysics o c) as [o1 c1]. cbn [fst snd] in *.
  rewrite Hs, He, Hf, Hp. cbn [negb].
  assert (Hbm : built_mode o1 = built_mode o) by (unfold built_mode; congruence).
  name_config o1. rewrite desc_of_mode_built, Hbm.
  assert (Hstatic : bool_decide ("Static" = "Static") = true)
    by (apply bool_decide_eq_true_2; reflexivity).
  assert (Hdyn1 : bool_decide ("Dynamic" = "Static") = false)
    by (apply bool_decide_eq_false_2; discriminate).
  assert (Hdyn2 : bool_decide ("Dynamic" = "Dynamic") = true)
    by (apply bool_decide_eq_true_2; reflexivity).
  destruct Hm as [Hm | Hm]; rewrite Hm;
    rewrite ?Hstatic, ?Hdyn1, ?Hdyn2; clear Hstatic Hdyn1 Hdyn2;
    (repeat case_bool_decide;
     cbn; eexists; (split; [apply lookup_insert_eq |]);
     cbn [bodyType body_of_desc]; rewrite place_status; split; auto).
Qed.

(** When the engine builds every sub-mesh, the build that waited for its
    vertices ends with the body it created before the wait and with one
    collider for each sub-mesh. *)
Lemma createPhysics_resume_body buildable k objects o c :
  forallb buildable (map (mesh_shape (p_kind k) (fields o)) objects) = true →
  ∃ o' c',
    createPhysics_resume buildable k objects o c = Fulfilled o' c'
    ∧ body o' = Some (p_body k)
    ∧ length (PhysicsComponent.colliders o') = length objects.
Proof.
  intros Hall. unfold createPhysics_resume.
  pose proof (create_colliders_outcome buildable
                (map (mesh_shape (p_kind k) (fields o)) objects)
                (p_body k) (world c)) as Hout.
  destruct (create_colliders _ _ _ _) as [[cs |] w]; cbn [fst] in Hout.
  - destruct Hout as [_ Hlen]. rewrite length_map in Hlen.
    eexists _, _. split; [reflexivity |]. split; [reflexivity | exact Hlen].
  - congruence.
Qed.

(** When the engine cannot build one of them, the call is rejected and
    the object is as it was: [this.body] is not assigned. *)
Lemma createPhysics_resume_rejected buildable k objects o c :
  forallb buildable (map (mesh_shape (p_kind k) (fields o)) objects) = false →
  ∃ c', createPhysics_resume buildable k objects o c = Rejected o c'.
Proof.
  intros Hsome. unfold createPhysics_resume.
  pose proof (create_colliders_outcome buildable
                (map (mesh_shape (p_kind k) (fields o)) objects)
                (p_body k) (world c)) as Hout.
  destruct (create_colliders _ _ _ _) as [[cs |] w]; cbn [fst] in Hout.
  - destruct Hout as [Hall _]. congruence.
  - eexists. reflexivity.
Qed.

End Build.

(** ** Outbound broadcast *)

Module Broadcast.

Import Rapier Host PhysicsComponent.

(** The three preconditions of a broadcast. *)
Lemma sendUpdate_ineligible now o c :
  body o = None ∨ synchronized o = false ∨ mode o ≠ "Dynamic" →
  sendUpdate now o c = (o, c).
Proof.
  unfold sendUpdate. intros [H | [H | H]].
  - rewrite H. reflexivity.
  - rewrite H. destruct (body o); reflexivity.
  - rewrite (bool_decide_eq_false_2 _ H).
    destruct (body o), (synchronized o); reflexivity.
Qed.

(** The throttle: within 100 ms of the last send the call returns at
    "Stop if sending too quickly". *)
Lemma too_quick_within now last o :
  lastUpdateSent o = Some last → last ≠ 0 → now - last < 100 →
  too_quick now o = true.
Proof.
  intros Hl Hz Hlt. unfold too_quick. rewrite Hl. cbn.
  apply andb_true_iff. split.
  - apply negb_true_iff, Z.eqb_neq. exact Hz.
  - apply Z.ltb_lt. exact Hlt.
Qed.

Lemma too_quick_after now last o :
  lastUpdateSent o = Some last → 100 ≤ now - last → too_quick now o = false.
Proof.
  intros Hl Hge. unfold too_quick. rewrite Hl.
  apply andb_false_iff. right. apply Z.ltb_ge. exact Hge.
Qed.

Lemma sendUpdate_throttled now o c :
  too_quick now o = true → sendUpdate now o c = (o, c).
Proof.
  intros Hq. unfold sendUpdate. rewrite Hq.
  destruct (body o), (synchronized o), (bool_decide (mode o = "Dynamic"));
    reflexivity.
Qed.

(** The send itself. *)
Lemma sendUpdate_sends now o c b :
  body o = Some b → synchronized o = true → mode o = "Dynamic" →
  too_quick now o = false →
  sendUpdate now o c
  = (set_syncCounter (syncCounter o + 1)
       (set_sendUpdateNextFrame false (set_lastUpdateSent now o)),
     count_message_out
       (messages_send
          {| action := "update"; inst := instanceID c; obj := objectID o;
             counter := syncCounter o + 1;
             pos := translation (body_at b (world c));
             quat := rotation (body_at b (world c));
             m_angvel := angvel (body_at b (world c));
             m_linvel := linvel (body_at b (world c)) |} c)).
Proof.
  intros Hb Hs Hm Hq. unfold sendUpdate.
  rewrite Hb, Hs, (bool_decide_eq_true_2 _ Hm), Hq. reflexivity.
Qed.

(** Every call either changes nothing or sends. *)
Lemma sendUpdate_cases now o c :
  sendUpdate now o c = (o, c)
  ∨ ∃ b, body o = Some b ∧ synchronized o = true ∧ mode o = "Dynamic"
         ∧ too_quick now o = false.
Proof.
  destruct (body o) as [b |] eqn:Hb;
    [| left; apply sendUpdate_ineligible; auto].
  destruct (synchronized o) eqn:Hs;
    [| left; apply sendUpdate_ineligible; auto].
  destruct (decide (mode o = "Dynamic")) as [Hm | Hm];
    [| left; apply sendUpdate_ineligible; auto].
  destruct (too_quick now o) eqn:Hq;
    [left; apply sendUpdate_throttled; exact Hq |].
  right. exists b. auto.
Qed.

(** C5. [sendUpdate] puts a message on the bus only when the object is
    synchronized, Dynamic and has a body. Every message it sends is the
    only one of that call; it carries the action ['update'], the
    instance identifier of this plugin, the object's identifier, the
    counter incremented by one, and the translation, rotation, angular
    and linear velocity of the body; the object's counter is incremented
    by one and [sendUpdateNextFrame] is cleared. When a precondition
    fails nothing is sent and the object, its counter included, is
    unchanged. When the preconditions hold and the throttle lets the call
    through, the message is sent. *)
Theorem sendUpdate_sends_when_eligible (now : Z) (o : t) (c : Ctx) :
  (∀ m, sent (sendUpdate now o c).2 = sent c ++ [m] →
     ∃ b, body o = Some b ∧ synchronized o = true ∧ mode o = "Dynamic"
          ∧ m = {| action := "update"; inst := instanceID c; obj := objectID o;
                   counter := syncCounter o + 1;
                   pos := translation (body_at b (world c));
                   quat := rotation (body_at b (world c));
                   m_angvel := angvel (body_at b (world c));
                   m_linvel := linvel (body_at b (world c)) |}
          ∧ syncCounter (sendUpdate now o c).1 = syncCounter o + 1
          ∧ sendUpdateNextFrame (sendUpdate now o c).1 = false)
  ∧ (sent (sendUpdate now o c).2 = sent c
     ∨ ∃ m, sent (sendUpdate now o c).2 = sent c ++ [m])
  ∧ (body o = None ∨ synchronized o = false ∨ mode o ≠ "Dynamic" →
     sent (sendUpdate now o c).2 = sent c
     ∧ syncCounter (sendUpdate now o c).1 = syncCounter o
     ∧ sendUpdate now o c = (o, c))
  ∧ (is_Some (body o) ∧ synchronized o = true ∧ mode o = "Dynamic"
     ∧ too_quick now o = false →
     ∃ m, sent (sendUpdate now o c).2 = sent c ++ [m]).
Proof.
  split; [| split; [| split]].
  - intros m Hm.
    destruct (sendUpdate_cases now o c) as [Hsame | (b & Hb & Hs & Hd & Hq)].
    + rewrite Hsame in Hm. cbn in Hm.
      apply (f_equal length) in Hm. rewrite length_app in Hm. cbn in Hm. lia.
    + rewrite (sendUpdate_sends now o c b Hb Hs Hd Hq) in Hm |- *. cbn in Hm |- *.
      apply app_inv_head in Hm. injection Hm as <-.
      exists b. repeat split; auto.
  - destruct (sendUpdate_cases now o c) as [Hsame | (b & Hb & Hs & Hd & Hq)].
    + left. rewrite Hsame. reflexivity.
    + right. rewrite (sendUpdate_sends now o c b Hb Hs Hd Hq). cbn. eauto.
  - intros H. rewrite (sendUpdate_ineligible now o c H). auto.
  - intros ([b Hb] & Hs & Hd & Hq).
    rewrite (sendUpdate_sends now o c b Hb Hs Hd Hq). cbn. eauto.
Qed.

Lemma sendUpdate_sends_when_eligible_witness :
  sent (sendUpdate 1700000000500 (Samples.active 5) Samples.ctx7).2
  = [{| action := "update"; inst := "1700000000000:0.25"; obj := "obj-1";
        counter := 6;
        pos := {| x := 1; y := 10; z := 2 |};
        quat := identity;
        m_angvel := zero;
        m_linvel := {| x := 0; y := -1; z := 0 |} |}]
  ∧ syncCounter (sendUpdate 1700000000500 (Samples.active 5) Samples.ctx7).1 = 6.
Proof.
  pose proof (sendUpdate_sends_when_eligible 1700000000500 (Samples.active 5)
                Samples.ctx7) as (Hm & _ & _ & Hsend).
  assert (He : is_Some (body (Samples.active 5))
               ∧ synchronized (Samples.active 5) = true
               ∧ mode (Samples.active 5) = "Dynamic"
               ∧ too_quick 1700000000500 (Samples.active 5) = false)
    by (repeat split; eexists; reflexivity).
  destruct (Hsend He) as [m Hsent].
  destruct (Hm m Hsent) as (b & Hb & _ & _ & -> & Hc & _).
  injection Hb as <-.
  split; [exact Hsent | exact Hc].
Defined.

(** A rebuild touches neither the pending flag nor the message bus. *)
Lemma createPhysics_keeps_flag o c :
  sendUpdateNextFrame (obj_of (createPhysics o c)) = sendUpdateNextFrame o
  ∧ sent (ctx_of (createPhysics o c)) = sent c.
Proof.
  unfold createPhysics, removePhysics.
  destruct (body o);
    (destruct (negb _); [split; reflexivity |];
     destruct (Js.str_truthy _); [split; reflexivity |];
     destruct (desc_of_mode _); [| split; reflexivity];
     destruct (createRigidBody _ _) as [b' w'];
     repeat (case_bool_decide;
             [first [ destruct (createCollider _ _ _); split; reflexivity
                    | split; reflexivity ] |]);
     destruct (createCollider _ _ _); split; reflexivity).
Qed.

(** A tick inside the window: whatever the state of the world, a pending
    flag stays set and nothing is sent. *)
Lemma loop_keeps_pending now last o c :
  lastUpdateSent o = Some last → last ≠ 0 → now - last < 100 →
  sendUpdateNextFrame o = true →
  sendUpdateNextFrame (obj_of (loop now o c)) = true
  ∧ sent (ctx_of (loop now o c)) = sent c.
Proof.
  intros Hl Hz Hlt Hf. unfold loop.
  destruct (body o); [| auto].
  destruct (sleeping _); [auto |].
  destruct (negb _); [auto |].
  destruct (Qle_bool _ _).
  - match goal with
    | |- context [createPhysics ?o' ?c'] =>
        destruct (createPhysics_keeps_flag o' c') as [H1 H2]
    end.
    rewrite H1, H2. auto.
  - rewrite Hf, sendUpdate_throttled by eauto using too_quick_within. auto.
Qed.

(** C4. Two requests to broadcast one object less than 100 ms apart put
    exactly one message on the bus. The first call of [sendUpdate], at
    [now1], sends. A second call at [now2], less than 100 ms later,
    returns without sending and without changing the object, whatever
    the state of the world and whether [sendUpdateNextFrame] is set or
    not; a tick of [loop] at [now2] on a set flag leaves the flag set and
    sends nothing. A tick at [now3], 100 ms or more after the first send,
    on the set flag and an awake body above the floor, sends the next
    message and clears the flag. The clock is not at the epoch. *)
Theorem second_broadcast_is_deferred (now1 now2 now3 : Z) (o : t)
    (c c2 c3 : Ctx) (b : N) :
  body o = Some b → synchronized o = true → mode o = "Dynamic" →
  too_quick now1 o = false →
  now1 ≠ 0 →
  now2 - now1 < 100 →
  100 ≤ now3 - now1 →
  sleeping (body_at b (world c3)) = false →
  Qle_bool (y (translation (body_at b (world c3)))) (-50) = false →
  (∃ m, sent (sendUpdate now1 o c).2 = sent c ++ [m]
        ∧ sent (sendUpdate now2 (sendUpdate now1 o c).1 (sendUpdate now1 o c).2).2
          = sent c ++ [m])
  ∧ (∀ flag,
       sendUpdate now2 (set_sendUpdateNextFrame flag (sendUpdate now1 o c).1) c2
       = (set_sendUpdateNextFrame flag (sendUpdate now1 o c).1, c2))
  ∧ (sendUpdateNextFrame
       (obj_of (loop now2 (didCollideWithUser (sendUpdate now1 o c).1) c2)) = true
     ∧ sent (ctx_of (loop now2 (didCollideWithUser (sendUpdate now1 o c).1) c2))
       = sent c2)
  ∧ (∃ o3 c3' m,
       loop now3 (didCollideWithUser (sendUpdate now1 o c).1) c3 = Returned o3 c3'
       ∧ sent c3' = sent c3 ++ [m]
       ∧ counter m = syncCounter o + 2
       ∧ sendUpdateNextFrame o3 = false).
Proof.
  intros Hb Hs Hm Hq Hz Hlt Hge Hawake Hfloor.
  rewrite (sendUpdate_sends now1 o c b Hb Hs Hm Hq). cbn [fst snd].
  set (o1 := set_syncCounter _ _).
  assert (Hl1 : ∀ flag, lastUpdateSent (set_sendUpdateNextFrame flag o1) = Some now1)
    by reflexivity.
  split; [| split; [| split]].
  - eexists. split; [reflexivity |].
    rewrite sendUpdate_throttled; [reflexivity |].
    apply (too_quick_within now2 now1); auto.
  - intros flag. apply sendUpdate_throttled.
    apply (too_quick_within now2 now1); auto.
  - apply (loop_keeps_pending now2 now1); auto.
  - unfold loop. cbn [body didCollideWithUser set_sendUpdateNextFrame o1
                      set_syncCounter set_lastUpdateSent mode].
    rewrite Hb, Hawake, (bool_decide_eq_true_2 _ Hm). cbn [negb].
    cbn [objects_update world]. rewrite Hfloor.
    cbn [sendUpdateNextFrame].
    rewrite (sendUpdate_sends now3 _ _ b); auto;
      [| apply (too_quick_after now3 now1); auto].
    eexists _, _, _. split; [reflexivity |].
    subst o1. cbn. repeat split. cbn. lia.
Qed.

Lemma second_broadcast_is_deferred_witness :
  let o := Samples.active 5 in
  let c := Samples.ctx7_awake in
  (body o = Some 7%N ∧ synchronized o = true ∧ mode o = "Dynamic"
   ∧ too_quick 1700000000500 o = false
   ∧ 1700000000500 ≠ 0
   ∧ 1700000000540 - 1700000000500 < 100
   ∧ 100 ≤ 1700000000600 - 1700000000500
   ∧ sleeping (body_at 7 (world c)) = false
   ∧ Qle_bool (y (translation (body_at 7 (world c)))) (-50) = false)
  ∧ (∃ m, sent (sendUpdate 1700000000500 o c).2 = sent c ++ [m]
          ∧ sent (sendUpdate 1700000000540 (sendUpdate 1700000000500 o c).1
                    (sendUpdate 1700000000500 o c).2).2
            = sent c ++ [m])
  ∧ (∃ o3 c3' m,
       loop 1700000000600 (didCollideWithUser (sendUpdate 1700000000500 o c).1) c
       = Returned o3 c3'
       ∧ sent c3' = sent c ++ [m]
       ∧ counter m = syncCounter o + 2
       ∧ sendUpdateNextFrame o3 = false).
Proof.
  intros o c.
  assert (H1 : body o = Some 7%N) by reflexivity.
  assert (H2 : synchronized o = true) by reflexivity.
  assert (H3 : mode o = "Dynamic") by reflexivity.
  assert (H4 : too_quick 1700000000500 o = false) by reflexivity.
  assert (H5 : 1700000000500 ≠ 0) by lia.
  assert (H6 : 1700000000540 - 1700000000500 < 100) by lia.
  assert (H7 : 100 ≤ 1700000000600 - 1700000000500) by lia.
  assert (H8 : sleeping (body_at 7 (world c)) = false) by (vm_compute; reflexivity).
  assert (H9 : Qle_bool (y (translation (body_at 7 (world c)))) (-50) = false)
    by (vm_compute; reflexivity).
  split; [repeat split; assumption |].
  pose proof (second_broadcast_is_deferred 1700000000500 1700000000540
                1700000000600 o c c c 7%N H1 H2 H3 H4 H5 H6 H7 H8 H9)
    as (Hfirst & _ & _ & Hlast).
  split; [exact Hfirst | exact Hlast].
Defined.

End Broadcast.

(** ** Collision correlation *)

Module Correlator.

Import Rapier Host RapierPhysicsPlugin.

Lemma same_pair_match idA idB c :
  same_pair idA idB c = true ↔ handles_match idA idB c.
Proof.
  unfold same_pair, handles_match.
  rewrite orb_true_iff, !andb_true_iff, !N.eqb_eq. reflexivity.
Qed.

(** The JavaScript filter keeps what the predicate of the claim keeps. *)
Lemma filter_same_pair idA idB (l : list ActiveCollision) :
  List.filter (λ c, negb (same_pair idA idB c)) l
  = filter (λ c, ¬ handles_match idA idB c) l.
Proof.
  induction l as [| c l IH]; [reflexivity |].
  cbn [List.filter]. rewrite filter_cons, IH.
  destruct (same_pair idA idB c) eqn:Hsp; cbn [negb].
  - rewrite decide_False; [reflexivity |].
    intros Hn. apply Hn, same_pair_match. exact Hsp.
  - rewrite decide_True; [reflexivity |].
    intros Hm. apply same_pair_match in Hm. congruence.
Qed.

Lemma activeCollisions_end idA idB p :
  activeCollisions (onCollisionEvent idA idB false p)
  = List.filter (λ c, negb (same_pair idA idB c)) (activeCollisions p).
Proof.
  unfold onCollisionEvent. cbn [hooks_trigger activeCollisions].
  destruct (_ || _); [| reflexivity].
  destruct (if (idA =? userCollider p)%N then _ else _) as [[r o] |]; reflexivity.
Qed.

Lemma heap_end idA idB p : heap (onCollisionEvent idA idB false p) = heap p.
Proof.
  unfold onCollisionEvent. cbn [hooks_trigger heap].
  destruct (_ || _); [| reflexivity].
  destruct (if (idA =? userCollider p)%N then _ else _) as [[r o] |]; reflexivity.
Qed.

(** C6. A collision-end event for the handles [idA] and [idB] leaves, in
    their order, exactly the active collisions whose handle pair is not
    this pair in either order: a record is in the list afterwards if and
    only if it was in the list and its pair does not match, so a record
    that has only one handle in common with the event stays. No
    component is touched. *)
Theorem collision_end_removes_matching (idA idB : N) (p : t PhysicsComponent.t) :
  activeCollisions (onCollisionEvent idA idB false p)
  = filter (λ c, ¬ handles_match idA idB c) (activeCollisions p)
  ∧ (∀ c, c ∈ activeCollisions (onCollisionEvent idA idB false p)
          ↔ c ∈ activeCollisions p ∧ ¬ handles_match idA idB c)
  ∧ (∀ c, c ∈ activeCollisions p →
          (colliderHandle1 c = idA ∧ colliderHandle2 c ≠ idB ∧ colliderHandle2 c ≠ idA)
          ∨ (colliderHandle1 c = idB ∧ colliderHandle2 c ≠ idA ∧ colliderHandle2 c ≠ idB)
          ∨ (colliderHandle2 c = idA ∧ colliderHandle1 c ≠ idB ∧ colliderHandle1 c ≠ idA)
          ∨ (colliderHandle2 c = idB ∧ colliderHandle1 c ≠ idA ∧ colliderHandle1 c ≠ idB) →
          c ∈ activeCollisions (onCollisionEvent idA idB false p))
  ∧ heap (onCollisionEvent idA idB false p) = heap p.
Proof.
  rewrite activeCollisions_end, filter_same_pair.
  split; [reflexivity |]. split; [| split].
  - intros c. rewrite list_elem_of_filter. tauto.
  - intros c Hin Hone. apply list_elem_of_filter. split; [| exact Hin].
    unfold handles_match. intros [[H1 H2] | [H1 H2]];
      destruct Hone as [H | [H | [H | H]]]; destruct H as (? & ? & ?); congruence.
  - apply heap_end.
Qed.

(** The end of the collision between the user (9) and collider 3, in
    either order of the handles, removes that record and keeps the two
    records that share one handle with it. *)
Lemma collision_end_removes_matching_witness :
  activeCollisions (onCollisionEvent 3 9 false (Samples.plugin_of 5))
  = [Samples.collision 3 4; Samples.collision 4 9].
Proof.
  destruct (collision_end_removes_matching 3 9 (Samples.plugin_of 5)) as [H _].
  rewrite H. vm_compute. reflexivity.
Defined.

End Correlator.

(** ** Inbound dispatch *)

Module Inbound.

Import Rapier Host RapierPhysicsPlugin.

Section AnyComponent.

Context {C : Type} `{Component C}.

(** No registered object satisfies the predicate: [find] is undefined. *)
Lemma find_object_none (pred : C → bool) (p : t C) :
  (∀ r o, r ∈ physicsObjects p → heap p !! r = Some o → pred o = false) →
  find_object pred p = None.
Proof.
  intros Hnone. unfold find_object.
  assert (Hf : List.find (λ r, match heap p !! r with
                               | Some o => pred o
                               | None => false
                               end) (physicsObjects p) = None).
  { revert Hnone. generalize (physicsObjects p) as l.
    induction l as [| r l IH]; intros Hnone; [reflexivity |].
    cbn [List.find].
    destruct (heap p !! r) as [o |] eqn:Hr.
    - rewrite (Hnone r o (list_elem_of_here r l) Hr).
      apply IH. intros r' o' Hin. apply Hnone. apply list_elem_of_further, Hin.
    - apply IH. intros r' o' Hin. apply Hnone. apply list_elem_of_further, Hin. }
  rewrite Hf. reflexivity.
Qed.

(** What [find] returns is registered and satisfies the predicate. *)
Lemma find_object_some (pred : C → bool) (p : t C) r o :
  find_object pred p = Some (r, o) →
  r ∈ physicsObjects p ∧ heap p !! r = Some o ∧ pred o = true.
Proof.
  unfold find_object.
  destruct (List.find _ _) as [r' |] eqn:Hf; [| discriminate].
  apply find_some in Hf as [Hin Hp].
  destruct (heap p !! r') as [o' |] eqn:Hr; [| discriminate].
  intros [= <- <-]. split; [apply list_elem_of_In, Hin | auto].
Qed.

(** C10. Every inbound message increments [numMessagesIn]. Nothing else
    of the plugin changes - no component, nothing in the world - when the
    message carries this plugin's own instance identifier, when its
    action is not ['update'], or when no registered object has its object
    identifier: these messages are dropped and the call returns normally.
    A message from another instance with the action ['update'] and the
    identifier of a registered object is handed to
    [onRemoteUpdateReceived] of the first such object. *)
Theorem onMessage_discards (data : Message) (p : t C) :
  numMessagesIn (onMessage data p) = numMessagesIn p + 1
  ∧ (inst data = instanceID (ctx p)
     ∨ action data ≠ "update"
     ∨ (∀ r o, r ∈ physicsObjects p → heap p !! r = Some o →
               objectID o ≠ obj data) →
     onMessage data p = count_message_in p
     ∧ heap (onMessage data p) = heap p
     ∧ ctx (onMessage data p) = ctx p)
  ∧ (∀ r o, inst data ≠ instanceID (ctx p) → action data = "update" →
            find_object (λ o, bool_decide (objectID o = obj data)) p = Some (r, o) →
            r ∈ physicsObjects p ∧ heap p !! r = Some o ∧ objectID o = obj data
            ∧ onMessage data p
              = store r (onRemoteUpdateReceived data o (ctx p)) (count_message_in p)).
Proof.
  split; [| split].
  - unfold onMessage. repeat case_bool_decide; try reflexivity.
    destruct (find_object _ _) as [[r o] |]; reflexivity.
  - intros Hdrop.
    assert (Hsame : onMessage data p = count_message_in p).
    { unfold onMessage. repeat case_bool_decide; try reflexivity.
      destruct Hdrop as [Hi | [Ha | Ho]]; [done | done |].
      rewrite find_object_none; [reflexivity |].
      intros r o Hin Hr. apply bool_decide_eq_false_2.
      exact (Ho r o Hin Hr). }
    rewrite Hsame. auto.
  - intros r o Hi Ha Hfind.
    destruct (find_object_some _ _ _ _ Hfind) as (Hin & Hr & Hid).
    apply bool_decide_eq_true_1 in Hid.
    repeat split; auto.
    unfold onMessage.
    rewrite bool_decide_eq_false_2 by exact Hi.
    rewrite bool_decide_eq_true_2 by exact Ha.
    change (find_object (λ o0, bool_decide (objectID o0 = obj data))
              (count_message_in p))
      with (find_object (λ o0, bool_decide (objectID o0 = obj data)) p).
    rewrite Hfind. reflexivity.
Qed.

End AnyComponent.

(** The plugin's own echo, in either draft of the component: only the
    counter of inbound messages moves. *)
Lemma onMessage_discards_witness :
  let data := Samples.update_of "1700000000000:0.25" 8 in
  let p := Samples.plugin_of 5 in
  inst data = instanceID (ctx p)
  ∧ numMessagesIn (onMessage data p) = 1
  ∧ heap (onMessage data p) = heap p
  ∧ ctx (onMessage data p) = ctx p.
Proof.
  intros data p.
  assert (Hi : inst data = instanceID (ctx p)) by reflexivity.
  destruct (onMessage_discards data p) as (Hn & Hdrop & _).
  destruct (Hdrop (or_introl Hi)) as (_ & Hh & Hc).
  split; [exact Hi |]. split; [exact Hn |]. split; [exact Hh | exact Hc].
Defined.

End Inbound.

(** ** The single-collider draft *)

Module SingleColliderFacts.

Import Rapier Host SingleCollider.

(** In this draft an object counts as loaded when it has a body and a
    collider; with both, a remote update at or above the counter is
    merged as in the multi-collider draft. *)
Lemma remote_update_accepted_single (data : Message) (o : t) (c : Ctx)
    (b h : N) (rb : RigidBody) :
  body o = Some b → collider o = Some h →
  bodies (world c) !! b = Some rb →
  synchronized o = true → mode o = "Dynamic" →
  syncCounter o ≤ counter data →
  ∃ rb',
    syncCounter (onRemoteUpdateReceived data o c).1 = counter data
    ∧ bodies (world (onRemoteUpdateReceived data o c).2) !! b = Some rb'
    ∧ translation rb' = pos data
    ∧ rotation rb' = quat data
    ∧ angvel rb' = m_angvel data
    ∧ linvel rb' = m_linvel data
    ∧ sleeping rb' = false.
Proof.
  intros Hb Hc Hrb Hs Hm Hle.
  unfold onRemoteUpdateReceived. rewrite Hb, Hc, Hs.
  apply Z.ltb_ge in Hle. rewrite Hle.
  rewrite (bool_decide_eq_true_2 _ Hm). cbn [negb fst snd world set_world].
  eexists. split; [reflexivity |]. split.
  - rewrite Merge.merged_body, Hrb. reflexivity.
  - repeat split.
Qed.

Lemma remote_update_rejected_single (data : Message) (o : t) (c : Ctx) :
  counter data < syncCounter o
  ∨ body o = None ∨ collider o = None
  ∨ synchronized o = false ∨ mode o ≠ "Dynamic" →
  onRemoteUpdateReceived data o c = (o, c).
Proof.
  unfold onRemoteUpdateReceived. intros [H | [H | [H | [H | H]]]].
  - apply Z.ltb_lt in H. rewrite H.
    destruct (body o), (collider o), (synchronized o); reflexivity.
  - rewrite H. reflexivity.
  - rewrite H. destruct (body o); reflexivity.
  - rewrite H. destruct (body o), (collider o); reflexivity.
  - rewrite (bool_decide_eq_false_2 _ H).
    destruct (body o), (collider o), (synchronized o),
      (counter data <? syncCounter o); reflexivity.
Qed.

Lemma sendUpdate_ineligible_single now o c :
  body o = None ∨ collider o = None
  ∨ synchronized o = false ∨ mode o ≠ "Dynamic" →
  sendUpdate now o c = (o, c).
Proof.
  unfold sendUpdate. intros [H | [H | [H | H]]].
  - rewrite H. reflexivity.
  - rewrite H. destruct (body o); reflexivity.
  - rewrite H. destruct (body o), (collider o); reflexivity.
  - rewrite (bool_decide_eq_false_2 _ H).
    destruct (body o), (collider o), (synchronized o); reflexivity.
Qed.

Lemma sendUpdate_sends_single now o c b h :
  body o = Some b → collider o = Some h →
  synchronized o = true → mode o = "Dynamic" →
  too_quick now o = false →
  sendUpdate now o c
  = (set_syncCounter (syncCounter o + 1)
       (set_sendUpdateNextFrame false (set_lastUpdateSent now o)),
     count_message_out
       (messages_send
          {| action := "update"; inst := instanceID c; obj := objectID o;
             counter := syncCounter o + 1;
             pos := translation (body_at b (world c));
             quat := rotation (body_at b (world c));
             m_angvel := angvel (body_at b (world c));
             m_linvel := linvel (body_at b (world c)) |} c)).
Proof.
  intros Hb Hc Hs Hm Hq. unfold sendUpdate.
  rewrite Hb, Hc, Hs, (bool_decide_eq_true_2 _ Hm), Hq. reflexivity.
Qed.

Lemma removePhysics_keeps_single o c :
  settings (removePhysics o c).1 = settings o
  ∧ fields (removePhysics o c).1 = fields o
  ∧ syncCounter (removePhysics o c).1 = syncCounter o.
Proof. unfold removePhysics. destruct (body o); auto. Qed.

(** The guards come before the counter is reset here too. *)
Lemma createPhysics_resets_syncCounter_single (o : t) (c : Ctx) :
  s_enabled (settings o) = true →
  Js.str_truthy (f_parent (fields o)) = false →
  syncCounter (createPhysics o c).1 = 0.
Proof.
  intros He Hp. unfold createPhysics.
  destruct (removePhysics_keeps_single o c) as (Hs & Hf & _).
  destruct (removePhysics o c) as [o1 c1]. cbn [fst snd] in *.
  rewrite Hs, He, Hf, Hp. cbn [negb].
  destruct (desc_of_mode _); [| reflexivity].
  destruct (createRigidBody _ _) as [b w].
  repeat (case_bool_decide; [destruct (createCollider _ _ _); reflexivity |]).
  reflexivity.
Qed.

Lemma createPhysics_guarded_single (o : t) (c : Ctx) :
  s_enabled (settings o) = false ∨ Js.str_truthy (f_parent (fields o)) = true →
  syncCounter (createPhysics o c).1 = syncCounter o.
Proof.
  intros Hg. unfold createPhysics.
  destruct (removePhysics_keeps_single o c) as (Hs & Hf & Hn).
  destruct (removePhysics o c) as [o1 c1]. cbn [fst snd] in *.
  rewrite Hs, Hf.
  destruct Hg as [Hg | Hg]; rewrite Hg.
  - exact Hn.
  - destruct (negb _); exact Hn.
Qed.

(** The body is torn down before the next one is created, and the call
    does not wait: when [createPhysics] returns, the body the object held
    before is out of the world. Handles in use are below the next
    handle. *)
Lemma createPhysics_replaces_body_single (o : t) (c : Ctx) (b : N) :
  body o = Some b → (b < nextBody (world c))%N →
  bodies (world (createPhysics o c).2) !! b = None.
Proof.
  intros Hb Hlt. unfold createPhysics, removePhysics. rewrite Hb.
  cbn [settings fields set_collider set_body].
  destruct (negb _); [apply lookup_delete_eq |].
  destruct (Js.str_truthy _); [apply lookup_delete_eq |].
  cbv zeta.
  destruct (desc_of_mode _); [| apply lookup_delete_eq].
  cbn [createRigidBody world set_world log removeRigidBody nextBody bodies].
  assert (Hfresh : <[nextBody (world c) := body_of_desc
                       (place (fields o) (s_disable_rotation (settings o)) r)]>
                     (delete b (bodies (world c))) !! b = None).
  { rewrite lookup_insert_ne by lia. apply lookup_delete_eq. }
  repeat (case_bool_decide; [exact Hfresh |]). exact Hfresh.
Qed.

(** An unknown shape type: the body has been created and assigned, the
    warning is written, and the object has no collider. *)
Lemma unknown_shape_has_no_collider :
  let o := new "obj-1" Samples.fields0 (Samples.settings_of true "Dynamic" "Capsule") in
  body (createPhysics o Samples.ctx0).1 = Some 0%N
  ∧ collider (createPhysics o Samples.ctx0).1 = None
  ∧ last (console (createPhysics o Samples.ctx0).2)
    = Some (WarnUnknownShape "obj-1" (Some "crate") "Capsule").
Proof. cbv zeta. repeat split; vm_compute; reflexivity. Qed.

(** ['Kinematic'] is an unknown mode in this draft as well. *)
Lemma kinematic_is_unknown_mode_single :
  let o := new "obj-1" Samples.fields0 (Samples.settings_of true "Kinematic" "Sphere") in
  body (createPhysics o Samples.ctx0).1 = None
  ∧ last (console (createPhysics o Samples.ctx0).2)
    = Some (WarnUnknownMode "obj-1" (Some "crate") "Kinematic").
Proof. cbv zeta. repeat split; vm_compute; reflexivity. Qed.

End SingleColliderFacts.

(** ** The counter and the merge, across calls and across peers *)

Module Sync.

Import Rapier Host PhysicsComponent.

(** A second merge on the same body overwrites all that the first one
    wrote. *)
Lemma merge_overwrites (d1 d2 : Message) (b : N) (w : World) :
  on_body wakeUp b
    (on_body (setLinvel (m_linvel d2)) b
      (on_body (setAngvel (m_angvel d2)) b
        (on_body (setRotation (quat d2)) b
          (on_body (setTranslation (pos d2)) b
            (on_body wakeUp b
              (on_body (setLinvel (m_linvel d1)) b
                (on_body (setAngvel (m_angvel d1)) b
                  (on_body (setRotation (quat d1)) b
                    (on_body (setTranslation (pos d1)) b w)))))))))
  = on_body wakeUp b
      (on_body (setLinvel (m_linvel d2)) b
        (on_body (setAngvel (m_angvel d2)) b
          (on_body (setRotation (quat d2)) b
            (on_body (setTranslation (pos d2)) b w)))).
Proof.
  unfold on_body. cbn [bodies Rapier.colliders nextBody nextCollider].
  f_equal. apply map_eq. intros i.
  destruct (decide (i = b)) as [-> | Hne].
  - rewrite !lookup_alter_eq. destruct (bodies w !! b); reflexivity.
  - rewrite !lookup_alter_ne by congruence. reflexivity.
Qed.

(** X1. The counter of an object goes down in [createPhysics] only:
    sending, merging a remote update, being flagged after a collision,
    tearing down and the end of a build that waited for its vertices,
    whether the engine builds them or not, never lower it. *)
Theorem syncCounter_never_decreases (now : Z) (data : Message)
    (buildable : Shape → bool) (k : Pending) (objects : list Mesh)
    (o : t) (c : Ctx) :
  syncCounter o ≤ syncCounter (sendUpdate now o c).1
  ∧ syncCounter o ≤ syncCounter (onRemoteUpdateReceived data o c).1
  ∧ syncCounter (didCollideWithUser o) = syncCounter o
  ∧ syncCounter (removePhysics o c).1 = syncCounter o
  ∧ syncCounter (state_of (createPhysics_resume buildable k objects o c)).1
    = syncCounter o.
Proof.
  repeat split.
  - destruct (Broadcast.sendUpdate_cases now o c)
      as [-> | (b & Hb & Hs & Hm & Hq)]; [reflexivity |].
    rewrite (Broadcast.sendUpdate_sends now o c b Hb Hs Hm Hq). cbn. lia.
  - unfold onRemoteUpdateReceived.
    destruct (body o); [| reflexivity].
    destruct (synchronized o); [| reflexivity]. cbn [negb].
    destruct (counter data <? syncCounter o) eqn:Hlt; [reflexivity |].
    apply Z.ltb_ge in Hlt.
    case_bool_decide; cbn; [exact Hlt | reflexivity].
  - apply Build.removePhysics_syncCounter.
  - unfold createPhysics_resume.
    destruct (create_colliders _ _ _ _) as [[cs |] w]; reflexivity.
Qed.

(** X2. A remote update that is delivered twice leaves the object and
    the world as one delivery does. *)
Theorem remote_update_twice (data : Message) (o : t) (c : Ctx) :
  onRemoteUpdateReceived data
    (onRemoteUpdateReceived data o c).1 (onRemoteUpdateReceived data o c).2
  = onRemoteUpdateReceived data o c.
Proof.
  unfold onRemoteUpdateReceived at 2 3.
  destruct (body o) as [b |] eqn:Hb; [| reflexivity].
  destruct (synchronized o) eqn:Hs; [| reflexivity].
  cbn [negb].
  destruct (counter data <? syncCounter o) eqn:Hlt; [reflexivity |].
  destruct (decide (mode o = "Dynamic")) as [Hm | Hm].
  - rewrite (bool_decide_eq_true_2 _ Hm). cbn [negb fst snd].
    unfold onRemoteUpdateReceived.
    cbn [body set_syncCounter synchronized syncCounter mode world set_world].
    rewrite Hb, Hs, Z.ltb_irrefl, (bool_decide_eq_true_2 _ Hm), Hlt. cbn [negb].
    rewrite merge_overwrites. reflexivity.
  - rewrite (bool_decide_eq_false_2 _ Hm). reflexivity.
Qed.

(** X3. Of two remote updates the one with the higher counter wins,
    whatever the order of delivery: when its counter is not below the
    object's, delivering the lower one before or after it ends in the
    state that the higher one alone produces. *)
Theorem highest_counter_wins (m1 m2 : Message) (o : t) (c : Ctx) :
  counter m1 < counter m2 →
  syncCounter o ≤ counter m2 →
  onRemoteUpdateReceived m2
    (onRemoteUpdateReceived m1 o c).1 (onRemoteUpdateReceived m1 o c).2
  = onRemoteUpdateReceived m2 o c
  ∧ onRemoteUpdateReceived m1
      (onRemoteUpdateReceived m2 o c).1 (onRemoteUpdateReceived m2 o c).2
    = onRemoteUpdateReceived m2 o c.
Proof.
  intros H12 Ho2.
  assert (Hidle : (∀ d, onRemoteUpdateReceived d o c = (o, c)) →
                  onRemoteUpdateReceived m2
                    (onRemoteUpdateReceived m1 o c).1 (onRemoteUpdateReceived m1 o c).2
                  = onRemoteUpdateReceived m2 o c
                  ∧ onRemoteUpdateReceived m1
                      (onRemoteUpdateReceived m2 o c).1
                      (onRemoteUpdateReceived m2 o c).2
                    = onRemoteUpdateReceived m2 o c).
  { intros Hn. rewrite !Hn. cbn [fst snd]. rewrite ?Hn. auto. }
  destruct (body o) as [b |] eqn:Hb;
    [| apply Hidle; intros d; apply Merge.ignored_without_body; exact Hb].
  destruct (synchronized o) eqn:Hs;
    [| apply Hidle; intros d; apply Merge.ignored_unsynchronized; exact Hs].
  destruct (decide (mode o = "Dynamic")) as [Hm | Hm];
    [| apply Hidle; intros d; apply Merge.ignored_not_dynamic; exact Hm].
  clear Hidle.
  assert (H2 : (counter m2 <? syncCounter o) = false) by (apply Z.ltb_ge; lia).
  assert (H21 : (counter m2 <? counter m1) = false) by (apply Z.ltb_ge; lia).
  assert (H12' : (counter m1 <? counter m2) = true) by (apply Z.ltb_lt; lia).
  split.
  - destruct (counter m1 <? syncCounter o) eqn:H1.
    + rewrite (Merge.ignored_older m1 o c) by (apply Z.ltb_lt; exact H1).
      reflexivity.
    + unfold onRemoteUpdateReceived.
      rewrite Hb, Hs, H1, H2, (bool_decide_eq_true_2 _ Hm).
      cbn [negb fst snd body set_syncCounter synchronized syncCounter mode
           world set_world].
      rewrite Hb, Hs, H21, (bool_decide_eq_true_2 _ Hm). cbn [negb].
      rewrite merge_overwrites. reflexivity.
  - assert (E2 : onRemoteUpdateReceived m2 o c
                 = (set_syncCounter (counter m2) o,
                    set_world
                      (on_body wakeUp b
                        (on_body (setLinvel (m_linvel m2)) b
                          (on_body (setAngvel (m_angvel m2)) b
                            (on_body (setRotation (quat m2)) b
                              (on_body (setTranslation (pos m2)) b (world c))))))
                      c)).
    { unfold onRemoteUpdateReceived.
      rewrite Hb, Hs, H2, (bool_decide_eq_true_2 _ Hm). reflexivity. }
    rewrite E2. cbn [fst snd].
    apply Merge.ignored_older. cbn. lia.
Qed.

Lemma highest_counter_wins_witness :
  let m1 := Samples.update_of "1700000000001:0.5" 6 in
  let m2 := {| action := "update"; inst := "1700000000002:0.75"; obj := "obj-1";
               counter := 9; pos := zero; quat := identity;
               m_angvel := zero; m_linvel := zero |} in
  let o := Samples.active 5 in
  (counter m1 < counter m2 ∧ syncCounter o ≤ counter m2)
  ∧ onRemoteUpdateReceived m2
      (onRemoteUpdateReceived m1 o Samples.ctx7).1
      (onRemoteUpdateReceived m1 o Samples.ctx7).2
    = onRemoteUpdateReceived m2 o Samples.ctx7
  ∧ onRemoteUpdateReceived m1
      (onRemoteUpdateReceived m2 o Samples.ctx7).1
      (onRemoteUpdateReceived m2 o Samples.ctx7).2
    = onRemoteUpdateReceived m2 o Samples.ctx7.
Proof.
  intros m1 m2 o.
  assert (H1 : counter m1 < counter m2) by (cbn; lia).
  assert (H2 : syncCounter o ≤ counter m2) by (cbn; lia).
  split; [auto |].
  exact (highest_counter_wins m1 m2 o Samples.ctx7 H1 H2).
Defined.

(** X5. What one peer sends, another peer adopts: when an object
    broadcasts and the message reaches the same object on a peer whose
    counter is not above the sender's new counter, the peer's counter
    becomes the sender's and the peer's body gets the sender's
    translation, rotation, angular and linear velocity. *)
Theorem broadcast_reaches_peer (now : Z) (oA oB : t) (cA cB : Ctx)
    (bA bB : N) (rbB : RigidBody) :
  body oA = Some bA → synchronized oA = true → mode oA = "Dynamic" →
  too_quick now oA = false →
  body oB = Some bB → bodies (world cB) !! bB = Some rbB →
  synchronized oB = true → mode oB = "Dynamic" →
  syncCounter oB ≤ syncCounter oA + 1 →
  ∃ m rb',
    sent (sendUpdate now oA cA).2 = sent cA ++ [m]
    ∧ syncCounter (onRemoteUpdateReceived m oB cB).1
      = syncCounter (sendUpdate now oA cA).1
    ∧ bodies (world (onRemoteUpdateReceived m oB cB).2) !! bB = Some rb'
    ∧ translation rb' = translation (body_at bA (world cA))
    ∧ rotation rb' = rotation (body_at bA (world cA))
    ∧ angvel rb' = angvel (body_at bA (world cA))
    ∧ linvel rb' = linvel (body_at bA (world cA)).
Proof.
  intros HbA HsA HmA Hq HbB HrbB HsB HmB Hle.
  rewrite (Broadcast.sendUpdate_sends now oA cA bA HbA HsA HmA Hq).
  cbn [fst snd sent messages_send count_message_out].
  eexists _, _. split; [reflexivity |].
  unfold onRemoteUpdateReceived. rewrite HbB, HsB.
  cbn [counter negb].
  assert (Hge : (syncCounter oA + 1 <? syncCounter oB) = false)
    by (apply Z.ltb_ge; lia).
  rewrite Hge, (bool_decide_eq_true_2 _ HmB).
  cbn [negb fst snd world set_world syncCounter set_syncCounter
       set_sendUpdateNextFrame set_lastUpdateSent].
  split; [reflexivity |]. split.
  - rewrite Merge.merged_body, HrbB. reflexivity.
  - repeat split.
Qed.

Lemma broadcast_reaches_peer_witness :
  let oA := Samples.active 5 in
  let oB := Samples.active 3 in
  (body oA = Some 7%N ∧ synchronized oA = true ∧ mode oA = "Dynamic"
   ∧ too_quick 1700000000500 oA = false
   ∧ body oB = Some 7%N
   ∧ bodies (world Samples.ctx7) !! 7%N = Some Samples.body7
   ∧ synchronized oB = true ∧ mode oB = "Dynamic"
   ∧ syncCounter oB ≤ syncCounter oA + 1)
  ∧ ∃ m rb',
      sent (sendUpdate 1700000000500 oA Samples.ctx7_awake).2
      = sent Samples.ctx7_awake ++ [m]
      ∧ syncCounter (onRemoteUpdateReceived m oB Samples.ctx7).1
        = syncCounter (sendUpdate 1700000000500 oA Samples.ctx7_awake).1
      ∧ bodies (world (onRemoteUpdateReceived m oB Samples.ctx7).2) !! 7%N
        = Some rb'
      ∧ translation rb' = translation (body_at 7 (world Samples.ctx7_awake))
      ∧ rotation rb' = rotation (body_at 7 (world Samples.ctx7_awake))
      ∧ angvel rb' = angvel (body_at 7 (world Samples.ctx7_awake))
      ∧ linvel rb' = linvel (body_at 7 (world Samples.ctx7_awake)).
Proof.
  intros oA oB.
  assert (H1 : body oA = Some 7%N) by reflexivity.
  assert (H2 : synchronized oA = true) by reflexivity.
  assert (H3 : mode oA = "Dynamic") by reflexivity.
  assert (H4 : too_quick 1700000000500 oA = false) by reflexivity.
  assert (H5 : body oB = Some 7%N) by reflexivity.
  assert (H6 : bodies (world Samples.ctx7) !! 7%N = Some Samples.body7)
    by (vm_compute; reflexivity).
  assert (H7 : synchronized oB = true) by reflexivity.
  assert (H8 : mode oB = "Dynamic") by reflexivity.
  assert (H9 : syncCounter oB ≤ syncCounter oA + 1) by (cbn; lia).
  split; [repeat split; assumption |].
  exact (broadcast_reaches_peer 1700000000500 oA oB Samples.ctx7_awake
           Samples.ctx7 7%N 7%N Samples.body7 H1 H2 H3 H4 H5 H6 H7 H8 H9).
Defined.

End Sync.

(** ** The registry of components *)

Module Registry.

Import Rapier Host RapierPhysicsPlugin.

Lemma onUnload_physicsObjects r (p : t PhysicsComponent.t) :
  physicsObjects (Driver.onUnload r p)
  = List.filter (λ q, negb (bool_decide (q = r))) (physicsObjects p).
Proof.
  unfold Driver.onUnload. cbn [heap Driver.set_physicsObjects].
  destruct (heap p !! r); reflexivity.
Qed.

Lemma onUnload_heap_other r q (p : t PhysicsComponent.t) :
  q ≠ r → heap (Driver.onUnload r p) !! q = heap p !! q.
Proof.
  intros Hne. unfold Driver.onUnload. cbn [heap Driver.set_physicsObjects].
  destruct (heap p !! r); [| reflexivity].
  cbn [store heap Driver.set_physicsObjects]. apply lookup_insert_ne. congruence.
Qed.

Lemma elem_of_onUnload r q (p : t PhysicsComponent.t) :
  q ∈ physicsObjects (Driver.onUnload r p) ↔ q ≠ r ∧ q ∈ physicsObjects p.
Proof.
  rewrite onUnload_physicsObjects, list_elem_of_In, filter_In, <- list_elem_of_In.
  rewrite negb_true_iff, bool_decide_eq_false. tauto.
Qed.

(** X6. [onUnload] takes every entry of the component out of the
    registry and keeps the other entries in their order; the component is
    left without a body, the body it held is out of the world, and no
    other component is touched. *)
Theorem onUnload_unregisters (r : positive) (o : PhysicsComponent.t)
    (p : t PhysicsComponent.t) :
  heap p !! r = Some o →
  (r ∉ physicsObjects (Driver.onUnload r p))
  ∧ physicsObjects (Driver.onUnload r p)
    = filter (λ q, q ≠ r) (physicsObjects p)
  ∧ (∃ o', heap (Driver.onUnload r p) !! r = Some o'
           ∧ PhysicsComponent.body o' = None)
  ∧ (∀ b, PhysicsComponent.body o = Some b →
          bodies (world (ctx (Driver.onUnload r p))) !! b = None)
  ∧ (∀ q, q ≠ r → heap (Driver.onUnload r p) !! q = heap p !! q).
Proof.
  intros Hr. split; [| split; [| split; [| split]]].
  - rewrite elem_of_onUnload. tauto.
  - rewrite onUnload_physicsObjects.
    induction (physicsObjects p) as [| q l IH]; [reflexivity |].
    cbn [List.filter]. rewrite filter_cons, IH.
    destruct (decide (q = r)) as [-> | Hne].
    + rewrite bool_decide_eq_true_2 by reflexivity.
      rewrite decide_False by tauto. reflexivity.
    + rewrite bool_decide_eq_false_2 by exact Hne.
      rewrite decide_True by exact Hne. reflexivity.
  - unfold Driver.onUnload. cbn [heap Driver.set_physicsObjects]. rewrite Hr.
    cbn [store heap]. rewrite lookup_insert_eq. eexists. split; [reflexivity |].
    unfold PhysicsComponent.removePhysics.
    destruct (PhysicsComponent.body o) eqn:Hb; [reflexivity | exact Hb].
  - intros b Hb. unfold Driver.onUnload.
    cbn [heap Driver.set_physicsObjects]. rewrite Hr. cbn [store ctx snd].
    apply (Build.removePhysics_world o _ b Hb).
  - intros q Hne. apply onUnload_heap_other. exact Hne.
Qed.

Lemma onUnload_unregisters_witness :
  (heap (Samples.plugin_of 5) !! 1%positive = Some (Samples.active 5))
  ∧ physicsObjects (Driver.onUnload 1 (Samples.plugin_of 5)) = []
  ∧ bodies (world (ctx (Driver.onUnload 1 (Samples.plugin_of 5)))) !! 7%N = None.
Proof.
  assert (H : heap (Samples.plugin_of 5) !! 1%positive = Some (Samples.active 5))
    by (vm_compute; reflexivity).
  destruct (onUnload_unregisters 1 (Samples.active 5) (Samples.plugin_of 5) H)
    as (_ & Hl & _ & Hw & _).
  split; [exact H |]. split.
  - rewrite Hl. vm_compute. reflexivity.
  - apply Hw. reflexivity.
Defined.

(** X7. Once a component is unloaded, remote updates for its object are
    dropped: when no other registered component carries the object
    identifier of the message, [onMessage] after [onUnload] only counts
    the message. *)
Theorem unloaded_object_gets_no_updates (data : Message) (r : positive)
    (p : t PhysicsComponent.t) :
  (∀ q o', q ∈ physicsObjects p → q ≠ r → heap p !! q = Some o' →
           PhysicsComponent.objectID o' ≠ obj data) →
  onMessage data (Driver.onUnload r p) = count_message_in (Driver.onUnload r p).
Proof.
  intros Hothers. unfold onMessage.
  repeat case_bool_decide; try reflexivity.
  rewrite Inbound.find_object_none; [reflexivity |].
  intros q o' Hin Hq. apply bool_decide_eq_false_2.
  cbn [count_message_in physicsObjects heap] in Hin, Hq.
  apply elem_of_onUnload in Hin as [Hne Hin].
  rewrite onUnload_heap_other in Hq by exact Hne.
  exact (Hothers q o' Hin Hne Hq).
Qed.

Lemma unloaded_object_gets_no_updates_witness :
  let data := Samples.update_of "1700000000001:0.5" 8 in
  let p := Samples.plugin_of 5 in
  (∀ q o', q ∈ physicsObjects p → q ≠ 1%positive → heap p !! q = Some o' →
           PhysicsComponent.objectID o' ≠ obj data)
  ∧ onMessage data (Driver.onUnload 1 p) = count_message_in (Driver.onUnload 1 p)
  ∧ onMessage data p ≠ count_message_in p.
Proof.
  intros data p.
  assert (H : ∀ q o', q ∈ physicsObjects p → q ≠ 1%positive →
                      heap p !! q = Some o' →
                      PhysicsComponent.objectID o' ≠ obj data).
  { intros q o' Hin Hne. apply list_elem_of_singleton in Hin. contradiction. }
  split; [exact H |]. split.
  - exact (unloaded_object_gets_no_updates data 1 p H).
  - intros Heq. apply (f_equal (λ p, sleeping (body_at 7 (world (ctx p))))) in Heq.
    vm_compute in Heq. discriminate Heq.
Defined.

(** X8. [onLoad] registers the component behind the other entries, and
    [onUnload] takes it out again: for a reference that was not
    registered, the registry after both is the registry before. *)
Theorem onLoad_onUnload_registry (r : positive) (p : t PhysicsComponent.t) :
  r ∉ physicsObjects p →
  physicsObjects (Driver.onLoad r p).1 = physicsObjects p ++ [r]
  ∧ physicsObjects (Driver.onUnload r (Driver.onLoad r p).1) = physicsObjects p.
Proof.
  intros Hnew.
  assert (Hl : physicsObjects (Driver.onLoad r p).1 = physicsObjects p ++ [r]).
  { unfold Driver.onLoad, Driver.onObjectUpdated.
    cbn [heap Driver.set_physicsObjects].
    destruct (heap p !! r); [| reflexivity].
    destruct (PhysicsComponent.createPhysics _ _); reflexivity. }
  split; [exact Hl |].
  rewrite onUnload_physicsObjects, Hl, List.filter_app. cbn [List.filter].
  rewrite bool_decide_eq_true_2 by reflexivity. cbn [negb].
  rewrite app_nil_r. clear Hl.
  induction (physicsObjects p) as [| q l IH]; [reflexivity |].
  cbn [List.filter].
  apply not_elem_of_cons in Hnew as [Hne Hnew].
  rewrite bool_decide_eq_false_2 by congruence. cbn [negb].
  rewrite IH by exact Hnew. reflexivity.
Qed.

Lemma onLoad_onUnload_registry_witness :
  (2%positive ∉ physicsObjects (Samples.plugin_of 5))
  ∧ physicsObjects (Driver.onLoad 2 (Samples.plugin_of 5)).1 = [1%positive; 2%positive]
  ∧ physicsObjects (Driver.onUnload 2 (Driver.onLoad 2 (Samples.plugin_of 5)).1)
    = [1%positive].
Proof.
  assert (H : 2%positive ∉ physicsObjects (Samples.plugin_of 5)).
  { intros Hin. apply list_elem_of_singleton in Hin. discriminate Hin. }
  split; [exact H |].
  exact (onLoad_onUnload_registry 2 (Samples.plugin_of 5) H).
Defined.

(** X4. A plugin ignores the echo of its own broadcast: the message that
    [sendUpdate] of one of its components has put on the bus, handed to
    [onMessage] of the same plugin, is counted and changes nothing
    else. *)
Theorem own_broadcast_is_ignored (now : Z) (r : positive)
    (o : PhysicsComponent.t) (p : t PhysicsComponent.t) (m : Message) :
  heap p !! r = Some o →
  sent (ctx (store r (PhysicsComponent.sendUpdate now o (ctx p)) p))
  = sent (ctx p) ++ [m] →
  onMessage m (store r (PhysicsComponent.sendUpdate now o (ctx p)) p)
  = count_message_in (store r (PhysicsComponent.sendUpdate now o (ctx p)) p).
Proof.
  intros _ Hsent.
  assert (Hinst : inst m = instanceID (ctx p)
                  ∧ instanceID (PhysicsComponent.sendUpdate now o (ctx p)).2
                    = instanceID (ctx p)).
  { cbn [store ctx] in Hsent.
    destruct (Broadcast.sendUpdate_cases now o (ctx p))
      as [Hsame | (b & Hb & Hs & Hm & Hq)].
    - rewrite Hsame in Hsent. cbn in Hsent.
      apply (f_equal length) in Hsent. rewrite length_app in Hsent.
      cbn in Hsent. lia.
    - rewrite (Broadcast.sendUpdate_sends now o (ctx p) b Hb Hs Hm Hq)
        in Hsent |- *.
      cbn in Hsent |- *. apply app_inv_head in Hsent.
      injection Hsent as <-. split; reflexivity. }
  destruct Hinst as [Hi Hc].
  unfold onMessage. cbn [count_message_in ctx store].
  rewrite Hc, bool_decide_eq_true_2 by exact Hi. reflexivity.
Qed.

Lemma own_broadcast_is_ignored_witness :
  let p := Samples.plugin_of 5 in
  let o := Samples.active 5 in
  ∃ m,
    (heap p !! 1%positive = Some o
     ∧ sent (ctx (store 1 (PhysicsComponent.sendUpdate 1700000000500 o (ctx p)) p))
       = sent (ctx p) ++ [m])
    ∧ onMessage m (store 1 (PhysicsComponent.sendUpdate 1700000000500 o (ctx p)) p)
      = count_message_in
          (store 1 (PhysicsComponent.sendUpdate 1700000000500 o (ctx p)) p).
Proof.
  intros p o.
  assert (H1 : heap p !! 1%positive = Some o) by (vm_compute; reflexivity).
  eexists.
  assert (H2 : sent (ctx (store 1 (PhysicsComponent.sendUpdate 1700000000500 o (ctx p)) p))
               = sent (ctx p) ++ [_]) by (vm_compute; reflexivity).
  split; [split; [exact H1 | exact H2] |].
  exact (own_broadcast_is_ignored 1700000000500 1 o p _ H1 H2).
Defined.

End Registry.

(** ** Clicks and hooks *)

Module Api.

Import Rapier Host RapierPhysicsPlugin Interaction.

Section Engine.

Variable applyImpulse : Vector → bool → RigidBody → RigidBody.

(** No registered component with the identifier: [find] is undefined. *)
Lemma object_of_id_none id (p : t PhysicsComponent.t) :
  object_of_id id p = None
  ↔ ∀ r o, r ∈ physicsObjects p → heap p !! r = Some o →
           PhysicsComponent.objectID o ≠ id.
Proof.
  split.
  - intros Hnone r o Hin Hr Hid. unfold object_of_id, find_object in Hnone.
    destruct (List.find _ _) as [r' |] eqn:Hf.
    + apply find_some in Hf as [_ Hp].
      destruct (heap p !! r'); discriminate.
    + pose proof (find_none _ _ Hf r (proj1 (list_elem_of_In _ _) Hin)) as Hr'.
      cbn beta in Hr'. rewrite Hr in Hr'.
      apply bool_decide_eq_false_1 in Hr'. contradiction.
  - intros Hall. apply Inbound.find_object_none.
    intros r o Hin Hr. apply bool_decide_eq_false_2. exact (Hall r o Hin Hr).
Qed.

(** X9. The three hooks throw "Object not found" exactly when no
    registered component has the requested identifier. On the first
    registered component with the identifier they throw "Object has no
    physics body" when it has no body; [applyImpulse] and [setState]
    throw "Object is not dynamic" when its mode is not ['Dynamic'],
    whereas [getState] answers for a body of any mode. *)
Theorem hooks_throw (id : string) (imp : option Xyz) (av lv : option Xyz)
    (p : t PhysicsComponent.t) :
  ((∀ r o, r ∈ physicsObjects p → heap p !! r = Some o →
           PhysicsComponent.objectID o ≠ id)
   ↔ onHookGetState id p = Throws Object_not_found)
  ∧ (onHookGetState id p = Throws Object_not_found
     ↔ onHookApplyImpulse applyImpulse {| i_objectID := id; i_impulse := imp |} p
       = Throws Object_not_found)
  ∧ (onHookGetState id p = Throws Object_not_found
     ↔ onHookSetState {| s_objectID := id; s_angvel := av; s_linvel := lv |} p
       = Throws Object_not_found)
  ∧ (∀ r o, object_of_id id p = Some (r, o) →
       match PhysicsComponent.body o with
       | None =>
           onHookGetState id p = Throws Object_has_no_physics_body
           ∧ onHookApplyImpulse applyImpulse
               {| i_objectID := id; i_impulse := imp |} p
             = Throws Object_has_no_physics_body
           ∧ onHookSetState {| s_objectID := id; s_angvel := av; s_linvel := lv |} p
             = Throws Object_has_no_physics_body
       | Some b =>
           (∃ st, onHookGetState id p = Returns st)
           ∧ (PhysicsComponent.mode o ≠ "Dynamic" →
              onHookApplyImpulse applyImpulse
                {| i_objectID := id; i_impulse := imp |} p
              = Throws Object_is_not_dynamic
              ∧ onHookSetState
                  {| s_objectID := id; s_angvel := av; s_linvel := lv |} p
                = Throws Object_is_not_dynamic)
           ∧ (PhysicsComponent.mode o = "Dynamic" →
              (∃ p', onHookApplyImpulse applyImpulse
                       {| i_objectID := id; i_impulse := imp |} p = Returns p')
              ∧ (∃ p', onHookSetState
                         {| s_objectID := id; s_angvel := av; s_linvel := lv |} p
                       = Returns p'))
       end).
Proof.
  unfold onHookGetState, onHookApplyImpulse, onHookSetState.
  cbn [i_objectID s_objectID].
  rewrite <- object_of_id_none.
  destruct (object_of_id id p) as [[r o] |] eqn:Hfind.
  - destruct (PhysicsComponent.body o) as [b |] eqn:Hb.
    + destruct (decide (PhysicsComponent.mode o = "Dynamic")) as [Hm | Hm].
      * rewrite (bool_decide_eq_true_2 _ Hm). cbn [negb].
        repeat (split; [split; discriminate |]).
        intros r' o' [= <- <-]. rewrite Hb.
        split; [eauto |]. split; [intros Hn; contradiction | eauto].
      * rewrite (bool_decide_eq_false_2 _ Hm). cbn [negb].
        repeat (split; [split; discriminate |]).
        intros r' o' [= <- <-]. rewrite Hb.
        split; [eauto |]. split; [auto | intros Hn; contradiction].
    + repeat (split; [split; discriminate |]).
      intros r' o' [= <- <-]. rewrite Hb. auto.
  - split; [tauto |]. split; [tauto |]. split; [tauto |].
    intros r o Hsome. discriminate Hsome.
Qed.

(** What a hook that returns has done to the plugin. *)
Lemma hook_returns (w : World) (r : positive) (o : PhysicsComponent.t)
    (p : t PhysicsComponent.t) :
  heap p !! r = Some o →
  let p' := flag_object r (set_ctx (set_world w (ctx p)) p) in
  heap p' !! r = Some (PhysicsComponent.set_sendUpdateNextFrame true o)
  ∧ (∀ q, q ≠ r → heap p' !! q = heap p !! q)
  ∧ sent (ctx p') = sent (ctx p)
  ∧ numMessagesOut (ctx p') = numMessagesOut (ctx p)
  ∧ world (ctx p') = w
  ∧ physicsObjects p' = physicsObjects p.
Proof.
  intros Hr. cbn. rewrite lookup_alter_eq, Hr.
  repeat split. intros q Hne. apply lookup_alter_ne. congruence.
Qed.

(** X10. A hook that returns does not broadcast: [applyImpulse] and
    [setState] put nothing on the bus and leave every counter alone; they
    set [sendUpdateNextFrame] on the object they acted on and touch no
    other component and no entry of the registry. *)
Theorem hooks_defer_the_broadcast (data : ImpulseData) (sdata : StateData)
    (p p1 p2 : t PhysicsComponent.t) :
  onHookApplyImpulse applyImpulse data p = Returns p1 →
  onHookSetState sdata p = Returns p2 →
  (∃ r o, object_of_id (i_objectID data) p = Some (r, o)
          ∧ heap p1 !! r = Some (PhysicsComponent.set_sendUpdateNextFrame true o)
          ∧ ∀ q, q ≠ r → heap p1 !! q = heap p !! q)
  ∧ (∃ r o, object_of_id (s_objectID sdata) p = Some (r, o)
            ∧ heap p2 !! r = Some (PhysicsComponent.set_sendUpdateNextFrame true o)
            ∧ ∀ q, q ≠ r → heap p2 !! q = heap p !! q)
  ∧ sent (ctx p1) = sent (ctx p) ∧ sent (ctx p2) = sent (ctx p)
  ∧ numMessagesOut (ctx p1) = numMessagesOut (ctx p)
  ∧ numMessagesOut (ctx p2) = numMessagesOut (ctx p)
  ∧ physicsObjects p1 = physicsObjects p ∧ physicsObjects p2 = physicsObjects p
  ∧ numMessagesIn p1 = numMessagesIn p ∧ numMessagesIn p2 = numMessagesIn p.
Proof.
  unfold onHookApplyImpulse, onHookSetState.
  destruct (object_of_id (i_objectID data) p) as [[r1 o1] |] eqn:H1; [| discriminate].
  destruct (object_of_id (s_objectID sdata) p) as [[r2 o2] |] eqn:H2; [| discriminate].
  destruct (PhysicsComponent.body o1) as [b1 |]; [| discriminate].
  destruct (PhysicsComponent.body o2) as [b2 |]; [| discriminate].
  destruct (negb (bool_decide (PhysicsComponent.mode o1 = "Dynamic")));
    [discriminate |].
  destruct (negb (bool_decide (PhysicsComponent.mode o2 = "Dynamic")));
    [discriminate |].
  intros [= <-] [= <-].
  apply Inbound.find_object_some in H1 as (_ & Hr1 & _).
  apply Inbound.find_object_some in H2 as (_ & Hr2 & _).
  destruct (hook_returns
              (on_body (applyImpulse (impulse_of data) true) b1 (world (ctx p)))
              r1 o1 p Hr1) as (Ha & Hb & Hc & Hd & _ & Hf).
  match goal with
  | |- context [flag_object r2 (set_ctx (set_world ?w (ctx p)) p)] =>
      destruct (hook_returns w r2 o2 p Hr2) as (Ha' & Hb' & Hc' & Hd' & _ & Hf')
  end.
  split; [exists r1, o1; auto |].
  split; [exists r2, o2; auto |].
  repeat split; auto.
Qed.

(** Flagging a component does not change which component [find]
    returns for an identifier. *)
Lemma object_of_id_flagged id r (c : Ctx) (p : t PhysicsComponent.t) :
  object_of_id id (flag_object r (set_ctx c p))
  = (λ qo, (qo.1, if decide (qo.1 = r)
                  then PhysicsComponent.set_sendUpdateNextFrame true qo.2
                  else qo.2)) <$> object_of_id id p.
Proof.
  unfold object_of_id, find_object.
  cbn [flag_object set_heap set_ctx heap physicsObjects].
  assert (Hlook : ∀ q, alter (PhysicsComponent.set_sendUpdateNextFrame true) r (heap p) !! q
                       = (λ o, if decide (q = r)
                               then PhysicsComponent.set_sendUpdateNextFrame true o
                               else o) <$> heap p !! q).
  { intros q. destruct (decide (q = r)) as [-> | Hne].
    - rewrite lookup_alter_eq. reflexivity.
    - rewrite lookup_alter_ne by congruence. destruct (heap p !! q); reflexivity. }
  assert (Hfind : ∀ l,
            List.find (λ q, match alter (PhysicsComponent.set_sendUpdateNextFrame true)
                                        r (heap p) !! q with
                            | Some o => bool_decide (PhysicsComponent.objectID o = id)
                            | None => false
                            end) l
            = List.find (λ q, match heap p !! q with
                              | Some o => bool_decide (PhysicsComponent.objectID o = id)
                              | None => false
                              end) l).
  { induction l as [| q l IH]; [reflexivity |].
    cbn [List.find]. rewrite IH, Hlook.
    destruct (heap p !! q) as [o |]; [| reflexivity].
    cbn. destruct (decide (q = r)); reflexivity. }
  rewrite Hfind. destruct (List.find _ _) as [q |]; [| reflexivity].
  rewrite Hlook. destruct (heap p !! q); reflexivity.
Qed.

(** X11. [getState] after [setState] reads back what was set: the
    velocities of the request, a missing component counting as 0, with
    the counter, the translation, the rotation and the sleeping state the
    object had; [setState] wakes nothing. *)
Theorem setState_getState (sdata : StateData) (av lv : Xyz)
    (p p' : t PhysicsComponent.t) (r : positive) (o : PhysicsComponent.t)
    (b : N) (rb : RigidBody) :
  s_angvel sdata = Some av → s_linvel sdata = Some lv →
  object_of_id (s_objectID sdata) p = Some (r, o) →
  PhysicsComponent.body o = Some b →
  bodies (world (ctx p)) !! b = Some rb →
  onHookSetState sdata p = Returns p' →
  onHookGetState (s_objectID sdata) p'
  = Returns {| st_counter := PhysicsComponent.syncCounter o;
               st_translation := translation rb;
               st_quaternion := rotation rb;
               st_angvel := xyz_or_zero av;
               st_linvel := xyz_or_zero lv;
               isSleeping := sleeping rb |}.
Proof.
  intros Hav Hlv Hfind Hb Hrb. unfold onHookSetState.
  rewrite Hfind, Hb, Hav, Hlv.
  destruct (negb _); [discriminate |].
  intros [= <-]. unfold onHookGetState.
  rewrite object_of_id_flagged, Hfind. cbn [fmap option_fmap option_map fst snd].
  rewrite decide_True by reflexivity.
  cbn [PhysicsComponent.body PhysicsComponent.set_sendUpdateNextFrame
       PhysicsComponent.syncCounter].
  rewrite Hb. f_equal.
  unfold body_at.
  cbn [flag_object set_heap set_ctx ctx world set_world on_body bodies].
  rewrite (lookup_total_correct _ b
             (setLinvel (xyz_or_zero lv) (setAngvel (xyz_or_zero av) rb))).
  - reflexivity.
  - rewrite !lookup_alter_eq, Hrb. reflexivity.
Qed.

(** X12. A click on a clickable object with a body always applies the
    impulse [(0, 20, 0)]. It is broadcast at once when the object is
    synchronized and the throttle is open, with the state of the body
    after the impulse. When the object is not synchronized, or a message
    went out less than 100 ms ago, nothing is sent and the object is as
    before: [sendUpdateNextFrame] is not set, so this click is not
    broadcast later either. An object without a body, without "bounce on
    click" or not Dynamic ignores the click. *)
Theorem click_bounces (now : Z) (o : PhysicsComponent.t) (c : Ctx) :
  (PhysicsComponent.body o = None ∨ PhysicsComponent.bounceOnClick o = false
   ∨ PhysicsComponent.mode o ≠ "Dynamic" →
   onClick applyImpulse now o c = (o, c))
  ∧ (∀ b, PhysicsComponent.body o = Some b →
          PhysicsComponent.bounceOnClick o = true →
          PhysicsComponent.mode o = "Dynamic" →
          world (onClick applyImpulse now o c).2
          = on_body (applyImpulse {| x := 0; y := 20; z := 0 |} true) b (world c)
          ∧ (PhysicsComponent.synchronized o = false
             ∨ PhysicsComponent.too_quick now o = true →
             (onClick applyImpulse now o c).1 = o
             ∧ sent (onClick applyImpulse now o c).2 = sent c)
          ∧ (PhysicsComponent.synchronized o = true →
             PhysicsComponent.too_quick now o = false →
             ∃ m, sent (onClick applyImpulse now o c).2 = sent c ++ [m]
                  ∧ counter m = PhysicsComponent.syncCounter o + 1
                  ∧ m_linvel m
                    = linvel (body_at b (world (onClick applyImpulse now o c).2))
                  ∧ pos m
                    = translation (body_at b (world (onClick applyImpulse now o c).2)))).
Proof.
  split.
  - unfold onClick. intros [H | [H | H]].
    + rewrite H. reflexivity.
    + rewrite H. destruct (PhysicsComponent.body o); reflexivity.
    + rewrite (bool_decide_eq_false_2 _ H).
      destruct (PhysicsComponent.body o), (PhysicsComponent.bounceOnClick o);
        reflexivity.
  - intros b Hb Hbounce Hm. unfold onClick.
    rewrite Hb, Hbounce, (bool_decide_eq_true_2 _ Hm). cbn [negb].
    set (c1 := set_world _ c).
    split; [| split].
    + destruct (Broadcast.sendUpdate_cases now o c1)
        as [-> | (b' & Hb' & Hs & _ & Hq)]; [reflexivity |].
      rewrite (Broadcast.sendUpdate_sends now o c1 b' Hb' Hs Hm Hq). reflexivity.
    + intros Hno.
      assert (Hsame : PhysicsComponent.sendUpdate now o c1 = (o, c1)).
      { destruct Hno as [Hs | Hq].
        - apply Broadcast.sendUpdate_ineligible. auto.
        - apply Broadcast.sendUpdate_throttled. exact Hq. }
      rewrite Hsame. split; reflexivity.
    + intros Hs Hq.
      rewrite (Broadcast.sendUpdate_sends now o c1 b Hb Hs Hm Hq).
      eexists. split; [reflexivity |]. repeat split.
Qed.

End Engine.

Lemma hooks_defer_the_broadcast_witness :
  ∃ p1 p2,
    (onHookApplyImpulse Scenes.unit_mass_impulse Scenes.push (Samples.plugin_of 5)
     = Returns p1
     ∧ onHookSetState Scenes.spin (Samples.plugin_of 5) = Returns p2)
    ∧ sent (ctx p1) = sent (ctx (Samples.plugin_of 5))
    ∧ sent (ctx p2) = sent (ctx (Samples.plugin_of 5))
    ∧ PhysicsComponent.sendUpdateNextFrame <$> heap p1 !! 1%positive = Some true
    ∧ PhysicsComponent.sendUpdateNextFrame <$> heap p2 !! 1%positive = Some true.
Proof.
  eexists _, _.
  assert (H1 : onHookApplyImpulse Scenes.unit_mass_impulse Scenes.push
                 (Samples.plugin_of 5) = Returns _) by (vm_compute; reflexivity).
  assert (H2 : onHookSetState Scenes.spin (Samples.plugin_of 5) = Returns _)
    by (vm_compute; reflexivity).
  split; [split; [exact H1 | exact H2] |].
  destruct (hooks_defer_the_broadcast Scenes.unit_mass_impulse Scenes.push
              Scenes.spin (Samples.plugin_of 5) _ _ H1 H2)
    as (_ & _ & Hs1 & Hs2 & _).
  split; [exact Hs1 |]. split; [exact Hs2 |].
  split; vm_compute; reflexivity.
Defined.

Lemma setState_getState_witness :
  ∃ p',
    (s_angvel Scenes.spin = Some Scenes.spin_av
     ∧ s_linvel Scenes.spin = Some Scenes.spin_lv
     ∧ object_of_id "obj-1" (Samples.plugin_of 5)
       = Some (1%positive, Samples.active 5)
     ∧ PhysicsComponent.body (Samples.active 5) = Some 7%N
     ∧ bodies (world (ctx (Samples.plugin_of 5))) !! 7%N = Some Samples.body7
     ∧ onHookSetState Scenes.spin (Samples.plugin_of 5) = Returns p')
    ∧ onHookGetState "obj-1" p'
      = Returns {| st_counter := 5;
                   st_translation := {| x := 1; y := 10; z := 2 |};
                   st_quaternion := identity;
                   st_angvel := {| x := 0; y := 3; z := 0 |};
                   st_linvel := {| x := 2; y := 0; z := 1 # 2 |};
                   isSleeping := true |}.
Proof.
  eexists.
  assert (H1 : s_angvel Scenes.spin = Some Scenes.spin_av) by reflexivity.
  assert (H2 : s_linvel Scenes.spin = Some Scenes.spin_lv) by reflexivity.
  assert (H3 : object_of_id (s_objectID Scenes.spin) (Samples.plugin_of 5)
               = Some (1%positive, Samples.active 5)) by (vm_compute; reflexivity).
  assert (H4 : PhysicsComponent.body (Samples.active 5) = Some 7%N) by reflexivity.
  assert (H5 : bodies (world (ctx (Samples.plugin_of 5))) !! 7%N = Some Samples.body7)
    by (vm_compute; reflexivity).
  assert (H6 : onHookSetState Scenes.spin (Samples.plugin_of 5) = Returns _)
    by (vm_compute; reflexivity).
  split; [exact (conj H1 (conj H2 (conj H3 (conj H4 (conj H5 H6))))) |].
  exact (setState_getState Scenes.spin Scenes.spin_av Scenes.spin_lv
           (Samples.plugin_of 5) _ 1%positive (Samples.active 5) 7%N
           Samples.body7 H1 H2 H3 H4 H5 H6).
Defined.

End Api.

(** ** Collision events, one after the other *)

Module Contacts.

Import Rapier Host RapierPhysicsPlugin.

(** One event: the context, the registry and the counter of inbound
    messages stay; a component is left alone or flagged; one notification
    is added. *)
Lemma onCollisionEvent_frame id1 id2 started (p : t PhysicsComponent.t) :
  ctx (onCollisionEvent id1 id2 started p) = ctx p
  ∧ physicsObjects (onCollisionEvent id1 id2 started p) = physicsObjects p
  ∧ numMessagesIn (onCollisionEvent id1 id2 started p) = numMessagesIn p
  ∧ userCollider (onCollisionEvent id1 id2 started p) = userCollider p
  ∧ length (notifications (onCollisionEvent id1 id2 started p))
    = S (length (notifications p))
  ∧ ∀ r, heap (onCollisionEvent id1 id2 started p) !! r = heap p !! r
         ∨ heap (onCollisionEvent id1 id2 started p) !! r
           = PhysicsComponent.didCollideWithUser <$> heap p !! r.
Proof.
  unfold onCollisionEvent.
  cbn [hooks_trigger ctx physicsObjects numMessagesIn userCollider
       notifications heap].
  rewrite length_app. cbn [length].
  assert (Hflag : ∀ r q,
            alter PhysicsComponent.didCollideWithUser r (heap p) !! q = heap p !! q
            ∨ alter PhysicsComponent.didCollideWithUser r (heap p) !! q
              = PhysicsComponent.didCollideWithUser <$> heap p !! q).
  { intros r q. destruct (decide (q = r)) as [-> | Hne].
    - right. apply lookup_alter_eq.
    - left. apply lookup_alter_ne. congruence. }
  destruct started;
    (destruct (_ || _);
     [destruct (if (id1 =? userCollider p)%N then _ else _) as [[r o] |] |]);
    cbn; (repeat split; try lia); intros q; auto.
Qed.

Lemma drain_frame (events : list (N * N * bool)) (p : t PhysicsComponent.t) :
  ctx (drainCollisionEvents events p) = ctx p
  ∧ physicsObjects (drainCollisionEvents events p) = physicsObjects p
  ∧ numMessagesIn (drainCollisionEvents events p) = numMessagesIn p
  ∧ length (notifications (drainCollisionEvents events p))
    = (length (notifications p) + length events)%nat
  ∧ ∀ r, heap (drainCollisionEvents events p) !! r = heap p !! r
         ∨ heap (drainCollisionEvents events p) !! r
           = PhysicsComponent.didCollideWithUser <$> heap p !! r.
Proof.
  revert p. induction events as [| [[id1 id2] started] events IH]; intros p.
  - cbn. repeat split; auto; lia.
  - unfold drainCollisionEvents in *. cbn [foldl fst snd].
    destruct (onCollisionEvent_frame id1 id2 started p)
      as (Hc & Hl & Hn & _ & Hlen & Hh).
    destruct (IH (onCollisionEvent id1 id2 started p))
      as (Hc' & Hl' & Hn' & Hlen' & Hh').
    rewrite Hc', Hl', Hn', Hlen', Hc, Hl, Hn, Hlen.
    repeat split; [cbn; lia |].
    intros r. destruct (Hh' r) as [-> | ->]; destruct (Hh r) as [-> | ->]; auto.
    right. destruct (heap p !! r); reflexivity.
Qed.

(** X13. Draining the collision events of a step never sends a message
    and never touches the world, the console, the registry or a counter:
    all it does to a component is to set [sendUpdateNextFrame], and it
    triggers the notification hook once for every event. *)
Theorem drain_only_flags (events : list (N * N * bool)) (p : t PhysicsComponent.t) :
  ctx (drainCollisionEvents events p) = ctx p
  ∧ physicsObjects (drainCollisionEvents events p) = physicsObjects p
  ∧ numMessagesIn (drainCollisionEvents events p) = numMessagesIn p
  ∧ length (notifications (drainCollisionEvents events p))
    = (length (notifications p) + length events)%nat
  ∧ ∀ r, heap (drainCollisionEvents events p) !! r = heap p !! r
         ∨ heap (drainCollisionEvents events p) !! r
           = PhysicsComponent.didCollideWithUser <$> heap p !! r.
Proof. apply drain_frame. Qed.

Lemma activeCollisions_start id1 id2 (p : t PhysicsComponent.t) :
  activeCollisions (onCollisionEvent id1 id2 true p)
  = activeCollisions p
    ++ [{| colliderHandle1 := id1; colliderHandle2 := id2;
           object1 := fst <$> object_of_collider id1 p;
           object2 := fst <$> object_of_collider id2 p |}].
Proof.
  unfold onCollisionEvent. cbn [hooks_trigger activeCollisions].
  destruct (_ || _); [| reflexivity].
  destruct (if (id1 =? userCollider p)%N then _ else _) as [[r o] |]; reflexivity.
Qed.

(** X14. A collision that starts and ends leaves the list of active
    collisions as it was: when no record of the list has the pair of
    handles, a start event followed by the end event of the pair, with
    the handles in either order, gives back the list. *)
Theorem start_then_end (id1 id2 : N) (p : t PhysicsComponent.t) :
  (∀ c, c ∈ activeCollisions p → ¬ handles_match id1 id2 c) →
  length (activeCollisions (onCollisionEvent id1 id2 true p))
  = S (length (activeCollisions p))
  ∧ activeCollisions (onCollisionEvent id1 id2 false (onCollisionEvent id1 id2 true p))
    = activeCollisions p
  ∧ activeCollisions (onCollisionEvent id2 id1 false (onCollisionEvent id1 id2 true p))
    = activeCollisions p.
Proof.
  intros Hfree.
  assert (Hkeep : ∀ a b, (a = id1 ∧ b = id2) ∨ (a = id2 ∧ b = id1) →
            List.filter (λ c, negb (same_pair a b c)) (activeCollisions p)
            = activeCollisions p).
  { intros a b Hab. induction (activeCollisions p) as [| c l IH]; [reflexivity |].
    cbn [List.filter].
    destruct (same_pair a b c) eqn:Hsp.
    - exfalso. apply (Hfree c (list_elem_of_here c l)).
      apply Correlator.same_pair_match in Hsp.
      unfold handles_match in *.
      destruct Hab as [[-> ->] | [-> ->]]; tauto.
    - cbn [negb]. rewrite IH; [reflexivity |].
      intros c' Hin. apply Hfree, list_elem_of_further, Hin. }
  split; [rewrite activeCollisions_start, length_app; cbn; lia |].
  split.
  - rewrite Correlator.activeCollisions_end, activeCollisions_start, List.filter_app.
    rewrite Hkeep by auto. cbn [List.filter].
    rewrite (proj2 (Correlator.same_pair_match id1 id2 _))
      by (left; split; reflexivity).
    apply app_nil_r.
  - rewrite Correlator.activeCollisions_end, activeCollisions_start, List.filter_app.
    rewrite Hkeep by auto. cbn [List.filter].
    rewrite (proj2 (Correlator.same_pair_match id2 id1 _))
      by (right; split; reflexivity).
    apply app_nil_r.
Qed.

Lemma start_then_end_witness :
  (∀ c, c ∈ activeCollisions (Samples.plugin_of 5) → ¬ handles_match 9 6 c)
  ∧ activeCollisions (onCollisionEvent 6 9 false
                        (onCollisionEvent 9 6 true (Samples.plugin_of 5)))
    = activeCollisions (Samples.plugin_of 5).
Proof.
  assert (H : ∀ c, c ∈ activeCollisions (Samples.plugin_of 5) →
                   ¬ handles_match 9 6 c).
  { intros c Hin.
    change (activeCollisions (Samples.plugin_of 5))
      with [Samples.collision 9 3; Samples.collision 3 4; Samples.collision 4 9] in Hin.
    unfold handles_match.
    repeat (apply elem_of_cons in Hin as [-> | Hin];
            [cbn; intros [[? ?] | [? ?]]; discriminate |]).
    inversion Hin. }
  split; [exact H |].
  exact (proj2 (proj2 (start_then_end 9 6 (Samples.plugin_of 5) H))).
Defined.

(** X15. When a collision starts between the user's collider and a
    collider of a registered component, in either order of the handles,
    the component is flagged for a broadcast and counts as touching the
    user from then on. *)
Theorem user_contact_flags_and_touches (h : N) (r : positive)
    (o : PhysicsComponent.t) (p : t PhysicsComponent.t) :
  object_of_collider h p = Some (r, o) →
  Driver.isTouchingCurrentUser r (onCollisionEvent (userCollider p) h true p) = true
  ∧ Driver.isTouchingCurrentUser r (onCollisionEvent h (userCollider p) true p) = true
  ∧ heap (onCollisionEvent (userCollider p) h true p) !! r
    = Some (PhysicsComponent.didCollideWithUser o)
  ∧ heap (onCollisionEvent h (userCollider p) true p) !! r
    = Some (PhysicsComponent.didCollideWithUser o).
Proof.
  intros Hfind.
  pose proof (Inbound.find_object_some _ _ _ _ Hfind) as (_ & Hr & _).
  assert (Htouch : ∀ id1 id2,
            (id1 = userCollider p ∧ id2 = h) ∨ (id1 = h ∧ id2 = userCollider p) →
            Driver.isTouchingCurrentUser r (onCollisionEvent id1 id2 true p) = true).
  { intros id1 id2 Hids. unfold Driver.isTouchingCurrentUser.
    destruct (onCollisionEvent_frame id1 id2 true p) as (_ & _ & _ & -> & _).
    rewrite activeCollisions_start, existsb_app.
    apply orb_true_iff. right. cbn [existsb colliderHandle1 colliderHandle2
                                    object1 object2].
    destruct Hids as [[-> ->] | [-> ->]]; rewrite Hfind, N.eqb_refl; cbn [fmap option_fmap option_map fst].
    - rewrite (bool_decide_eq_true_2 (Some r = Some r)) by reflexivity.
      reflexivity.
    - rewrite (bool_decide_eq_true_2 (Some r = Some r)) by reflexivity.
      cbn [andb]. rewrite !orb_true_r. reflexivity. }
  split; [apply Htouch; auto |]. split; [apply Htouch; auto |].
  unfold onCollisionEvent. cbn [hooks_trigger heap].
  rewrite N.eqb_refl, Hfind, orb_true_r. cbn [orb set_activeCollisions heap set_heap].
  split.
  - rewrite lookup_alter_eq, Hr. reflexivity.
  - destruct (h =? userCollider p)%N eqn:Hh.
    + apply N.eqb_eq in Hh. rewrite <- Hh, Hfind.
      cbn [heap set_heap set_activeCollisions].
      rewrite lookup_alter_eq, Hr. reflexivity.
    + cbn [heap set_heap set_activeCollisions].
      rewrite lookup_alter_eq, Hr. reflexivity.
Qed.

Lemma user_contact_flags_and_touches_witness :
  (object_of_collider 3 (Samples.plugin_of 5) = Some (1%positive, Samples.active 5))
  ∧ Driver.isTouchingCurrentUser 1
      (onCollisionEvent 9 3 true (Samples.plugin_of 5)) = true
  ∧ PhysicsComponent.sendUpdateNextFrame
      <$> heap (onCollisionEvent 9 3 true (Samples.plugin_of 5)) !! 1%positive
    = Some true.
Proof.
  assert (H : object_of_collider 3 (Samples.plugin_of 5)
              = Some (1%positive, Samples.active 5)) by (vm_compute; reflexivity).
  split; [exact H |].
  destruct (user_contact_flags_and_touches 3 1 (Samples.active 5)
              (Samples.plugin_of 5) H) as (Ht & _ & Hh & _).
  split; [exact Ht |].
  change (userCollider (Samples.plugin_of 5)) with 9%N in Hh.
  rewrite Hh. reflexivity.
Defined.

End Contacts.

(** ** The frame loop, the user's collider and the debug overlay *)

Module Frames.

Import Rapier Host RapierPhysicsPlugin.

(** *** updateUserCollider *)

(** X16. Only one read of the user's position is in flight: a call made
    while a read is pending starts none and changes nothing; a call made
    when none is pending starts one, and a second call right after it
    starts none; the read that arrives and the read that fails both clear
    the way for the next one. *)
Theorem one_position_read_at_a_time (pos : Vector) (d : Driver.t) :
  (Driver.isUpdatingUserCollider d = true →
   Driver.updateUserCollider d = (d, false))
  ∧ (Driver.isUpdatingUserCollider d = false →
     (Driver.updateUserCollider d).2 = true
     ∧ Driver.updateUserCollider (Driver.updateUserCollider d).1
       = ((Driver.updateUserCollider d).1, false)
     ∧ Driver.plugin (Driver.updateUserCollider d).1 = Driver.plugin d)
  ∧ Driver.isUpdatingUserCollider (Driver.updateUserCollider_resolved pos d) = false
  ∧ Driver.isUpdatingUserCollider (Driver.updateUserCollider_rejected d) = false
  ∧ (Driver.updateUserCollider (Driver.updateUserCollider_resolved pos d)).2 = true
  ∧ (Driver.updateUserCollider (Driver.updateUserCollider_rejected d)).2 = true.
Proof.
  assert (Hres : Driver.isUpdatingUserCollider
                   (Driver.updateUserCollider_resolved pos d) = false).
  { unfold Driver.updateUserCollider_resolved.
    destruct (Driver.same_position _ _); reflexivity. }
  unfold Driver.updateUserCollider.
  split; [intros ->; reflexivity |].
  split; [intros ->; auto |].
  split; [exact Hres |]. split; [reflexivity |].
  rewrite Hres. split; reflexivity.
Qed.

Lemma isTouchingCurrentUser_ext r (p p' : t PhysicsComponent.t) :
  activeCollisions p' = activeCollisions p → userCollider p' = userCollider p →
  Driver.isTouchingCurrentUser r p' = Driver.isTouchingCurrentUser r p.
Proof. intros Ha Hu. unfold Driver.isTouchingCurrentUser. rewrite Ha, Hu. reflexivity. Qed.

(** The notification loop over a list of references. *)
Lemma notify_fold (l : list positive) (p : t PhysicsComponent.t) :
  let step := λ (p : t PhysicsComponent.t) r,
    if Driver.isTouchingCurrentUser r p
    then set_heap (alter PhysicsComponent.didCollideWithUser r (heap p)) p
    else p in
  activeCollisions (foldl step p l) = activeCollisions p
  ∧ userCollider (foldl step p l) = userCollider p
  ∧ ctx (foldl step p l) = ctx p
  ∧ physicsObjects (foldl step p l) = physicsObjects p
  ∧ ∀ q, heap (foldl step p l) !! q
         = if Driver.isTouchingCurrentUser q p && bool_decide (q ∈ l)
           then PhysicsComponent.didCollideWithUser <$> heap p !! q
           else heap p !! q.
Proof.
  cbv zeta. revert p. induction l as [| r l IH]; intros p.
  - cbn. repeat split. intros q. rewrite andb_false_r. reflexivity.
  - cbn [foldl].
    match goal with
    | |- context [foldl ?f (if ?b then ?p1 else p) l] =>
        set (p' := if b then p1 else p)
    end.
    assert (Hp' : activeCollisions p' = activeCollisions p
                  ∧ userCollider p' = userCollider p
                  ∧ ctx p' = ctx p ∧ physicsObjects p' = physicsObjects p
                  ∧ ∀ q, heap p' !! q
                         = if Driver.isTouchingCurrentUser q p && bool_decide (q = r)
                           then PhysicsComponent.didCollideWithUser <$> heap p !! q
                           else heap p !! q).
    { subst p'. destruct (Driver.isTouchingCurrentUser r p) eqn:Ht.
      - repeat split. intros q. cbn [set_heap heap].
        destruct (decide (q = r)) as [-> | Hne].
        + rewrite Ht, bool_decide_eq_true_2 by reflexivity.
          apply lookup_alter_eq.
        + rewrite bool_decide_eq_false_2, andb_false_r by exact Hne.
          apply lookup_alter_ne. congruence.
      - repeat split. intros q.
        destruct (decide (q = r)) as [-> | Hne].
        + rewrite Ht. reflexivity.
        + rewrite bool_decide_eq_false_2, andb_false_r by exact Hne. reflexivity. }
    destruct Hp' as (Ha & Hu & Hc & Hl & Hh).
    destruct (IH p') as (Ha' & Hu' & Hc' & Hl' & Hh').
    rewrite Ha', Hu', Hc', Hl', Ha, Hu, Hc, Hl. repeat split.
    intros q. rewrite Hh', Hh, (isTouchingCurrentUser_ext q p p' Ha Hu).
    destruct (Driver.isTouchingCurrentUser q p); [| reflexivity]. cbn [andb].
    destruct (decide (q = r)) as [-> | Hne].
    + rewrite (bool_decide_eq_true_2 (r = r)) by reflexivity.
      rewrite (bool_decide_eq_true_2 (r ∈ r :: l)) by apply list_elem_of_here.
      destruct (bool_decide (r ∈ l)); destruct (heap p !! r); reflexivity.
    + rewrite (bool_decide_eq_false_2 (q = r)) by exact Hne.
      destruct (decide (q ∈ l)) as [Hin | Hnin].
      * rewrite (bool_decide_eq_true_2 (q ∈ l)) by exact Hin.
        rewrite (bool_decide_eq_true_2 (q ∈ r :: l))
          by (apply list_elem_of_further, Hin).
        reflexivity.
      * rewrite (bool_decide_eq_false_2 (q ∈ l)) by exact Hnin.
        rewrite (bool_decide_eq_false_2 (q ∈ r :: l)); [reflexivity |].
        intros Hin. apply elem_of_cons in Hin as [? | ?]; contradiction.
Qed.

(** X17. When the user's position arrives, the collider is centred 0.9
    above it. A position equal to the last one moves nothing and flags
    nothing. A new position is remembered, the user's body is moved to
    it, and [sendUpdateNextFrame] is set on exactly the registered
    components that touch the user; nothing is sent. *)
Theorem user_position_arrives (pos : Vector) (d : Driver.t) :
  (Driver.same_position (Driver.oldUserPos d)
     {| x := x pos; y := (y pos + 18 / 10 / 2)%Q; z := z pos |} = true →
   Driver.updateUserCollider_resolved pos d
   = Driver.set_isUpdatingUserCollider false d)
  ∧ (Driver.same_position (Driver.oldUserPos d)
       {| x := x pos; y := (y pos + 18 / 10 / 2)%Q; z := z pos |} = false →
     Driver.oldUserPos (Driver.updateUserCollider_resolved pos d)
     = Some {| x := x pos; y := (y pos + 18 / 10 / 2)%Q; z := z pos |}
     ∧ world (ctx (Driver.plugin (Driver.updateUserCollider_resolved pos d)))
       = on_body (setTranslation
                    {| x := x pos; y := (y pos + 18 / 10 / 2)%Q; z := z pos |})
                 (Driver.userBody d) (world (ctx (Driver.plugin d)))
     ∧ sent (ctx (Driver.plugin (Driver.updateUserCollider_resolved pos d)))
       = sent (ctx (Driver.plugin d))
     ∧ ∀ q, heap (Driver.plugin (Driver.updateUserCollider_resolved pos d)) !! q
            = if Driver.isTouchingCurrentUser q (Driver.plugin d)
                 && bool_decide (q ∈ physicsObjects (Driver.plugin d))
              then PhysicsComponent.didCollideWithUser <$> heap (Driver.plugin d) !! q
              else heap (Driver.plugin d) !! q).
Proof.
  unfold Driver.updateUserCollider_resolved. split; intros ->; [reflexivity |].
  cbv zeta. cbn [Driver.plugin Driver.set_plugin Driver.set_oldUserPos
                 Driver.set_isUpdatingUserCollider Driver.oldUserPos
                 Driver.userBody].
  unfold Driver.notify_touching.
  match goal with
  | |- context [foldl _ ?p0 (physicsObjects ?p0)] =>
      destruct (notify_fold (physicsObjects p0) p0) as (_ & _ & Hc & _ & Hh)
  end.
  cbv zeta in Hc, Hh. rewrite Hc.
  split; [reflexivity |]. split; [reflexivity |]. split; [reflexivity |].
  intros q. rewrite Hh. reflexivity.
Qed.

(** *** loop *)

Lemma hasActiveEntities_false (p : t PhysicsComponent.t) :
  Driver.hasActiveEntities p = false
  ↔ ∀ r o, r ∈ physicsObjects p → heap p !! r = Some o →
           PhysicsComponent.body o = None.
Proof.
  unfold Driver.hasActiveEntities. rewrite bool_decide_eq_false. split.
  - intros Hnone r o Hin Hr.
    destruct (PhysicsComponent.body o) as [b |] eqn:Hb; [| reflexivity].
    exfalso. apply Hnone. unfold find_object.
    destruct (List.find _ _) as [r' |] eqn:Hf.
    + apply find_some in Hf as [_ Hp].
      destruct (heap p !! r'); [eauto | discriminate].
    + pose proof (find_none _ _ Hf r (proj1 (list_elem_of_In _ _) Hin)) as Hr'.
      cbn beta in Hr'. rewrite Hr, Hb in Hr'.
      rewrite bool_decide_eq_true_2 in Hr' by eauto. discriminate.
  - intros Hall [[r o] Hfind].
    apply Inbound.find_object_some in Hfind as (Hin & Hr & Hp).
    apply bool_decide_eq_true_1 in Hp. rewrite (Hall r o Hin Hr) in Hp.
    destruct Hp as [? Hp]. discriminate Hp.
Qed.

(** The loops of the objects leave the registry, the collisions, the
    notifications and the counter of inbound messages alone. *)
Lemma object_loops_frame clock (p : t PhysicsComponent.t) :
  physicsObjects (Driver.object_loops clock p).1 = physicsObjects p
  ∧ activeCollisions (Driver.object_loops clock p).1 = activeCollisions p
  ∧ notifications (Driver.object_loops clock p).1 = notifications p
  ∧ numMessagesIn (Driver.object_loops clock p).1 = numMessagesIn p
  ∧ userCollider (Driver.object_loops clock p).1 = userCollider p.
Proof.
  unfold Driver.object_loops.
  match goal with
  | |- context [foldl ?F (p, []) (physicsObjects p)] =>
      assert (H : ∀ l (acc : t PhysicsComponent.t
                             * list (positive * PhysicsComponent.Pending)),
                physicsObjects (foldl F acc l).1 = physicsObjects acc.1
                ∧ activeCollisions (foldl F acc l).1 = activeCollisions acc.1
                ∧ notifications (foldl F acc l).1 = notifications acc.1
                ∧ numMessagesIn (foldl F acc l).1 = numMessagesIn acc.1
                ∧ userCollider (foldl F acc l).1 = userCollider acc.1)
  end.
  { induction l as [| r l IH]; intros [q builds]; [cbn; auto |].
    cbn [foldl fst snd].
    destruct (heap q !! r) as [o |]; [| apply IH].
    destruct (PhysicsComponent.loop (clock r) o (ctx q)) as [o' c' | k o' c'];
      cbn [Driver.run_build];
      match goal with
      | |- context [foldl _ ?acc' l] =>
          destruct (IH acc') as (H1 & H2 & H3 & H4 & H5)
      end;
      rewrite H1, H2, H3, H4, H5; auto. }
  apply (H (physicsObjects p) (p, [])).
Qed.

Section Engine.

Variable step : World → World * list (N * N * bool).

(** X18. A frame runs only when some registered component has a body:
    otherwise [loop] returns at once, the world is not stepped and
    nothing changes. A frame that runs records its start and its
    duration, triggers the notification hook once for each collision
    event of the step, keeps the registry and the counter of inbound
    messages, and starts a read of the user's position unless one is
    pending. *)
Theorem frame_runs_when_active (now : Z) (clock : positive → Z) (finish : Z)
    (d : Driver.t) :
  ((∀ r o, r ∈ physicsObjects (Driver.plugin d) →
           heap (Driver.plugin d) !! r = Some o →
           PhysicsComponent.body o = None) →
   Driver.loop step now clock finish d = (d, [], false))
  ∧ ((∃ r o, r ∈ physicsObjects (Driver.plugin d)
             ∧ heap (Driver.plugin d) !! r = Some o
             ∧ is_Some (PhysicsComponent.body o)) →
     Driver.lastFrameTime (Driver.loop step now clock finish d).1.1 = Some now
     ∧ Driver.frameDuration (Driver.loop step now clock finish d).1.1
       = finish - now
     ∧ physicsObjects (Driver.plugin (Driver.loop step now clock finish d).1.1)
       = physicsObjects (Driver.plugin d)
     ∧ numMessagesIn (Driver.plugin (Driver.loop step now clock finish d).1.1)
       = numMessagesIn (Driver.plugin d)
     ∧ length (notifications
                 (Driver.plugin (Driver.loop step now clock finish d).1.1))
       = (length (notifications (Driver.plugin d))
          + length (step (world (ctx (Driver.plugin d)))).2)%nat
     ∧ (Driver.loop step now clock finish d).2
       = negb (Driver.isUpdatingUserCollider d)
     ∧ Driver.isUpdatingUserCollider (Driver.loop step now clock finish d).1.1
       = true).
Proof.
  split.
  - intros Hidle. unfold Driver.loop.
    rewrite (proj2 (hasActiveEntities_false _) Hidle). reflexivity.
  - intros (r & o & Hin & Hr & Hb). unfold Driver.loop.
    assert (Hact : Driver.hasActiveEntities (Driver.plugin d) = true).
    { destruct (Driver.hasActiveEntities (Driver.plugin d)) eqn:Ha; [reflexivity |].
      rewrite hasActiveEntities_false in Ha. rewrite (Ha r o Hin Hr) in Hb.
      destruct Hb as [? Hb]. discriminate Hb. }
    rewrite Hact. cbn [negb Driver.plugin Driver.set_lastFrameTime].
    destruct (step (world (ctx (Driver.plugin d)))) as [w events]. cbn [snd].
    match goal with
    | |- context [Driver.object_loops clock ?p0] =>
        destruct (object_loops_frame clock p0) as (H1 & _ & H3 & H4 & _);
        destruct (Driver.object_loops clock p0) as [p1 builds]
    end.
    cbn [fst snd] in H1, H3, H4.
    cbn [Interaction.set_ctx physicsObjects notifications numMessagesIn]
      in H1, H3, H4.
    unfold Driver.updateUserCollider.
    cbn [Driver.isUpdatingUserCollider Driver.set_plugin Driver.set_lastFrameTime].
    destruct (Contacts.drain_frame events p1) as (_ & Hl & Hn & Hlen & _).
    destruct (Driver.isUpdatingUserCollider d) eqn:Hu;
      cbn -[drainCollisionEvents Z.sub];
      rewrite Hl, Hn, Hlen, H1, H3, H4; repeat split; exact Hu.
Qed.

End Engine.

(** *** getDebugText *)

Lemma count_objects_acc (test : PhysicsComponent.t → bool)
    (h : gmap positive PhysicsComponent.t)
    (l : list positive) (a : nat) :
  foldl (λ prev r, match h !! r with
                   | Some o => (prev + (if test o then 1 else 0))%nat
                   | None => prev
                   end) a l
  = (a + foldl (λ prev r, match h !! r with
                          | Some o => (prev + (if test o then 1 else 0))%nat
                          | None => prev
                          end) 0 l)%nat.
Proof.
  revert a. induction l as [| r l IH]; intros a; [cbn; lia |].
  cbn [foldl]. rewrite IH. symmetry. rewrite IH.
  destruct (h !! r) as [o |]; [destruct (test o) |]; lia.
Qed.

Lemma count_objects_zero (test : PhysicsComponent.t → bool)
    (p : t PhysicsComponent.t) :
  DebugText.count_objects test p = 0%nat
  ↔ ∀ r o, r ∈ physicsObjects p → heap p !! r = Some o → test o = false.
Proof.
  unfold DebugText.count_objects.
  induction (physicsObjects p) as [| r l IH].
  - cbn. split; [| reflexivity]. intros _ r o Hin. inversion Hin.
  - cbn [foldl]. rewrite count_objects_acc. split.
    + intros Hz r' o' Hin Hr'.
      apply elem_of_cons in Hin as [-> | Hin].
      * rewrite Hr' in Hz. destruct (test o'); [lia | reflexivity].
      * refine (proj1 IH _ r' o' Hin Hr').
        destruct (heap p !! r) as [o |]; [destruct (test o) |]; lia.
    + intros Hall.
      assert (H0 : foldl (λ prev r0, match heap p !! r0 with
                                     | Some o => (prev + (if test o then 1 else 0))%nat
                                     | None => prev
                                     end) 0%nat l = 0%nat).
      { apply IH. intros r' o' Hin. apply Hall, list_elem_of_further, Hin. }
      rewrite H0.
      destruct (heap p !! r) as [o |] eqn:Hr; [| reflexivity].
      rewrite (Hall r o (list_elem_of_here r l) Hr). reflexivity.
Qed.

Lemma count_objects_le (test1 test2 : PhysicsComponent.t → bool)
    (p : t PhysicsComponent.t) :
  (∀ o, test1 o = true → test2 o = true) →
  (DebugText.count_objects test1 p ≤ DebugText.count_objects test2 p
   ∧ DebugText.count_objects test2 p ≤ length (physicsObjects p))%nat.
Proof.
  intros Himp. unfold DebugText.count_objects.
  induction (physicsObjects p) as [| r l IH]; [cbn; lia |].
  cbn [foldl length].
  rewrite (count_objects_acc test1), (count_objects_acc test2).
  destruct (heap p !! r) as [o |]; [| lia].
  specialize (Himp o).
  destruct (test1 o), (test2 o); first [lia | discriminate (Himp eq_refl)].
Qed.

Section Versions.

Variables (version rapierVersion : string).

(** X19. The debug overlay shows nothing, and resets nothing, while no
    registered component has a body. Otherwise it returns a text and
    resets the two message counters to 0, leaving the components, the
    world, the bus and the registry alone. The number of awake bodies it
    counts is at most the number of bodies, which is at most the number
    of registered components. *)
Theorem debug_text_samples_and_resets (d : Driver.t) :
  ((∀ r o, r ∈ physicsObjects (Driver.plugin d) →
           heap (Driver.plugin d) !! r = Some o →
           PhysicsComponent.body o = None) →
   DebugText.getDebugText version rapierVersion d = (None, d))
  ∧ ((∃ r o, r ∈ physicsObjects (Driver.plugin d)
             ∧ heap (Driver.plugin d) !! r = Some o
             ∧ is_Some (PhysicsComponent.body o)) →
     is_Some (DebugText.getDebugText version rapierVersion d).1
     ∧ numMessagesIn
         (Driver.plugin (DebugText.getDebugText version rapierVersion d).2) = 0
     ∧ numMessagesOut
         (ctx (Driver.plugin (DebugText.getDebugText version rapierVersion d).2)) = 0
     ∧ heap (Driver.plugin (DebugText.getDebugText version rapierVersion d).2)
       = heap (Driver.plugin d)
     ∧ world (ctx (Driver.plugin (DebugText.getDebugText version rapierVersion d).2))
       = world (ctx (Driver.plugin d))
     ∧ sent (ctx (Driver.plugin (DebugText.getDebugText version rapierVersion d).2))
       = sent (ctx (Driver.plugin d))
     ∧ physicsObjects
         (Driver.plugin (DebugText.getDebugText version rapierVersion d).2)
       = physicsObjects (Driver.plugin d))
  ∧ (DebugText.count_objects
       (DebugText.is_awake (world (ctx (Driver.plugin d)))) (Driver.plugin d)
     ≤ DebugText.count_objects DebugText.has_body (Driver.plugin d)
     ∧ DebugText.count_objects DebugText.has_body (Driver.plugin d)
       ≤ length (physicsObjects (Driver.plugin d)))%nat.
Proof.
  assert (Hzero : DebugText.count_objects DebugText.has_body (Driver.plugin d) = 0%nat
                  ↔ ∀ r o, r ∈ physicsObjects (Driver.plugin d) →
                           heap (Driver.plugin d) !! r = Some o →
                           PhysicsComponent.body o = None).
  { rewrite count_objects_zero. unfold DebugText.has_body.
    split; intros Hall r o Hin Hr; specialize (Hall r o Hin Hr);
      destruct (PhysicsComponent.body o); congruence. }
  split; [| split].
  - intros Hidle. unfold DebugText.getDebugText. cbv zeta.
    rewrite (proj2 Hzero Hidle). reflexivity.
  - intros (r & o & Hin & Hr & Hb). unfold DebugText.getDebugText. cbv zeta.
    destruct (Nat.eq_dec (DebugText.count_objects DebugText.has_body (Driver.plugin d)) 0%nat)
      as [Hc | Hc].
    + rewrite (proj1 Hzero Hc r o Hin Hr) in Hb.
      destruct Hb as [? Hb]. discriminate Hb.
    + rewrite (proj2 (Nat.eqb_neq _ _) Hc). cbn [fst snd].
      split; [eauto |]. repeat split.
  - apply count_objects_le. intros o. unfold DebugText.is_awake, DebugText.has_body.
    destruct (PhysicsComponent.body o); [reflexivity | discriminate].
Qed.

End Versions.

End Frames.

(** ** The contact-force callback of the earlier draft *)

Module ForceEvents.

Import Rapier Host RapierPhysicsPlugin ContactForce.

(** Components that have another collider are passed over. *)
Lemma find_by_collider_skip h (hp : gmap positive SingleCollider.t)
    (l1 l2 : list positive) :
  (∀ q, q ∈ l1 → ∃ oq hq, hp !! q = Some oq
                          ∧ SingleCollider.collider oq = Some hq ∧ hq ≠ h) →
  find_by_collider h hp (l1 ++ l2) = find_by_collider h hp l2.
Proof.
  induction l1 as [| q l1 IH]; intros Hpre; [reflexivity |].
  cbn [app find_by_collider].
  destruct (Hpre q (list_elem_of_here q l1)) as (oq & hq & -> & -> & Hne).
  rewrite (proj2 (N.eqb_neq hq h) Hne).
  apply IH. intros q' Hin. apply Hpre, list_elem_of_further, Hin.
Qed.

(** X20. The contact-force callback looks for the component of the
    collider that touches the user by reading [o.collider.handle] of the
    registered components in order. When the first component that does
    not have another collider has this one, it is flagged for a
    broadcast. When it has no collider at all - a component whose
    physics is switched off, for one - the callback throws a [TypeError],
    and the drain of the events ends there. *)
Theorem contact_force_event (h : N) (p : t SingleCollider.t)
    (l1 l2 : list positive) (r : positive) (o : SingleCollider.t) :
  h ≠ userCollider p →
  physicsObjects p = l1 ++ r :: l2 →
  (∀ q, q ∈ l1 → ∃ oq hq, heap p !! q = Some oq
                          ∧ SingleCollider.collider oq = Some hq ∧ hq ≠ h) →
  heap p !! r = Some o →
  (SingleCollider.collider o = Some h →
   onContactForceEvent (userCollider p) h p = Returned (flag_object r p)
   ∧ onContactForceEvent h (userCollider p) p = Returned (flag_object r p))
  ∧ (SingleCollider.collider o = None →
     onContactForceEvent (userCollider p) h p = TypeError
     ∧ onContactForceEvent h (userCollider p) p = TypeError
     ∧ ∀ events, drainContactForceEvents ((userCollider p, h) :: events) p
                 = TypeError).
Proof.
  intros Hne Hl Hpre Hr.
  assert (Hu : (h =? userCollider p)%N = false) by (apply N.eqb_neq; exact Hne).
  assert (Hfind : find_by_collider h (heap p) (physicsObjects p)
                  = match SingleCollider.collider o with
                    | None => TypeError
                    | Some h' => if (h' =? h)%N then Returned (Some r)
                                 else find_by_collider h (heap p) l2
                    end).
  { rewrite Hl, (find_by_collider_skip h (heap p) l1 (r :: l2) Hpre).
    cbn [find_by_collider]. rewrite Hr. reflexivity. }
  unfold drainContactForceEvents, onContactForceEvent. cbv zeta.
  rewrite !N.eqb_refl, !Hu. cbn [andb negb].
  rewrite Hfind.
  split; intros ->; [rewrite N.eqb_refl |]; auto.
Qed.

Lemma contact_force_event_witness :
  (0%N ≠ userCollider Scenes.legacy_loaded
   ∧ physicsObjects Scenes.legacy_loaded = [] ++ 1%positive :: [2%positive]
   ∧ (∀ q, q ∈ @nil positive →
           ∃ oq hq, heap Scenes.legacy_loaded !! q = Some oq
                    ∧ SingleCollider.collider oq = Some hq ∧ hq ≠ 0%N)
   ∧ SingleCollider.collider <$> heap Scenes.legacy_loaded !! 1%positive
     = Some None
   ∧ SingleCollider.collider <$> heap Scenes.legacy_loaded !! 2%positive
     = Some (Some 0%N))
  ∧ onContactForceEvent 9 0 Scenes.legacy_loaded = TypeError
  ∧ onContactForceEvent 0 9 Scenes.legacy_loaded = TypeError.
Proof.
  assert (H1 : 0%N ≠ userCollider Scenes.legacy_loaded) by discriminate.
  assert (H2 : physicsObjects Scenes.legacy_loaded = [] ++ 1%positive :: [2%positive])
    by (vm_compute; reflexivity).
  assert (H3 : ∀ q, q ∈ @nil positive →
                    ∃ oq hq, heap Scenes.legacy_loaded !! q = Some oq
                             ∧ SingleCollider.collider oq = Some hq ∧ hq ≠ 0%N)
    by (intros q Hin; inversion Hin).
  assert (H4 : ∃ o, heap Scenes.legacy_loaded !! 1%positive = Some o
                    ∧ SingleCollider.collider o = None)
    by (eexists; split; vm_compute; reflexivity).
  destruct H4 as (o & H4 & H5).
  split.
  - split; [exact H1 |]. split; [exact H2 |]. split; [exact H3 |].
    split; vm_compute; reflexivity.
  - destruct (contact_force_event 0 Scenes.legacy_loaded [] [2%positive]
                1%positive o H1 H2 H3 H4) as [_ Hthrow].
    destruct (Hthrow H5) as (Ha & Hb & _). split; [exact Ha | exact Hb].
Defined.

End ForceEvents.

(** ** What a build produces *)

Module Shapes.

Import Rapier Host PhysicsComponent.

(** *** The shape type *)

(** X21. The shape type a build works with is never ['Automatic']. A
    type chosen in the Editor is taken as it is. A missing, empty or
    automatic type becomes one of the five shapes the build knows - the
    primitive of the object when it is a cylinder, a cube or a sphere,
    else ['Trimesh'] for a static object and ['Convex Hull'] for any
    other - so the fallback cube is reached by a chosen type only. *)
Theorem automatic_type_is_resolved (o : t) :
  built_type o ≠ "Automatic"
  ∧ (Js.str_or (s_type (settings o)) "Automatic" ≠ "Automatic" →
     built_type o = Js.str_or (s_type (settings o)) "Automatic")
  ∧ (Js.str_or (s_type (settings o)) "Automatic" = "Automatic" →
     built_type o ∈ ["Sphere"; "Cube"; "Cylinder"; "Convex Hull"; "Trimesh"]
     ∧ (f_type (fields o) = Some "cylinder" → built_type o = "Cylinder")
     ∧ (f_type (fields o) = Some "cube" → built_type o = "Cube")
     ∧ (f_type (fields o) = Some "sphere" → built_type o = "Sphere")
     ∧ (f_type (fields o) ≠ Some "cylinder" → f_type (fields o) ≠ Some "cube" →
        f_type (fields o) ≠ Some "sphere" →
        built_type o = if bool_decide (built_mode o = "Static")
                       then "Trimesh" else "Convex Hull")).
Proof.
  unfold built_type, resolve_type.
  destruct (decide (Js.str_or (s_type (settings o)) "Automatic" = "Automatic"))
    as [Ha | Ha].
  - rewrite Ha, (bool_decide_eq_true_2 ("Automatic" = "Automatic")) by reflexivity.
    cbn [andb].
    split; [| split; [intros Hn; contradiction |]].
    + repeat case_bool_decide; discriminate.
    + intros _. split; [| split; [| split; [| split]]].
      * repeat case_bool_decide;
          repeat first [apply list_elem_of_here | apply list_elem_of_further].
      * intros ->. rewrite bool_decide_eq_true_2 by reflexivity. reflexivity.
      * intros ->. rewrite bool_decide_eq_false_2 by discriminate.
        rewrite bool_decide_eq_true_2 by reflexivity. reflexivity.
      * intros ->. rewrite !bool_decide_eq_false_2 by discriminate.
        rewrite bool_decide_eq_true_2 by reflexivity. reflexivity.
      * intros H1 H2 H3.
        rewrite (bool_decide_eq_false_2 _ H1), (bool_decide_eq_false_2 _ H2),
          (bool_decide_eq_false_2 _ H3). reflexivity.
  - rewrite (bool_decide_eq_false_2 _ Ha). cbn [andb].
    split; [exact Ha |]. split; [reflexivity | intros Hn; contradiction].
Qed.

(** *** The body *)

Lemma place_translation f lock d :
  d_translation (place f lock d)
  = {| x := f_x f; y := Js.num_or (f_height f) 0; z := f_y f |}.
Proof. unfold place. destruct lock, (_ || _); reflexivity. Qed.

Lemma place_mass f lock d : d_additionalMass (place f lock d) = d_additionalMass d.
Proof. unfold place. destruct lock, (_ || _); reflexivity. Qed.

Lemma place_lock f lock d :
  d_rotationsLocked (place f lock d) = lock || d_rotationsLocked d.
Proof. unfold place. destruct lock, (_ || _); reflexivity. Qed.

Lemma removePhysics_nextBody o c :
  nextBody (world (removePhysics o c).2) = nextBody (world c).
Proof. unfold removePhysics. destruct (body o); reflexivity. Qed.

(** The body that a build creates, as the world holds it when
    [createPhysics] hands control back. *)
Lemma createPhysics_new_body (o : t) (c : Ctx) :
  s_enabled (settings o) = true →
  Js.str_truthy (f_parent (fields o)) = false →
  built_mode o = "Static" ∨ built_mode o = "Dynamic" →
  bodies (world (ctx_of (createPhysics o c))) !! nextBody (world c)
  = Some (body_of_desc
            (place (fields o) (s_disable_rotation (settings o))
               (if bool_decide (built_mode o = "Static") then fixed
                else setAdditionalMass (mass_of (settings o)) dynamic))).
Proof.
  intros He Hp Hm. rewrite <- (removePhysics_nextBody o c). unfold createPhysics.
  pose proof (Build.removePhysics_settings o c) as Hs.
  pose proof (Build.removePhysics_fields o c) as Hf.
  destruct (removePhysics o c) as [o1 c1]. cbn [fst snd] in *.
  rewrite Hs, He, Hf, Hp. cbn [negb].
  assert (Hbm : built_mode o1 = built_mode o) by (unfold built_mode; congruence).
  Build.name_config o1. rewrite Build.desc_of_mode_built, Hbm.
  assert (Hstatic : bool_decide ("Static" = "Static") = true)
    by (apply bool_decide_eq_true_2; reflexivity).
  assert (Hdyn1 : bool_decide ("Dynamic" = "Static") = false)
    by (apply bool_decide_eq_false_2; discriminate).
  assert (Hdyn2 : bool_decide ("Dynamic" = "Dynamic") = true)
    by (apply bool_decide_eq_true_2; reflexivity).
  destruct Hm as [Hm | Hm]; rewrite Hm;
    rewrite ?Hstatic, ?Hdyn1, ?Hdyn2; clear Hstatic Hdyn1 Hdyn2;
    (repeat case_bool_decide; cbn; rewrite lookup_insert_eq, Hs, Hf; reflexivity).
Qed.

(** X22. The body of a Dynamic build starts where the object is stored,
    at height 0 when none is stored, at rest and awake; its additional
    mass is the mass of the settings, which is 1 when the setting is
    missing, not a number or 0, and never below 0.01; its rotations are
    locked exactly when the setting says so. *)
Theorem dynamic_body_starts (o : t) (c : Ctx) :
  s_enabled (settings o) = true →
  Js.str_truthy (f_parent (fields o)) = false →
  built_mode o = "Dynamic" →
  ∃ rb,
    bodies (world (ctx_of (createPhysics o c))) !! nextBody (world c) = Some rb
    ∧ bodyType rb = Dynamic
    ∧ translation rb
      = {| x := f_x (fields o); y := Js.num_or (f_height (fields o)) 0;
           z := f_y (fields o) |}
    ∧ angvel rb = zero ∧ linvel rb = zero ∧ sleeping rb = false
    ∧ rotationsLocked rb = s_disable_rotation (settings o)
    ∧ additionalMass rb = mass_of (settings o)
    ∧ (1 # 100 <= additionalMass rb)%Q
    ∧ (Js.num_truthy (s_mass (settings o)) = false → additionalMass rb = 1%Q).
Proof.
  intros He Hp Hm.
  rewrite (createPhysics_new_body o c He Hp (or_intror Hm)), Hm.
  rewrite (bool_decide_eq_false_2 ("Dynamic" = "Static")) by discriminate.
  eexists. split; [reflexivity |].
  cbn [body_of_desc bodyType translation angvel linvel sleeping rotationsLocked
       additionalMass].
  rewrite Build.place_status, place_translation, place_lock, place_mass.
  cbn. rewrite orb_false_r. repeat split.
  - unfold mass_of, Js.Math_max.
    destruct (Qle_bool (1 # 100) _) eqn:Hle.
    + apply Qle_bool_iff. exact Hle.
    + apply Qle_refl.
  - intros Hfalsy. unfold mass_of, Js.num_or, Js.num_truthy in *.
    destruct (s_mass (settings o)) as [q |]; [| reflexivity].
    apply negb_false_iff in Hfalsy. rewrite Hfalsy. reflexivity.
Qed.

Lemma dynamic_body_starts_witness :
  let o := Samples.unbuilt true "Dynamic" "Cube" in
  (s_enabled (settings o) = true
   ∧ Js.str_truthy (f_parent (fields o)) = false
   ∧ built_mode o = "Dynamic")
  ∧ ∃ rb,
      bodies (world (ctx_of (createPhysics o Samples.ctx0))) !! 0%N = Some rb
      ∧ bodyType rb = Dynamic
      ∧ translation rb = {| x := 1; y := 10; z := 2 |}
      ∧ additionalMass rb = 2%Q.
Proof.
  intros o.
  assert (H1 : s_enabled (settings o) = true) by reflexivity.
  assert (H2 : Js.str_truthy (f_parent (fields o)) = false) by reflexivity.
  assert (H3 : built_mode o = "Dynamic") by reflexivity.
  split; [auto |].
  destruct (dynamic_body_starts o Samples.ctx0 H1 H2 H3)
    as (rb & Hrb & Hty & Htr & _ & _ & _ & _ & Hmass & _).
  exists rb. split; [exact Hrb |]. split; [exact Hty |].
  split; [exact Htr | exact Hmass].
Defined.

(** *** The colliders of a mesh *)

Lemma create_colliders_bodies (buildable : Shape → bool) (shapes : list Shape)
    (b : N) (w : World) :
  bodies (create_colliders buildable shapes b w).2 = bodies w.
Proof.
  revert w. induction shapes as [| s shapes IH]; intros w; [reflexivity |].
  cbn [create_colliders]. destruct (buildable s); [| reflexivity].
  destruct (createCollider s (Some b) w) as [h w1] eqn:Hc.
  specialize (IH w1). destruct (create_colliders buildable shapes b w1) as [hs w2].
  cbn [snd] in *. rewrite IH. injection Hc as _ <-. reflexivity.
Qed.

Lemma create_colliders_spec (buildable : Shape → bool) (shapes : list Shape)
    (b : N) (w : World) :
  forallb buildable shapes = true →
  (create_colliders buildable shapes b w).1
  = Some (map (λ i, (nextCollider w + N.of_nat i)%N) (seq 0 (length shapes)))
  ∧ nextCollider (create_colliders buildable shapes b w).2
    = (nextCollider w + N.of_nat (length shapes))%N
  ∧ (∀ h, (h < nextCollider w)%N →
          Rapier.colliders (create_colliders buildable shapes b w).2 !! h
          = Rapier.colliders w !! h)
  ∧ (∀ i s, shapes !! i = Some s →
            Rapier.colliders (create_colliders buildable shapes b w).2
              !! (nextCollider w + N.of_nat i)%N
            = Some {| shape := s; parent := Some b; activeEvents := NO_EVENTS |}).
Proof.
  revert w. induction shapes as [| s shapes IH]; intros w Hall.
  - cbn. repeat split; [f_equal; lia |]. intros i s Hs. destruct i; discriminate Hs.
  - cbn [forallb] in Hall. apply andb_prop in Hall as [Hs Hall].
    cbn [create_colliders createCollider]. rewrite Hs.
    set (w1 := {| bodies := bodies w;
                  Rapier.colliders := <[nextCollider w :=
                                  {| shape := s; parent := Some b;
                                     activeEvents := NO_EVENTS |}]>
                               (Rapier.colliders w);
                  nextBody := nextBody w;
                  nextCollider := N.succ (nextCollider w) |}).
    destruct (IH w1 Hall) as (Hhs & Hnext & Hold & Hnew).
    destruct (create_colliders buildable shapes b w1) as [hs w'].
    cbn [fst snd] in *. cbn [nextCollider w1] in *. subst w1.
    cbn [nextCollider bodies Rapier.colliders] in *.
    split; [| split; [| split]].
    + rewrite Hhs. cbn [fmap option_fmap option_map length seq map].
      f_equal. f_equal; [lia |].
      rewrite <- seq_shift, map_map. apply map_ext. intros i. lia.
    + rewrite Hnext. cbn [length]. lia.
    + intros h Hlt. rewrite Hold by lia. apply lookup_insert_ne. lia.
    + intros [| i] s' Hs'.
      * injection Hs' as <-. rewrite N.add_0_r, Hold by lia.
        apply lookup_insert_eq.
      * replace (nextCollider w + N.of_nat (S i))%N
          with (N.succ (nextCollider w) + N.of_nat i)%N by lia.
        apply Hnew. exact Hs'.
Qed.

(** The loop ends at the first shape that the engine cannot build, with
    the world as the shapes before it have left it. *)
Lemma create_colliders_throw (buildable : Shape → bool) (pre post : list Shape)
    (s : Shape) (b : N) (w : World) :
  forallb buildable pre = true → buildable s = false →
  create_colliders buildable (pre ++ s :: post) b w
  = (None, (create_colliders buildable pre b w).2).
Proof.
  revert w. induction pre as [| s0 pre IH]; intros w Hall Hs.
  - cbn. rewrite Hs. reflexivity.
  - cbn [forallb] in Hall. apply andb_prop in Hall as [Hs0 Hall].
    cbn [app create_colliders]. rewrite Hs0.
    destruct (createCollider s0 (Some b) w) as [h w1].
    rewrite (IH w1 Hall Hs).
    destruct (create_colliders buildable pre b w1) as [hs w2]. reflexivity.
Qed.

Lemma enable_events_spec (hs : list N) (w : World) :
  bodies (enable_events hs w) = bodies w
  ∧ ∀ h, Rapier.colliders (enable_events hs w) !! h
         = if bool_decide (h ∈ hs)
           then setActiveEvents COLLISION_EVENTS <$> Rapier.colliders w !! h
           else Rapier.colliders w !! h.
Proof.
  unfold enable_events. revert w. induction hs as [| h0 hs IH]; intros w.
  - cbn. split; [reflexivity |]. intros h.
    rewrite bool_decide_eq_false_2; [reflexivity |]. intros Hin. inversion Hin.
  - cbn [foldl]. destruct (IH (on_collider (setActiveEvents COLLISION_EVENTS) h0 w))
      as [Hb Hh].
    split; [rewrite Hb; reflexivity |].
    intros h. rewrite Hh. cbn [on_collider Rapier.colliders].
    destruct (decide (h = h0)) as [-> | Hne].
    + rewrite lookup_alter_eq.
      rewrite (bool_decide_eq_true_2 (h0 ∈ h0 :: hs)) by apply list_elem_of_here.
      destruct (bool_decide (h0 ∈ hs)); destruct (Rapier.colliders w !! h0);
        reflexivity.
    + rewrite lookup_alter_ne by congruence.
      destruct (decide (h ∈ hs)) as [Hin | Hnin].
      * rewrite (bool_decide_eq_true_2 (h ∈ hs)) by exact Hin.
        rewrite (bool_decide_eq_true_2 (h ∈ h0 :: hs))
          by (apply list_elem_of_further, Hin).
        reflexivity.
      * rewrite (bool_decide_eq_false_2 (h ∈ hs)) by exact Hnin.
        rewrite (bool_decide_eq_false_2 (h ∈ h0 :: hs)); [reflexivity |].
        intros Hin. apply elem_of_cons in Hin as [? | ?]; contradiction.
Qed.

(** X23. The end of a build that waited for its vertices, for any
    engine. The bodies of the world are not touched. When the engine
    builds every sub-mesh, the object ends with the body created before
    the wait and with one collider for each sub-mesh, in the order of the
    sub-meshes: each is a convex hull, or a triangle mesh with the indices,
    of the scaled vertices, is attached to that body and has collision
    events switched on; no sub-mesh means a body without a collider. When
    the engine cannot build a sub-mesh, the call is rejected there: the
    object is as it was, so [this.body] is not assigned, and the colliders
    of the sub-meshes before it are in the world, attached to the body,
    without collision events. *)
Theorem mesh_build_colliders (buildable : Shape → bool) (k : Pending)
    (objects : list Mesh) (o : t) (c : Ctx) :
  bodies (world (state_of (createPhysics_resume buildable k objects o c)).2)
  = bodies (world c)
  ∧ (forallb buildable (map (mesh_shape (p_kind k) (fields o)) objects) = true →
     ∃ o' c',
       createPhysics_resume buildable k objects o c = Fulfilled o' c'
       ∧ body o' = Some (p_body k)
       ∧ PhysicsComponent.colliders o'
         = map (λ i, (nextCollider (world c) + N.of_nat i)%N)
               (seq 0 (length objects))
       ∧ ∀ i mesh, objects !! i = Some mesh →
           Rapier.colliders (world c') !! (nextCollider (world c) + N.of_nat i)%N
           = Some {| shape := mesh_shape (p_kind k) (fields o) mesh;
                     parent := Some (p_body k);
                     activeEvents := COLLISION_EVENTS |})
  ∧ (∀ pre m post, objects = pre ++ m :: post →
       forallb buildable (map (mesh_shape (p_kind k) (fields o)) pre) = true →
       buildable (mesh_shape (p_kind k) (fields o) m) = false →
       ∃ c',
         createPhysics_resume buildable k objects o c = Rejected o c'
         ∧ nextCollider (world c')
           = (nextCollider (world c) + N.of_nat (length pre))%N
         ∧ ∀ i mesh, pre !! i = Some mesh →
             Rapier.colliders (world c') !! (nextCollider (world c) + N.of_nat i)%N
             = Some {| shape := mesh_shape (p_kind k) (fields o) mesh;
                       parent := Some (p_body k);
                       activeEvents := NO_EVENTS |}).
Proof.
  split; [| split].
  - unfold createPhysics_resume.
    pose proof (create_colliders_bodies buildable
                  (map (mesh_shape (p_kind k) (fields o)) objects)
                  (p_body k) (world c)) as Hb.
    destruct (create_colliders _ _ _ _) as [[hs |] w]; cbn [snd] in Hb.
    + destruct (enable_events_spec hs w) as [Hb' _].
      cbn [finish state_of snd world set_world]. rewrite Hb', Hb. reflexivity.
    + exact Hb.
  - intros Hall. unfold createPhysics_resume.
    destruct (create_colliders_spec buildable
                (map (mesh_shape (p_kind k) (fields o)) objects)
                (p_body k) (world c) Hall) as (Hhs & _ & _ & Hnew).
    destruct (create_colliders _ _ _ _) as [hs w]. cbn [fst snd] in *.
    subst hs. rewrite length_map in *.
    cbn [finish]. eexists _, _. split; [reflexivity |].
    cbn [body PhysicsComponent.colliders set_physics world set_world].
    split; [reflexivity |]. split; [reflexivity |].
    intros i mesh Hi.
    match goal with
    | |- context [enable_events ?hs w] =>
        destruct (enable_events_spec hs w) as [_ Hev]
    end.
    rewrite Hev, bool_decide_eq_true_2.
    + rewrite (Hnew i (mesh_shape (p_kind k) (fields o) mesh)); [reflexivity |].
      rewrite list_lookup_fmap, Hi. reflexivity.
    + apply list_elem_of_fmap. exists i. split; [reflexivity |].
      apply elem_of_seq. apply lookup_lt_Some in Hi. lia.
  - intros pre m post -> Hpre Hm. unfold createPhysics_resume.
    rewrite map_app. cbn [map].
    rewrite (create_colliders_throw buildable _ _ _ (p_body k) (world c) Hpre Hm).
    destruct (create_colliders_spec buildable
                (map (mesh_shape (p_kind k) (fields o)) pre)
                (p_body k) (world c) Hpre) as (_ & Hnext & _ & Hnew).
    rewrite length_map in Hnext.
    eexists. split; [reflexivity |]. cbn [world set_world].
    split; [exact Hnext |].
    intros i mesh Hi. apply Hnew. rewrite list_lookup_fmap, Hi. reflexivity.
Qed.

Lemma mesh_build_colliders_bodies (buildable : Shape → bool) (k : Pending)
    (objects : list Mesh) (o : t) (c : Ctx) :
  bodies (world (state_of (createPhysics_resume buildable k objects o c)).2)
  = bodies (world c).
Proof.
  unfold createPhysics_resume.
  pose proof (create_colliders_bodies buildable
                (map (mesh_shape (p_kind k) (fields o)) objects)
                (p_body k) (world c)) as Hb.
  destruct (create_colliders _ _ _ _) as [[hs |] w]; cbn [snd] in Hb.
  - destruct (enable_events_spec hs w) as [Hb' _].
    cbn [finish state_of snd world set_world]. rewrite Hb', Hb. reflexivity.
  - exact Hb.
Qed.

End Shapes.

(** ** The tick of one object *)

Module Ticks.

Import Rapier Host PhysicsComponent.





(** X25. A tick leaves an object alone when it has no body, when its
    body sleeps, or when it is not Dynamic: nothing is written to the
    store and a pending [sendUpdateNextFrame] stays pending. For an awake
    Dynamic body above the height -50 the tick writes the transform of the
    body to the store, once and before anything else, and touches the
    world not at all; without a pending flag it does nothing more. *)
Theorem tick_mirrors_awake_bodies (now : Z) (o : t) (c : Ctx) :
  (body o = None
   ∨ (∃ b, body o = Some b ∧ sleeping (body_at b (world c)) = true)
   ∨ mode o ≠ "Dynamic" →
   loop now o c = Returned o c)
  ∧ (∀ b, body o = Some b → sleeping (body_at b (world c)) = false →
          mode o = "Dynamic" →
          Qle_bool (y (translation (body_at b (world c)))) (-50) = false →
          ∃ o' c', loop now o c = Returned o' c'
                   ∧ world c' = world c
                   ∧ updates c'
                     = updates c
                       ++ [UpdateTransform (objectID o)
                             (translation (body_at b (world c)))
                             (rotation (body_at b (world c)))]
                   ∧ (sendUpdateNextFrame o = false → o' = o ∧ sent c' = sent c)).
Proof.
  split.
  - unfold loop. intros [H | [(b & Hb & Hs) | H]].
    + rewrite H. reflexivity.
    + rewrite Hb, Hs. reflexivity.
    + rewrite (bool_decide_eq_false_2 _ H).
      destruct (body o); [destruct (sleeping _) |]; reflexivity.
  - intros b Hb Hawake Hm Hfloor. unfold loop.
    rewrite Hb, Hawake, (bool_decide_eq_true_2 _ Hm). cbn [negb].
    cbn [objects_update world]. rewrite Hfloor.
    destruct (sendUpdateNextFrame o) eqn:Hflag.
    + match goal with
      | |- context [sendUpdate now o ?c1] =>
          destruct (Broadcast.sendUpdate_cases now o c1)
            as [Hsame | (b' & Hb' & Hs & _ & Hq)];
          [rewrite Hsame
          | rewrite (Broadcast.sendUpdate_sends now o c1 b' Hb' Hs Hm Hq)]
      end;
        eexists _, _; (split; [reflexivity |]); cbn;
        (repeat split); discriminate.
    + eexists _, _. split; [reflexivity |]. cbn. auto.
Qed.

End Ticks.

(** ** The shapes of the single-collider draft *)

Module SingleShapes.

Import Rapier Host SingleCollider.

Lemma Math_max_l a b : (a <= Js.Math_max a b)%Q.
Proof.
  unfold Js.Math_max. destruct (Qle_bool a b) eqn:Hle.
  - apply Qle_bool_iff. exact Hle.
  - apply Qle_refl.
Qed.

Lemma Math_max_r a b : (b <= Js.Math_max a b)%Q.
Proof.
  unfold Js.Math_max. destruct (Qle_bool a b) eqn:Hle.
  - apply Qle_refl.
  - apply Qlt_le_weak, Qnot_le_lt. intros Hab.
    apply Qle_bool_iff in Hab. congruence.
Qed.

Lemma half_of_minimum q : (minimumSize <= q)%Q → (1 # 20 <= q / 2)%Q.
Proof.
  unfold minimumSize, Qle, Qdiv, Qmult, Qinv. destruct q as [n d]. cbn. lia.
Qed.

(** X26. In the single-collider draft no shape is smaller than the
    minimum size 0.1 in any direction, whatever the stored scale, missing
    and negative entries included: the radius of the ball, the half
    extents of the box, and the half height and the radius of the
    cylinder are all at least 0.05. *)
Theorem shapes_have_minimum_size (f : Fields) :
  (∃ r, sphere_shape f = ball r ∧ (1 # 20 <= r)%Q)
  ∧ (∃ hx hy hz, cube_shape f = cuboid hx hy hz
                 ∧ (1 # 20 <= hx)%Q ∧ (1 # 20 <= hy)%Q ∧ (1 # 20 <= hz)%Q)
  ∧ (∃ hh r, cylinder_shape f = cylinder hh r
             ∧ (1 # 20 <= hh)%Q ∧ (1 # 20 <= r)%Q).
Proof.
  split; [| split].
  - eexists. split; [reflexivity |]. apply half_of_minimum, Math_max_l.
  - eexists _, _, _. split; [reflexivity |].
    repeat split; apply half_of_minimum, Math_max_l.
  - eexists _, _. split; [reflexivity |].
    split; [apply half_of_minimum, Math_max_l |].
    apply half_of_minimum.
    eapply Qle_trans; [| apply Math_max_l]. apply Math_max_l.
Qed.

End SingleShapes.

(** ** What holds of every component, and a build that comes late *)

Module Invariants.

Import Rapier Host PhysicsComponent.

(** X27. A component without a body lists no collider: this holds of a
    new instance and every method keeps it; a build that finishes after
    waiting for its vertices establishes it, and one that the engine
    rejects leaves the object as it was. *)
Theorem no_body_no_colliders (now : Z) (data : Message)
    (buildable : Shape → bool) (k : Pending) (objects : list Mesh)
    (id : string) (f : Fields) (s : Settings) (o : t) (c : Ctx) :
  consistent (new id f s)
  ∧ (∀ o' c', createPhysics_resume buildable k objects o c = Fulfilled o' c' →
              consistent o')
  ∧ (consistent o →
     consistent (removePhysics o c).1
     ∧ consistent (obj_of (createPhysics o c))
     ∧ consistent (obj_of (loop now o c))
     ∧ consistent (sendUpdate now o c).1
     ∧ consistent (onRemoteUpdateReceived data o c).1
     ∧ consistent (didCollideWithUser o)
     ∧ consistent (state_of (createPhysics_resume buildable k objects o c)).1).
Proof.
  split; [apply Build.new_consistent |].
  split; [apply Build.createPhysics_resume_consistent |].
  intros Hc.
  split; [apply Build.removePhysics_consistent, Hc |].
  split; [apply Build.createPhysics_consistent, Hc |].
  split; [apply Build.loop_consistent, Hc |].
  destruct (Build.sendUpdate_physics now o c) as [Hb1 Hc1].
  destruct (Build.onRemoteUpdateReceived_physics data o c) as [Hb2 Hc2].
  split; [unfold consistent in *; rewrite Hb1, Hc1; exact Hc |].
  split; [unfold consistent in *; rewrite Hb2, Hc2; exact Hc |].
  split; [exact Hc |].
  apply Build.createPhysics_resume_consistent, Hc.
Qed.

(** X28. Vertices that arrive late are not discarded: when a component
    is unloaded while its build waits for the vertices, the rest of the
    build still runs on arrival. The body that the build had created is in
    the world afterwards, and the component is no longer in the registry.
    When the engine builds every sub-mesh, the unloaded component then
    holds that body, with one collider for each sub-mesh. When the engine
    cannot build one of them, the component stays without a body, and the
    body in the world is held by no one. *)
Theorem late_vertices_revive (buildable : Shape → bool) (r : positive)
    (k : Pending) (objects : list Mesh) (o : t) (p : RapierPhysicsPlugin.t t) :
  RapierPhysicsPlugin.heap p !! r = Some o →
  is_Some (bodies (world (RapierPhysicsPlugin.ctx p)) !! p_body k) →
  body o ≠ Some (p_body k) →
  (r ∉ RapierPhysicsPlugin.physicsObjects
         (Driver.deliver_vertices buildable r k objects (Driver.onUnload r p)))
  ∧ is_Some (bodies (world (RapierPhysicsPlugin.ctx
                              (Driver.deliver_vertices buildable r k objects
                                 (Driver.onUnload r p)))) !! p_body k)
  ∧ (forallb buildable (map (mesh_shape (p_kind k) (fields o)) objects) = true →
     ∃ o', RapierPhysicsPlugin.heap
             (Driver.deliver_vertices buildable r k objects (Driver.onUnload r p))
             !! r = Some o'
           ∧ body o' = Some (p_body k)
           ∧ length (PhysicsComponent.colliders o') = length objects)
  ∧ (forallb buildable (map (mesh_shape (p_kind k) (fields o)) objects) = false →
     ∃ o', RapierPhysicsPlugin.heap
             (Driver.deliver_vertices buildable r k objects (Driver.onUnload r p))
             !! r = Some o'
           ∧ body o' = None).
Proof.
  intros Hr Hlive Hother.
  unfold Driver.deliver_vertices, Driver.onUnload.
  cbn [RapierPhysicsPlugin.heap Driver.set_physicsObjects]. rewrite Hr.
  cbn [RapierPhysicsPlugin.store RapierPhysicsPlugin.heap
       RapierPhysicsPlugin.ctx RapierPhysicsPlugin.physicsObjects
       Driver.set_physicsObjects fst snd].
  rewrite lookup_insert_eq.
  cbn [RapierPhysicsPlugin.store RapierPhysicsPlugin.heap
       RapierPhysicsPlugin.ctx RapierPhysicsPlugin.physicsObjects
       Driver.set_physicsObjects fst snd].
  rewrite lookup_insert_eq.
  pose proof (Build.removePhysics_fields o (RapierPhysicsPlugin.ctx p)) as Hf.
  assert (Hnone : body (removePhysics o (RapierPhysicsPlugin.ctx p)).1 = None).
  { unfold removePhysics. destruct (body o) eqn:Hb; [reflexivity | exact Hb]. }
  split; [| split; [| split]].
  - rewrite list_elem_of_In, filter_In.
    rewrite bool_decide_eq_true_2 by reflexivity. cbn. intros [_ H]. discriminate H.
  - rewrite (Shapes.mesh_build_colliders_bodies buildable k objects
               (removePhysics o (RapierPhysicsPlugin.ctx p)).1
               (removePhysics o (RapierPhysicsPlugin.ctx p)).2).
    unfold removePhysics. destruct (body o) as [b |] eqn:Hb; [| exact Hlive].
    cbn. rewrite lookup_delete_ne by congruence. exact Hlive.
  - intros Hall. rewrite <- Hf in Hall.
    destruct (Build.createPhysics_resume_body buildable k objects _
                (removePhysics o (RapierPhysicsPlugin.ctx p)).2 Hall)
      as (o' & c' & -> & Hb' & Hlen).
    exists o'. split; [reflexivity |]. split; [exact Hb' | exact Hlen].
  - intros Hsome. rewrite <- Hf in Hsome.
    destruct (Build.createPhysics_resume_rejected buildable k objects _
                (removePhysics o (RapierPhysicsPlugin.ctx p)).2 Hsome)
      as (c' & ->).
    eexists. split; [reflexivity | exact Hnone].
Qed.

Lemma late_vertices_revive_witness :
  ∃ p k o,
    (RapierPhysicsPlugin.heap p !! 1%positive = Some o
     ∧ is_Some (bodies (world (RapierPhysicsPlugin.ctx p)) !! p_body k)
     ∧ body o ≠ Some (p_body k))
    ∧ (1%positive ∉ RapierPhysicsPlugin.physicsObjects
                      (Driver.deliver_vertices Samples.builds_all 1 k
                         Samples.tetrahedron (Driver.onUnload 1 p)))
    ∧ (∃ o', RapierPhysicsPlugin.heap
               (Driver.deliver_vertices Samples.builds_all 1 k
                  Samples.tetrahedron (Driver.onUnload 1 p)) !! 1%positive
             = Some o'
             ∧ body o' = Some 0%N)
    ∧ (∃ o', RapierPhysicsPlugin.heap
               (Driver.deliver_vertices Scenes.builds_solids 1 k
                  Scenes.single_point (Driver.onUnload 1 p)) !! 1%positive
             = Some o'
             ∧ body o' = None)
    ∧ is_Some (bodies (world (RapierPhysicsPlugin.ctx
                                (Driver.deliver_vertices Scenes.builds_solids 1 k
                                   Scenes.single_point (Driver.onUnload 1 p))))
                 !! 0%N).
Proof.
  exists Scenes.waiting_plugin, {| p_body := 0; p_kind := Hull |},
         (obj_of (createPhysics (Samples.unbuilt true "Dynamic" "Convex Hull")
                    Samples.ctx0)).
  assert (H1 : RapierPhysicsPlugin.heap Scenes.waiting_plugin !! 1%positive
               = Some (obj_of (createPhysics
                                 (Samples.unbuilt true "Dynamic" "Convex Hull")
                                 Samples.ctx0))) by (vm_compute; reflexivity).
  assert (H2 : is_Some (bodies (world (RapierPhysicsPlugin.ctx Scenes.waiting_plugin))
                          !! p_body {| p_body := 0; p_kind := Hull |}))
    by (eexists; vm_compute; reflexivity).
  assert (H3 : body (obj_of (createPhysics
                               (Samples.unbuilt true "Dynamic" "Convex Hull")
                               Samples.ctx0))
               ≠ Some (p_body {| p_body := 0; p_kind := Hull |}))
    by (vm_compute; discriminate).
  split; [exact (conj H1 (conj H2 H3)) |].
  destruct (late_vertices_revive Samples.builds_all 1 {| p_body := 0; p_kind := Hull |}
              Samples.tetrahedron _ Scenes.waiting_plugin H1 H2 H3)
    as (Hout & _ & Hgood & _).
  destruct (late_vertices_revive Scenes.builds_solids 1
              {| p_body := 0; p_kind := Hull |}
              Scenes.single_point _ Scenes.waiting_plugin H1 H2 H3)
    as (_ & Hworld & _ & Hbad).
  split; [exact Hout |].
  split; [exact (match Hgood eq_refl with
                 | ex_intro _ o' (conj Ho' (conj Hb' _)) =>
                     ex_intro _ o' (conj Ho' Hb')
                 end) |].
  split; [exact (Hbad eq_refl) | exact Hworld].
Defined.

End Invariants.
